(** * The client-side routing proxy of vsomeip

    A shallow embedding of [routing_manager_client] (the routing proxy that
    a non-host application uses to talk to the routing host), followed by the
    properties of its registration state machine, of the replay of pending
    commands, of the request debounce, of the inbound security gate and of
    the remote-subscriber counter; then of its keepalive, of the steps of
    its handshake and of the withdrawal of offers and requests, and of the
    connection handling and the send queue of the client endpoint behind
    its sender.

    Conventions of the embedding.
    - The object is the record [routing_manager_client]; member functions are
      computations of the state monad [M] over it and keep their names.
    - Everything the proxy does to the outside (a frame handed to the sender
      endpoint, a callback of the application host, a call into the base
      class, a WARNING or ERROR log line) is appended to [trace_] in program
      order.  INFO, DEBUG and TRACE log lines are not recorded.
    - Fixed-width integers are [Z]; arithmetic that can wrap is written out.
    - Mutexes are not represented: each member function is one atomic step.
    - Whatever the translation unit only declares (configuration values, the
      codec, the ordering of [protocol::service], constants of the public
      headers, the transport's verdict on a send) is a field of
      [environment]. *)

From stdpp Require Import base gmap list strings.
From stdpp Require sorting.
From Stdlib Require Import Sorted.

Local Open Scope Z_scope.

(** ** Identifiers *)

Abbreviation client_t := Z (only parsing).
Abbreviation service_t := Z (only parsing).
Abbreviation instance_t := Z (only parsing).
Abbreviation eventgroup_t := Z (only parsing).
Abbreviation event_t := Z (only parsing).
Abbreviation major_version_t := Z (only parsing).
Abbreviation minor_version_t := Z (only parsing).
Abbreviation remote_subscription_id_t := Z (only parsing).

(** [inner_state_type_e]: the registration state of the proxy. *)
Inductive inner_state_type_e :=
| ST_REGISTERED
| ST_DEREGISTERED
| ST_REGISTERING
| ST_ASSIGNING
| ST_ASSIGNED.

#[global] Instance inner_state_type_e_eq_dec : EqDecision inner_state_type_e.
Proof. solve_decision. Defined.

(** ** Commands of the control protocol *)

Module protocol.

(** [protocol::service]: a service version, the element type of
    [pending_offers_], [requests_] and [requests_to_debounce_]. *)
Record service := {
  service_ : service_t;
  instance_ : instance_t;
  major_ : major_version_t;
  minor_ : minor_version_t
}.

(** [protocol::register_event], built from the constructor arguments used in
    [send_pending_event_registrations]. *)
Record register_event := {
  re_service : service_t;
  re_instance : instance_t;
  re_notifier : event_t;
  re_type : Z;
  re_is_provided : bool;
  re_reliability : Z;
  re_is_cyclic : bool;
  re_num_eventgroups : Z;
  re_eventgroups : list eventgroup_t
}.

(** The outbound commands built by the member functions below, each with
    the fields the code sets before serializing. *)
Inductive command :=
| assign_client_command (client : client_t) (name : string)
| register_application_command (client : client_t) (port : Z)
| config_command (client : client_t) (hostname : string)
| deregister_application_command (client : client_t)
| registered_ack_command (client : client_t)
| offer_service_command (client : client_t) (s : service)
| stop_offer_service_command (client : client_t) (s : service)
| request_service_command (client : client_t) (services : list service)
| release_service_command (client : client_t) (service : service_t) (instance : instance_t)
| register_events_command (client : client_t) (registrations : list register_event)
| unsubscribe_ack_command (client : client_t) (service : service_t) (instance : instance_t)
    (eventgroup : eventgroup_t) (pending_id : remote_subscription_id_t)
| ping_command (client : client_t)
| pong_command (client : client_t).

(** [protocol::routing_info_entry_type_e]; [RIE_other] stands for any value
    the switch of [on_routing_info] sends to its default branch. *)
Inductive routing_info_entry_type_e :=
| RIE_ADD_CLIENT
| RIE_DELETE_CLIENT
| RIE_ADD_SERVICE_INSTANCE
| RIE_DELETE_SERVICE_INSTANCE
| RIE_other (raw : Z).

(** One entry of a ROUTING_INFO command.  [e_address = None] is an
    unspecified address. *)
Record routing_info_entry := {
  e_type : routing_info_entry_type_e;
  e_client : client_t;
  e_address : option Z;
  e_port : Z;
  e_services : list service
}.

End protocol.

(** [event_data_t]: one element of [pending_event_registrations_]. *)
Record event_data_t := {
  service_ : service_t;
  instance_ : instance_t;
  notifier_ : event_t;
  type_ : Z;
  reliability_ : Z;
  is_provided_ : bool;
  is_cyclic_ : bool;
  eventgroups_ : list eventgroup_t
}.

(** [subscription_data_t]: one parked inbound subscription. *)
Record subscription_data_t := {
  sd_service : service_t;
  sd_instance : instance_t;
  sd_eventgroup : eventgroup_t;
  sd_major : major_version_t;
  sd_event : event_t
}.

(** The body shared by the UNSUBSCRIBE and EXPIRE commands. *)
Record subscription_end := {
  u_client : client_t;
  u_service : service_t;
  u_instance : instance_t;
  u_eventgroup : eventgroup_t;
  u_event : event_t;
  u_pending_id : remote_subscription_id_t
}.

(** An inbound frame after [dummy_command::deserialize]: the command id with
    the result of the command's own [deserialize] ([None] or [false] when it
    does not return ERROR_OK).  [in_other] covers the ids whose handlers are
    outside this development (SEND, SUBSCRIBE and its acknowledgements,
    SUSPEND, the security-policy commands, CONFIG, ...). *)
Inductive inbound :=
| in_assign_client_ack (assigned : option client_t)
| in_routing_info (entries : option (list protocol.routing_info_entry))
| in_ping (ok : bool)
| in_pong (ok : bool)
| in_unsubscribe (body : option subscription_end)
| in_expire (body : option subscription_end)
| in_other (id : Z).

(** ** Observable effects *)

(** The WARNING and ERROR lines of the modelled functions. *)
Inductive log_line :=
| warn_base_offer_service_returned_false
| err_failure_offering_service
| err_offer_service_serialization_failed
| err_stop_offer_serialization_failed
| err_failed_to_send_requested_services
| err_request_service_serialization_failed
| err_failed_to_send_pending_registration
| err_register_event_serialization_failed
| err_failed_sending_registered_ack
| err_registered_ack_serialization_failed
| err_ping_serialization_failed
| err_pong_serialization_failed
| err_unsubscribe_ack_serialization_failed
| err_deregister_application_serialization_failed
| err_register_application_serialization_failed
| err_config_serialization_failed
| err_cannot_register_no_local_server
| err_assign_client_command_creation_failed
| warn_assign_client_non_deregistered_state
| warn_assign_client_sender_not_initialized
| warn_assign_client_not_connected
| warn_keepalive_no_confirmation_from_host
| warn_bound_client_mismatch_skip_message
| warn_routing_info_not_from_routing_manager
| err_dummy_command_deserialization_failed
| err_ping_deserialization_failed
| err_pong_deserialization_failed
| err_unsubscribe_deserialization_failed
| err_expire_deserialization_failed
| err_routing_info_deserialization_failed
| err_credential_check_failed
| err_failure_registering_client
| err_unknown_routing_info_entry_type
| warn_request_client_timeout_trying_again
| warn_register_timeout_trying_again
| warn_assign_timeout_error_code
| warn_receiver_not_started_restarting
| warn_not_started_discarding
| err_invalid_client_id
| warn_received_another_client_identifier
| warn_on_disconnect_resetting_state.

Inductive effect :=
(* sender_->send(buffer) was called with the serialized command and
   returned [ok] *)
| sender_send (c : protocol.command) (ok : bool)
| sender_restart
| receiver_start
| log (l : log_line)
(* routing_manager_host *)
| host_on_state (s : inner_state_type_e)
| host_set_client (c : client_t)
| host_on_subscription (service : service_t) (instance : instance_t)
    (eventgroup : eventgroup_t) (client : client_t) (subscribed : bool)
| host_on_availability (s : protocol.service) (available : bool)
(* routing_manager_base and the other collaborators *)
| base_offer_service (client : client_t) (s : protocol.service)
| base_stop_offer_service (client : client_t) (s : protocol.service)
| base_request_service (client : client_t) (s : protocol.service)
| base_release_service (client : client_t) (service : service_t) (instance : instance_t)
| base_unsubscribe (client : client_t) (service : service_t) (instance : instance_t)
    (eventgroup : eventgroup_t) (event : event_t)
| clear_service_info (service : service_t) (instance : instance_t)
| remove_pending_subscription (service : service_t) (instance : instance_t)
    (eventgroup : eventgroup_t) (event : event_t)
| add_guest (client : client_t) (address : Z) (port : Z)
| remove_local (client : client_t)
| find_or_create_local (client : client_t)
| store_client_to_sec_client_mappings (client : client_t)
| remove_client_to_sec_client_mapping (client : client_t)
| local_services_insert (s : protocol.service) (client : client_t)
| local_services_erase (s : protocol.service) (client : client_t)
| send_pending_subscriptions (service : service_t) (instance : instance_t)
    (major : major_version_t)
| on_stop_offer_service (s : protocol.service)
| state_condition_notify_one
| post_handle_client_error (client : client_t)
| dispatch_other (id : Z) (client : client_t).

(** The completion handler bound to [register_application_timer_]. *)
Inductive timer_handler :=
| assign_client_timeout_cbk_handler
| register_application_timeout_cbk_handler.

(** ** What the translation unit takes from its surroundings *)

Record environment := {
  (* configuration *)
  is_security_enabled : bool;
  is_local_routing : bool;
  routing_host_id : client_t;
  routing_host_address : Z;
  routing_host_port : Z;
  request_debounce_time : Z;
  is_local_clients_keepalive_enabled : bool;
  local_clients_keepalive_time : Z;
  has_policy_manager : bool;
  check_credentials : client_t -> bool;
  host_name : string;
  client_host : string;
  (* codec: whether serialize() yields ERROR_OK, whether add_registration
     accepts one more registration into a register_events_command *)
  serialize_ok : protocol.command -> bool;
  add_registration_fits :
    list protocol.register_event -> protocol.register_event -> bool;
  (* operator< of protocol::service *)
  service_lt : protocol.service -> protocol.service -> bool;
  (* transport: the result of the n-th call of sender_->send, whether
     create_local_server yields an endpoint, and its local port *)
  send_result : nat -> protocol.command -> bool;
  create_local_server_ok : bool;
  receiver_local_port : Z;
  (* routing_manager_base::offer_service's return value *)
  base_offer_service_result : protocol.service -> bool;
  (* constants of the public headers *)
  VSOMEIP_CLIENT_UNSET : client_t;
  VSOMEIP_ROUTING_CLIENT : client_t;
  PENDING_SUBSCRIPTION_ID : remote_subscription_id_t;
  ANY_EVENT : event_t
}.

(** ** The proxy object *)

(** The members of [routing_manager_client] the modelled functions use.
    - [client_] is what [get_client()] returns (the host's client id);
    - [sender_] and [receiver_] are [true] when the pointer is non-null;
    - a timer is [Some] while an asynchronous wait is pending on it
      ([keepalive_timer_] and [request_debounce_timer_] with the expiry in
      ms, [register_application_timer_] with the bound handler).  A cancel
      drops the wait; the handler it completes with [operation_aborted] has
      no effect where the modelled code cancels: the two watchdog handlers
      return on that code, and [check_keepalive] finds [keepalive_active_]
      cleared;
    - the three sets of [protocol::service] are lists in iteration order;
    - [remote_subscriber_count_] is service -> instance -> eventgroup -> u32;
    - [known_clients_] and [pending_incoming_subscriptions_] are maps kept
      as association lists in ascending key order;
    - [sends_] counts the calls of [sender_->send] so far. *)
Record routing_manager_client := {
  state_ : inner_state_type_e;
  client_ : client_t;
  is_connected_ : bool;
  is_started_ : bool;
  sender_ : bool;
  receiver_ : bool;
  keepalive_active_ : bool;
  keepalive_is_alive_ : bool;
  keepalive_timer_ : option Z;
  register_application_timer_ : option timer_handler;
  request_debounce_timer_ : option Z;
  request_debounce_timer_running_ : bool;
  pending_offers_ : list protocol.service;
  requests_ : list protocol.service;
  requests_to_debounce_ : list protocol.service;
  pending_event_registrations_ : list event_data_t;
  remote_subscriber_count_ : gmap Z (gmap Z (gmap Z Z));
  known_clients_ : list (client_t * string);
  pending_incoming_subscriptions_ : list (client_t * list subscription_data_t);
  sends_ : nat;
  trace_ : list effect
}.

Definition set_state (v : inner_state_type_e) (st : routing_manager_client)
  : routing_manager_client :=
  {| state_ := v; client_ := client_ st; is_connected_ := is_connected_ st;
     is_started_ := is_started_ st; sender_ := sender_ st; receiver_ := receiver_ st;
     keepalive_active_ := keepalive_active_ st; keepalive_is_alive_ := keepalive_is_alive_ st;
     keepalive_timer_ := keepalive_timer_ st;
     register_application_timer_ := register_application_timer_ st;
     request_debounce_timer_ := request_debounce_timer_ st;
     request_debounce_timer_running_ := request_debounce_timer_running_ st;
     pending_offers_ := pending_offers_ st; requests_ := requests_ st;
     requests_to_debounce_ := requests_to_debounce_ st;
     pending_event_registrations_ := pending_event_registrations_ st;
     remote_subscriber_count_ := remote_subscriber_count_ st;
     known_clients_ := known_clients_ st;
     pending_incoming_subscriptions_ := pending_incoming_subscriptions_ st;
     sends_ := sends_ st; trace_ := trace_ st |}.

Definition set_client (v : client_t) (st : routing_manager_client)
  : routing_manager_client :=
  {| state_ := state_ st; client_ := v; is_connected_ := is_connected_ st;
     is_started_ := is_started_ st; sender_ := sender_ st; receiver_ := receiver_ st;
     keepalive_active_ := keepalive_active_ st; keepalive_is_alive_ := keepalive_is_alive_ st;
     keepalive_timer_ := keepalive_timer_ st;
     register_application_timer_ := register_application_timer_ st;
     request_debounce_timer_ := request_debounce_timer_ st;
     request_debounce_timer_running_ := request_debounce_timer_running_ st;
     pending_offers_ := pending_offers_ st; requests_ := requests_ st;
     requests_to_debounce_ := requests_to_debounce_ st;
     pending_event_registrations_ := pending_event_registrations_ st;
     remote_subscriber_count_ := remote_subscriber_count_ st;
     known_clients_ := known_clients_ st;
     pending_incoming_subscriptions_ := pending_incoming_subscriptions_ st;
     sends_ := sends_ st; trace_ := trace_ st |}.

Definition set_is_connected (v : bool) (st : routing_manager_client)
  : routing_manager_client :=
  {| state_ := state_ st; client_ := client_ st; is_connected_ := v;
     is_started_ := is_started_ st; sender_ := sender_ st; receiver_ := receiver_ st;
     keepalive_active_ := keepalive_active_ st; keepalive_is_alive_ := keepalive_is_alive_ st;
     keepalive_timer_ := keepalive_timer_ st;
     register_application_timer_ := register_application_timer_ st;
     request_debounce_timer_ := request_debounce_timer_ st;
     request_debounce_timer_running_ := request_debounce_timer_running_ st;
     pending_offers_ := pending_offers_ st; requests_ := requests_ st;
     requests_to_debounce_ := requests_to_debounce_ st;
     pending_event_registrations_ := pending_event_registrations_ st;
     remote_subscriber_count_ := remote_subscriber_count_ st;
     known_clients_ := known_clients_ st;
     pending_incoming_subscriptions_ := pending_incoming_subscriptions_ st;
     sends_ := sends_ st; trace_ := trace_ st |}.

Definition set_sender (v : bool) (st : routing_manager_client)
  : routing_manager_client :=
  {| state_ := state_ st; client_ := client_ st; is_connected_ := is_connected_ st;
     is_started_ := is_started_ st; sender_ := v; receiver_ := receiver_ st;
     keepalive_active_ := keepalive_active_ st; keepalive_is_alive_ := keepalive_is_alive_ st;
     keepalive_timer_ := keepalive_timer_ st;
     register_application_timer_ := register_application_timer_ st;
     request_debounce_timer_ := request_debounce_timer_ st;
     request_debounce_timer_running_ := request_debounce_timer_running_ st;
     pending_offers_ := pending_offers_ st; requests_ := requests_ st;
     requests_to_debounce_ := requests_to_debounce_ st;
     pending_event_registrations_ := pending_event_registrations_ st;
     remote_subscriber_count_ := remote_subscriber_count_ st;
     known_clients_ := known_clients_ st;
     pending_incoming_subscriptions_ := pending_incoming_subscriptions_ st;
     sends_ := sends_ st; trace_ := trace_ st |}.

Definition set_receiver (v : bool) (st : routing_manager_client)
  : routing_manager_client :=
  {| state_ := state_ st; client_ := client_ st; is_connected_ := is_connected_ st;
     is_started_ := is_started_ st; sender_ := sender_ st; receiver_ := v;
     keepalive_active_ := keepalive_active_ st; keepalive_is_alive_ := keepalive_is_alive_ st;
     keepalive_timer_ := keepalive_timer_ st;
     register_application_timer_ := register_application_timer_ st;
     request_debounce_timer_ := request_debounce_timer_ st;
     request_debounce_timer_running_ := request_debounce_timer_running_ st;
     pending_offers_ := pending_offers_ st; requests_ := requests_ st;
     requests_to_debounce_ := requests_to_debounce_ st;
     pending_event_registrations_ := pending_event_registrations_ st;
     remote_subscriber_count_ := remote_subscriber_count_ st;
     known_clients_ := known_clients_ st;
     pending_incoming_subscriptions_ := pending_incoming_subscriptions_ st;
     sends_ := sends_ st; trace_ := trace_ st |}.

Definition set_keepalive_active (v : bool) (st : routing_manager_client)
  : routing_manager_client :=
  {| state_ := state_ st; client_ := client_ st; is_connected_ := is_connected_ st;
     is_started_ := is_started_ st; sender_ := sender_ st; receiver_ := receiver_ st;
     keepalive_active_ := v; keepalive_is_alive_ := keepalive_is_alive_ st;
     keepalive_timer_ := keepalive_timer_ st;
     register_application_timer_ := register_application_timer_ st;
     request_debounce_timer_ := request_debounce_timer_ st;
     request_debounce_timer_running_ := request_debounce_timer_running_ st;
     pending_offers_ := pending_offers_ st; requests_ := requests_ st;
     requests_to_debounce_ := requests_to_debounce_ st;
     pending_event_registrations_ := pending_event_registrations_ st;
     remote_subscriber_count_ := remote_subscriber_count_ st;
     known_clients_ := known_clients_ st;
     pending_incoming_subscriptions_ := pending_incoming_subscriptions_ st;
     sends_ := sends_ st; trace_ := trace_ st |}.

Definition set_keepalive_is_alive (v : bool) (st : routing_manager_client)
  : routing_manager_client :=
  {| state_ := state_ st; client_ := client_ st; is_connected_ := is_connected_ st;
     is_started_ := is_started_ st; sender_ := sender_ st; receiver_ := receiver_ st;
     keepalive_active_ := keepalive_active_ st; keepalive_is_alive_ := v;
     keepalive_timer_ := keepalive_timer_ st;
     register_application_timer_ := register_application_timer_ st;
     request_debounce_timer_ := request_debounce_timer_ st;
     request_debounce_timer_running_ := request_debounce_timer_running_ st;
     pending_offers_ := pending_offers_ st; requests_ := requests_ st;
     requests_to_debounce_ := requests_to_debounce_ st;
     pending_event_registrations_ := pending_event_registrations_ st;
     remote_subscriber_count_ := remote_subscriber_count_ st;
     known_clients_ := known_clients_ st;
     pending_incoming_subscriptions_ := pending_incoming_subscriptions_ st;
     sends_ := sends_ st; trace_ := trace_ st |}.

Definition set_keepalive_timer (v : option Z) (st : routing_manager_client)
  : routing_manager_client :=
  {| state_ := state_ st; client_ := client_ st; is_connected_ := is_connected_ st;
     is_started_ := is_started_ st; sender_ := sender_ st; receiver_ := receiver_ st;
     keepalive_active_ := keepalive_active_ st; keepalive_is_alive_ := keepalive_is_alive_ st;
     keepalive_timer_ := v; register_application_timer_ := register_application_timer_ st;
     request_debounce_timer_ := request_debounce_timer_ st;
     request_debounce_timer_running_ := request_debounce_timer_running_ st;
     pending_offers_ := pending_offers_ st; requests_ := requests_ st;
     requests_to_debounce_ := requests_to_debounce_ st;
     pending_event_registrations_ := pending_event_registrations_ st;
     remote_subscriber_count_ := remote_subscriber_count_ st;
     known_clients_ := known_clients_ st;
     pending_incoming_subscriptions_ := pending_incoming_subscriptions_ st;
     sends_ := sends_ st; trace_ := trace_ st |}.

Definition set_register_application_timer (v : option timer_handler) (st : routing_manager_client)
  : routing_manager_client :=
  {| state_ := state_ st; client_ := client_ st; is_connected_ := is_connected_ st;
     is_started_ := is_started_ st; sender_ := sender_ st; receiver_ := receiver_ st;
     keepalive_active_ := keepalive_active_ st; keepalive_is_alive_ := keepalive_is_alive_ st;
     keepalive_timer_ := keepalive_timer_ st; register_application_timer_ := v;
     request_debounce_timer_ := request_debounce_timer_ st;
     request_debounce_timer_running_ := request_debounce_timer_running_ st;
     pending_offers_ := pending_offers_ st; requests_ := requests_ st;
     requests_to_debounce_ := requests_to_debounce_ st;
     pending_event_registrations_ := pending_event_registrations_ st;
     remote_subscriber_count_ := remote_subscriber_count_ st;
     known_clients_ := known_clients_ st;
     pending_incoming_subscriptions_ := pending_incoming_subscriptions_ st;
     sends_ := sends_ st; trace_ := trace_ st |}.

Definition set_request_debounce_timer (v : option Z) (st : routing_manager_client)
  : routing_manager_client :=
  {| state_ := state_ st; client_ := client_ st; is_connected_ := is_connected_ st;
     is_started_ := is_started_ st; sender_ := sender_ st; receiver_ := receiver_ st;
     keepalive_active_ := keepalive_active_ st; keepalive_is_alive_ := keepalive_is_alive_ st;
     keepalive_timer_ := keepalive_timer_ st;
     register_application_timer_ := register_application_timer_ st;
     request_debounce_timer_ := v;
     request_debounce_timer_running_ := request_debounce_timer_running_ st;
     pending_offers_ := pending_offers_ st; requests_ := requests_ st;
     requests_to_debounce_ := requests_to_debounce_ st;
     pending_event_registrations_ := pending_event_registrations_ st;
     remote_subscriber_count_ := remote_subscriber_count_ st;
     known_clients_ := known_clients_ st;
     pending_incoming_subscriptions_ := pending_incoming_subscriptions_ st;
     sends_ := sends_ st; trace_ := trace_ st |}.

Definition set_request_debounce_timer_running (v : bool) (st : routing_manager_client)
  : routing_manager_client :=
  {| state_ := state_ st; client_ := client_ st; is_connected_ := is_connected_ st;
     is_started_ := is_started_ st; sender_ := sender_ st; receiver_ := receiver_ st;
     keepalive_active_ := keepalive_active_ st; keepalive_is_alive_ := keepalive_is_alive_ st;
     keepalive_timer_ := keepalive_timer_ st;
     register_application_timer_ := register_application_timer_ st;
     request_debounce_timer_ := request_debounce_timer_ st;
     request_debounce_timer_running_ := v; pending_offers_ := pending_offers_ st;
     requests_ := requests_ st; requests_to_debounce_ := requests_to_debounce_ st;
     pending_event_registrations_ := pending_event_registrations_ st;
     remote_subscriber_count_ := remote_subscriber_count_ st;
     known_clients_ := known_clients_ st;
     pending_incoming_subscriptions_ := pending_incoming_subscriptions_ st;
     sends_ := sends_ st; trace_ := trace_ st |}.

Definition set_pending_offers (v : list protocol.service) (st : routing_manager_client)
  : routing_manager_client :=
  {| state_ := state_ st; client_ := client_ st; is_connected_ := is_connected_ st;
     is_started_ := is_started_ st; sender_ := sender_ st; receiver_ := receiver_ st;
     keepalive_active_ := keepalive_active_ st; keepalive_is_alive_ := keepalive_is_alive_ st;
     keepalive_timer_ := keepalive_timer_ st;
     register_application_timer_ := register_application_timer_ st;
     request_debounce_timer_ := request_debounce_timer_ st;
     request_debounce_timer_running_ := request_debounce_timer_running_ st;
     pending_offers_ := v; requests_ := requests_ st;
     requests_to_debounce_ := requests_to_debounce_ st;
     pending_event_registrations_ := pending_event_registrations_ st;
     remote_subscriber_count_ := remote_subscriber_count_ st;
     known_clients_ := known_clients_ st;
     pending_incoming_subscriptions_ := pending_incoming_subscriptions_ st;
     sends_ := sends_ st; trace_ := trace_ st |}.

Definition set_requests (v : list protocol.service) (st : routing_manager_client)
  : routing_manager_client :=
  {| state_ := state_ st; client_ := client_ st; is_connected_ := is_connected_ st;
     is_started_ := is_started_ st; sender_ := sender_ st; receiver_ := receiver_ st;
     keepalive_active_ := keepalive_active_ st; keepalive_is_alive_ := keepalive_is_alive_ st;
     keepalive_timer_ := keepalive_timer_ st;
     register_application_timer_ := register_application_timer_ st;
     request_debounce_timer_ := request_debounce_timer_ st;
     request_debounce_timer_running_ := request_debounce_timer_running_ st;
     pending_offers_ := pending_offers_ st; requests_ := v;
     requests_to_debounce_ := requests_to_debounce_ st;
     pending_event_registrations_ := pending_event_registrations_ st;
     remote_subscriber_count_ := remote_subscriber_count_ st;
     known_clients_ := known_clients_ st;
     pending_incoming_subscriptions_ := pending_incoming_subscriptions_ st;
     sends_ := sends_ st; trace_ := trace_ st |}.

Definition set_requests_to_debounce (v : list protocol.service) (st : routing_manager_client)
  : routing_manager_client :=
  {| state_ := state_ st; client_ := client_ st; is_connected_ := is_connected_ st;
     is_started_ := is_started_ st; sender_ := sender_ st; receiver_ := receiver_ st;
     keepalive_active_ := keepalive_active_ st; keepalive_is_alive_ := keepalive_is_alive_ st;
     keepalive_timer_ := keepalive_timer_ st;
     register_application_timer_ := register_application_timer_ st;
     request_debounce_timer_ := request_debounce_timer_ st;
     request_debounce_timer_running_ := request_debounce_timer_running_ st;
     pending_offers_ := pending_offers_ st; requests_ := requests_ st;
     requests_to_debounce_ := v;
     pending_event_registrations_ := pending_event_registrations_ st;
     remote_subscriber_count_ := remote_subscriber_count_ st;
     known_clients_ := known_clients_ st;
     pending_incoming_subscriptions_ := pending_incoming_subscriptions_ st;
     sends_ := sends_ st; trace_ := trace_ st |}.

Definition set_remote_subscriber_count (v : gmap Z (gmap Z (gmap Z Z))) (st : routing_manager_client)
  : routing_manager_client :=
  {| state_ := state_ st; client_ := client_ st; is_connected_ := is_connected_ st;
     is_started_ := is_started_ st; sender_ := sender_ st; receiver_ := receiver_ st;
     keepalive_active_ := keepalive_active_ st; keepalive_is_alive_ := keepalive_is_alive_ st;
     keepalive_timer_ := keepalive_timer_ st;
     register_application_timer_ := register_application_timer_ st;
     request_debounce_timer_ := request_debounce_timer_ st;
     request_debounce_timer_running_ := request_debounce_timer_running_ st;
     pending_offers_ := pending_offers_ st; requests_ := requests_ st;
     requests_to_debounce_ := requests_to_debounce_ st;
     pending_event_registrations_ := pending_event_registrations_ st;
     remote_subscriber_count_ := v; known_clients_ := known_clients_ st;
     pending_incoming_subscriptions_ := pending_incoming_subscriptions_ st;
     sends_ := sends_ st; trace_ := trace_ st |}.

Definition set_known_clients (v : list (client_t * string)) (st : routing_manager_client)
  : routing_manager_client :=
  {| state_ := state_ st; client_ := client_ st; is_connected_ := is_connected_ st;
     is_started_ := is_started_ st; sender_ := sender_ st; receiver_ := receiver_ st;
     keepalive_active_ := keepalive_active_ st; keepalive_is_alive_ := keepalive_is_alive_ st;
     keepalive_timer_ := keepalive_timer_ st;
     register_application_timer_ := register_application_timer_ st;
     request_debounce_timer_ := request_debounce_timer_ st;
     request_debounce_timer_running_ := request_debounce_timer_running_ st;
     pending_offers_ := pending_offers_ st; requests_ := requests_ st;
     requests_to_debounce_ := requests_to_debounce_ st;
     pending_event_registrations_ := pending_event_registrations_ st;
     remote_subscriber_count_ := remote_subscriber_count_ st; known_clients_ := v;
     pending_incoming_subscriptions_ := pending_incoming_subscriptions_ st;
     sends_ := sends_ st; trace_ := trace_ st |}.

Definition set_pending_incoming_subscriptions (v : list (client_t * list subscription_data_t)) (st : routing_manager_client)
  : routing_manager_client :=
  {| state_ := state_ st; client_ := client_ st; is_connected_ := is_connected_ st;
     is_started_ := is_started_ st; sender_ := sender_ st; receiver_ := receiver_ st;
     keepalive_active_ := keepalive_active_ st; keepalive_is_alive_ := keepalive_is_alive_ st;
     keepalive_timer_ := keepalive_timer_ st;
     register_application_timer_ := register_application_timer_ st;
     request_debounce_timer_ := request_debounce_timer_ st;
     request_debounce_timer_running_ := request_debounce_timer_running_ st;
     pending_offers_ := pending_offers_ st; requests_ := requests_ st;
     requests_to_debounce_ := requests_to_debounce_ st;
     pending_event_registrations_ := pending_event_registrations_ st;
     remote_subscriber_count_ := remote_subscriber_count_ st;
     known_clients_ := known_clients_ st; pending_incoming_subscriptions_ := v;
     sends_ := sends_ st; trace_ := trace_ st |}.

Definition set_sends (v : nat) (st : routing_manager_client)
  : routing_manager_client :=
  {| state_ := state_ st; client_ := client_ st; is_connected_ := is_connected_ st;
     is_started_ := is_started_ st; sender_ := sender_ st; receiver_ := receiver_ st;
     keepalive_active_ := keepalive_active_ st; keepalive_is_alive_ := keepalive_is_alive_ st;
     keepalive_timer_ := keepalive_timer_ st;
     register_application_timer_ := register_application_timer_ st;
     request_debounce_timer_ := request_debounce_timer_ st;
     request_debounce_timer_running_ := request_debounce_timer_running_ st;
     pending_offers_ := pending_offers_ st; requests_ := requests_ st;
     requests_to_debounce_ := requests_to_debounce_ st;
     pending_event_registrations_ := pending_event_registrations_ st;
     remote_subscriber_count_ := remote_subscriber_count_ st;
     known_clients_ := known_clients_ st;
     pending_incoming_subscriptions_ := pending_incoming_subscriptions_ st; sends_ := v;
     trace_ := trace_ st |}.

Definition set_trace (v : list effect) (st : routing_manager_client)
  : routing_manager_client :=
  {| state_ := state_ st; client_ := client_ st; is_connected_ := is_connected_ st;
     is_started_ := is_started_ st; sender_ := sender_ st; receiver_ := receiver_ st;
     keepalive_active_ := keepalive_active_ st; keepalive_is_alive_ := keepalive_is_alive_ st;
     keepalive_timer_ := keepalive_timer_ st;
     register_application_timer_ := register_application_timer_ st;
     request_debounce_timer_ := request_debounce_timer_ st;
     request_debounce_timer_running_ := request_debounce_timer_running_ st;
     pending_offers_ := pending_offers_ st; requests_ := requests_ st;
     requests_to_debounce_ := requests_to_debounce_ st;
     pending_event_registrations_ := pending_event_registrations_ st;
     remote_subscriber_count_ := remote_subscriber_count_ st;
     known_clients_ := known_clients_ st;
     pending_incoming_subscriptions_ := pending_incoming_subscriptions_ st;
     sends_ := sends_ st; trace_ := v |}.

(** ** The state monad of member functions *)

Definition M (A : Type) : Type := routing_manager_client -> A * routing_manager_client.

Definition ret {A} (a : A) : M A := fun st => (a, st).

Definition bind {A B} (m : M A) (k : A -> M B) : M B :=
  fun st => k (fst (m st)) (snd (m st)).

Definition gets {A} (f : routing_manager_client -> A) : M A := fun st => (f st, st).

Definition modify (f : routing_manager_client -> routing_manager_client) : M unit :=
  fun st => (tt, f st).

Definition emit (e : effect) : M unit :=
  modify (fun st => set_trace (trace_ st ++ [e]) st).

Definition when (b : bool) (m : M unit) : M unit := if b then m else ret tt.

(** Running a member function for its final object. *)
Definition exec {A} (m : M A) (st : routing_manager_client) : routing_manager_client :=
  snd (m st).

Declare Scope rmc_scope.
Delimit Scope rmc_scope with rmc.
Notation "x <- c1 ;; c2" := (bind c1 (fun x => c2))
  (at level 100, c1 at next level, c2 at level 200, right associativity) : rmc_scope.
Notation "c1 ;; c2" := (bind c1 (fun _ => c2))
  (at level 100, c2 at level 200, right associativity) : rmc_scope.

(** [for (x : xs) body(x)] *)
Fixpoint for_each {A} (xs : list A) (body : A -> M unit) : M unit :=
  match xs with
  | [] => ret tt
  | x :: xs' => bind (body x) (fun _ => for_each xs' body)
  end.

(** ** Containers *)

(** [std::set<protocol::service>] as the list of its elements in iteration
    order; [lt] is the element type's [operator<]. *)
Section ServiceSet.
Variable lt : protocol.service -> protocol.service -> bool.

(** [set.insert(x)]: no effect when an element equivalent to [x] (neither
    less than the other) is present. *)
Fixpoint set_insert (x : protocol.service) (s : list protocol.service)
  : list protocol.service :=
  match s with
  | [] => [x]
  | y :: s' =>
      if lt x y then x :: s
      else if lt y x then y :: set_insert x s'
      else s
  end.

(** [set.insert(first, last)] *)
Definition set_insert_range (xs s : list protocol.service) : list protocol.service :=
  fold_left (fun acc x => set_insert x acc) xs s.

End ServiceSet.

(** The search loop of [release_service] and [stop_offer_service]: the
    iterator stops at the first element with the given service and instance
    (or at [end()]), and that element is erased. *)
Definition matches_service_instance (service : service_t) (instance : instance_t)
    (x : protocol.service) : bool :=
  (protocol.service_ x =? service) && (protocol.instance_ x =? instance).

Fixpoint erase_first (p : protocol.service -> bool) (s : list protocol.service)
  : list protocol.service :=
  match s with
  | [] => []
  | y :: s' => if p y then s' else y :: erase_first p s'
  end.

(** [std::map<client_t, V>] as an association list in ascending key order. *)
Section ClientMap.
Context {V : Type}.

Fixpoint map_find (k : client_t) (m : list (client_t * V)) : option V :=
  match m with
  | [] => None
  | (k', v) :: m' => if k =? k' then Some v else map_find k m'
  end.

(** [m[k] = v] *)
Fixpoint map_assign (k : client_t) (v : V) (m : list (client_t * V))
  : list (client_t * V) :=
  match m with
  | [] => [(k, v)]
  | (k', v') :: m' =>
      if k <? k' then (k, v) :: m
      else if k =? k' then (k, v) :: m'
      else (k', v') :: map_assign k v m'
  end.

(** [m.erase(k)] *)
Fixpoint map_erase (k : client_t) (m : list (client_t * V)) : list (client_t * V) :=
  match m with
  | [] => []
  | (k', v') :: m' => if k =? k' then m' else (k', v') :: map_erase k m'
  end.

End ClientMap.

(** The value of [remote_subscriber_count_] at a key, 0 where there is no
    entry. *)
Definition remote_subscriber_count_lookup (m : gmap Z (gmap Z (gmap Z Z)))
    (service : service_t) (instance : instance_t) (eventgroup : eventgroup_t)
  : option Z :=
  mi ← m !! service; me ← mi !! instance; me !! eventgroup.

(** [m[service][instance][eventgroup] = v], creating the inner maps that
    are missing. *)
Definition remote_subscriber_count_assign (m : gmap Z (gmap Z (gmap Z Z)))
    (service : service_t) (instance : instance_t) (eventgroup : eventgroup_t) (v : Z)
  : gmap Z (gmap Z (gmap Z Z)) :=
  let mi := default ∅ (m !! service) in
  let me := default ∅ (mi !! instance) in
  <[service := <[instance := <[eventgroup := v]> me]> mi]> m.

Arguments remote_subscriber_count_lookup : simpl never.
Arguments remote_subscriber_count_assign : simpl never.

(** ** Member functions *)

Section Proxy.
Variable E : environment.

Local Open Scope rmc_scope.

Definition get_client : M client_t := gets client_.

(** [get_env_unlocked] *)
Definition get_env_unlocked (client : client_t) (st : routing_manager_client) : string :=
  default EmptyString (map_find client (known_clients_ st)).

(** The call [sender_->send(&its_buffer[0], size)] on a non-null sender. *)
Definition sender_send_buffer (c : protocol.command) : M bool :=
  fun st =>
    let ok := send_result E (sends_ st) c in
    (ok, set_trace (trace_ st ++ [sender_send c ok]) (set_sends (S (sends_ st)) st)).

(** [sender_ && sender_->send(...)] *)
Definition sender_and_send (c : protocol.command) : M bool :=
  has_sender <- gets sender_ ;;
  if has_sender then sender_send_buffer c else ret false.

(** [if (sender_) { sender_->send(...); }] *)
Definition if_sender_send (c : protocol.command) : M unit :=
  has_sender <- gets sender_ ;;
  if has_sender then (_ <- sender_send_buffer c ;; ret tt) else ret tt.

Definition start_keepalive : M unit :=
  active <- gets keepalive_active_ ;;
  when (negb active && is_local_clients_keepalive_enabled E)
    (modify (set_keepalive_active true) ;;
     modify (set_keepalive_is_alive true) ;;
     modify (set_keepalive_timer (Some (local_clients_keepalive_time E)))).

Definition ping_host : M unit :=
  its_client <- get_client ;;
  let its_command := protocol.ping_command its_client in
  if serialize_ok E its_command then if_sender_send its_command
  else emit (log err_ping_serialization_failed).

Definition check_keepalive : M unit :=
  active <- gets keepalive_active_ ;;
  alive <- gets keepalive_is_alive_ ;;
  send_probe <-
    (if active then
       if alive then
         modify (set_keepalive_is_alive false) ;;
         modify (set_keepalive_timer (Some (local_clients_keepalive_time E))) ;;
         ret true
       else
         emit (log warn_keepalive_no_confirmation_from_host) ;;
         emit (post_handle_client_error (VSOMEIP_ROUTING_CLIENT E)) ;;
         ret false
     else ret false) ;;
  when send_probe ping_host.

Definition cancel_keepalive : M unit :=
  active <- gets keepalive_active_ ;;
  when (active && is_local_clients_keepalive_enabled E)
    (modify (set_keepalive_active false) ;;
     modify (set_keepalive_timer None)).

Definition on_pong (client : client_t) : M unit :=
  when (client =? VSOMEIP_ROUTING_CLIENT E) (modify (set_keepalive_is_alive true)).

Definition send_offer_service (_client : client_t) (s : protocol.service) : M bool :=
  its_client <- get_client ;;
  let its_offer := protocol.offer_service_command its_client s in
  if serialize_ok E its_offer then
    sent <- sender_and_send its_offer ;;
    if sent then ret true
    else emit (log err_failure_offering_service) ;; ret false
  else emit (log err_offer_service_serialization_failed) ;; ret false.

Definition offer_service (_client : client_t) (s : protocol.service) : M bool :=
  emit (base_offer_service _client s) ;;
  when (negb (base_offer_service_result E s))
    (emit (log warn_base_offer_service_returned_false)) ;;
  state <- gets state_ ;;
  (if decide (state = ST_REGISTERED)
   then (_ <- send_offer_service _client s ;; ret tt)
   else ret tt) ;;
  modify (fun st => set_pending_offers (set_insert (service_lt E) s (pending_offers_ st)) st) ;;
  ret true.

(** [clear_remote_subscriber_count] *)
Definition clear_remote_subscriber_count (service : service_t) (instance : instance_t)
  : M unit :=
  modify (fun st =>
    let m := remote_subscriber_count_ st in
    match m !! service with
    | Some mi =>
        match mi !! instance with
        | Some _ =>
            let mi' := delete instance mi in
            if decide (size mi' = 0%nat)
            then set_remote_subscriber_count (delete service m) st
            else set_remote_subscriber_count (<[service := mi']> m) st
        | None => st
        end
    | None => st
    end).

Definition stop_offer_service (_client : client_t) (s : protocol.service) : M unit :=
  let service := protocol.service_ s in
  let instance := protocol.instance_ s in
  emit (base_stop_offer_service _client s) ;;
  clear_remote_subscriber_count service instance ;;
  emit (clear_service_info service instance) ;;
  state <- gets state_ ;;
  (if decide (state = ST_REGISTERED) then
     its_client <- get_client ;;
     let its_command := protocol.stop_offer_service_command its_client s in
     if serialize_ok E its_command then if_sender_send its_command
     else emit (log err_stop_offer_serialization_failed)
   else ret tt) ;;
  modify (fun st =>
    set_pending_offers
      (erase_first (matches_service_instance service instance) (pending_offers_ st)) st).

Definition send_request_services (_requests : list protocol.service) : M bool :=
  match _requests with
  | [] => ret true
  | _ =>
      its_client <- get_client ;;
      let its_command := protocol.request_service_command its_client _requests in
      if serialize_ok E its_command then
        sent <- sender_and_send its_command ;;
        if sent then ret true
        else emit (log err_failed_to_send_requested_services) ;; ret false
      else emit (log err_request_service_serialization_failed) ;; ret false
  end.

Definition send_release_service (_client : client_t) (service : service_t)
    (instance : instance_t) : M unit :=
  its_client <- get_client ;;
  let its_command := protocol.release_service_command its_client service instance in
  if serialize_ok E its_command then if_sender_send its_command else ret tt.

Definition request_service (_client : client_t) (request : protocol.service) : M unit :=
  emit (base_request_service _client request) ;;
  let request_debouncing_time := request_debounce_time E in
  if request_debouncing_time =? 0 then
    state <- gets state_ ;;
    (if decide (state = ST_REGISTERED)
     then (_ <- send_request_services (set_insert (service_lt E) request []) ;; ret tt)
     else ret tt) ;;
    modify (fun st => set_requests (set_insert (service_lt E) request (requests_ st)) st)
  else
    modify (fun st =>
      set_requests_to_debounce
        (set_insert (service_lt E) request (requests_to_debounce_ st)) st) ;;
    running <- gets request_debounce_timer_running_ ;;
    when (negb running)
      (modify (set_request_debounce_timer_running true) ;;
       modify (set_request_debounce_timer (Some request_debouncing_time))).

Definition release_service (_client : client_t) (service : service_t)
    (instance : instance_t) : M unit :=
  emit (base_release_service _client service instance) ;;
  emit (remove_pending_subscription service instance 0xFFFF (ANY_EVENT E)) ;;
  to_debounce <- gets requests_to_debounce_ ;;
  let pending := existsb (matches_service_instance service instance) to_debounce in
  modify (set_requests_to_debounce
            (erase_first (matches_service_instance service instance) to_debounce)) ;;
  state <- gets state_ ;;
  when (negb pending && bool_decide (state = ST_REGISTERED))
    (send_release_service _client service instance) ;;
  modify (fun st =>
    set_requests (erase_first (matches_service_instance service instance) (requests_ st)) st).

(** The [protocol::register_event] built from an element of
    [pending_event_registrations_]; the eventgroup count is cast to
    [uint16_t]. *)
Definition to_register_event (ed : event_data_t) : protocol.register_event :=
  {| protocol.re_service := service_ ed;
     protocol.re_instance := instance_ ed;
     protocol.re_notifier := notifier_ ed;
     protocol.re_type := type_ ed;
     protocol.re_is_provided := is_provided_ ed;
     protocol.re_reliability := reliability_ ed;
     protocol.re_is_cyclic := is_cyclic_ ed;
     protocol.re_num_eventgroups := Z.of_nat (length (eventgroups_ ed)) mod 2 ^ 16;
     protocol.re_eventgroups := eventgroups_ ed |}.

(** The inner [for] loop of [send_pending_event_registrations]: registrations
    are added to the command until [add_registration] refuses one or the
    iterator reaches [end()].  The result is the command's registrations and
    the rest of the iteration. *)
Fixpoint add_registrations (registrations : list protocol.register_event)
    (it : list event_data_t) : list protocol.register_event * list event_data_t :=
  match it with
  | [] => (registrations, [])
  | ed :: it' =>
      let reg := to_register_event ed in
      if add_registration_fits E registrations reg
      then add_registrations (registrations ++ [reg]) it'
      else (registrations, it)
  end.

(** The [while] loop of [send_pending_event_registrations].  [its_command] is
    declared before the loop and keeps its registrations from one round to
    the next.  A round that cannot add anything does not advance the
    iterator, so the loop needs [fuel]; [None] is "ran out of fuel". *)
Fixpoint send_pending_event_registrations_loop (fuel : nat) (_client : client_t)
    (registrations : list protocol.register_event) (it : list event_data_t)
    (st : routing_manager_client) : option (bool * routing_manager_client) :=
  match it with
  | [] => Some (true, st)
  | _ :: _ =>
      match fuel with
      | O => None
      | S fuel' =>
          let registrations' := fst (add_registrations registrations it) in
          let it' := snd (add_registrations registrations it) in
          let its_command := protocol.register_events_command _client registrations' in
          let r :=
            (if serialize_ok E its_command then
               ok <- sender_and_send its_command ;;
               if ok then ret true
               else emit (log err_failed_to_send_pending_registration) ;; ret false
             else emit (log err_register_event_serialization_failed) ;; ret false) st in
          if fst r
          then send_pending_event_registrations_loop fuel' _client registrations' it' (snd r)
          else Some (false, snd r)
      end
  end.

Definition send_pending_event_registrations (fuel : nat) (_client : client_t)
    (st : routing_manager_client) : option (bool * routing_manager_client) :=
  send_pending_event_registrations_loop fuel _client []
    (pending_event_registrations_ st) st.

(** The first block of [send_pending_commands]: one [send_offer_service] per
    element of [pending_offers_], returning [false] at the first failure. *)
Fixpoint send_pending_offers (offers : list protocol.service) : M bool :=
  match offers with
  | [] => ret true
  | po :: offers' =>
      its_client <- get_client ;;
      ok <- send_offer_service its_client po ;;
      if ok then send_pending_offers offers' else ret false
  end.

Definition send_pending_commands (fuel : nat) (st : routing_manager_client)
  : option (bool * routing_manager_client) :=
  let r := send_pending_offers (pending_offers_ st) st in
  if fst r then
    match send_pending_event_registrations fuel (client_ (snd r)) (snd r) with
    | None => None
    | Some (true, st') => Some (send_request_services (requests_ st') st')
    | Some (false, st') => Some (false, st')
    end
  else Some (false, snd r).

Definition send_registered_ack : M bool :=
  its_client <- get_client ;;
  let its_command := protocol.registered_ack_command its_client in
  if serialize_ok E its_command then
    sent <- sender_and_send its_command ;;
    if sent then ret true
    else emit (log err_failed_sending_registered_ack) ;; ret false
  else emit (log err_registered_ack_serialization_failed) ;; ret false.

Definition send_pong : M unit :=
  its_client <- get_client ;;
  let its_command := protocol.pong_command its_client in
  if serialize_ok E its_command then
    connected <- gets is_connected_ ;;
    when connected (if_sender_send its_command)
  else emit (log err_pong_serialization_failed).

Definition send_unsubscribe_ack (service : service_t) (instance : instance_t)
    (eventgroup : eventgroup_t) (id : remote_subscription_id_t) : M unit :=
  its_client <- get_client ;;
  let its_command :=
    protocol.unsubscribe_ack_command its_client service instance eventgroup id in
  if serialize_ok E its_command then if_sender_send its_command
  else emit (log err_unsubscribe_ack_serialization_failed).

Definition deregister_application : M unit :=
  its_client <- get_client ;;
  let its_command := protocol.deregister_application_command its_client in
  if serialize_ok E its_command then
    connected <- gets is_connected_ ;;
    when connected (if_sender_send its_command)
  else emit (log err_deregister_application_serialization_failed).

(** [boost::system::error_code] as the timer handlers inspect it. *)
Inductive error_code :=
| success
| operation_aborted
| other_error (value : Z).

Definition assign_client_timeout_cbk (_error : error_code) : M unit :=
  match _error with
  | success =>
      state <- gets state_ ;;
      if decide (state <> ST_REGISTERED) then
        modify (set_state ST_DEREGISTERED) ;;
        emit (log warn_request_client_timeout_trying_again) ;;
        has_sender <- gets sender_ ;;
        when has_sender (emit sender_restart)
      else ret tt
  | operation_aborted => ret tt
  | other_error _ => emit (log warn_assign_timeout_error_code)
  end.

Definition register_application_timeout_cbk (_error : error_code) : M unit :=
  state <- gets state_ ;;
  let register_again :=
    match _error with
    | success => bool_decide (state <> ST_REGISTERED)
    | _ => false
    end in
  when register_again
    (modify (set_state ST_DEREGISTERED) ;;
     emit (log warn_register_timeout_trying_again) ;;
     has_sender <- gets sender_ ;;
     when has_sender (emit sender_restart)).

(** The wait on [register_application_timer_] completes: the bound handler
    runs with a success code. *)
Definition register_application_timer_expires : M unit :=
  handler <- gets register_application_timer_ ;;
  match handler with
  | None => ret tt
  | Some h =>
      modify (set_register_application_timer None) ;;
      match h with
      | assign_client_timeout_cbk_handler => assign_client_timeout_cbk success
      | register_application_timeout_cbk_handler => register_application_timeout_cbk success
      end
  end.

Definition request_debounce_timeout_cbk (_error : error_code) : M unit :=
  to_debounce <- gets requests_to_debounce_ ;;
  state <- gets state_ ;;
  match _error, to_debounce with
  | success, _ :: _ =>
      if decide (state = ST_REGISTERED) then
        _ <- send_request_services to_debounce ;;
        modify (fun st =>
          set_requests (set_insert_range (service_lt E) to_debounce (requests_ st)) st) ;;
        modify (set_requests_to_debounce []) ;;
        modify (set_request_debounce_timer_running false)
      else
        modify (set_request_debounce_timer (Some (request_debounce_time E)))
  | _, _ => modify (set_request_debounce_timer_running false)
  end.

(** The wait on [request_debounce_timer_] completes. *)
Definition request_debounce_timer_expires : M unit :=
  pending_wait <- gets request_debounce_timer_ ;;
  match pending_wait with
  | None => ret tt
  | Some _ =>
      modify (set_request_debounce_timer None) ;;
      request_debounce_timeout_cbk success
  end.

Definition assign_client : M unit :=
  state <- gets state_ ;;
  if decide (state <> ST_DEREGISTERED) then
    emit (log warn_assign_client_non_deregistered_state)
  else
    its_client <- get_client ;;
    let its_command := protocol.assign_client_command its_client (host_name E) in
    if negb (serialize_ok E its_command) then
      emit (log err_assign_client_command_creation_failed)
    else
      connected <- gets is_connected_ ;;
      if connected then
        has_sender <- gets sender_ ;;
        if has_sender then
          modify (set_state ST_ASSIGNING) ;;
          _ <- sender_send_buffer its_command ;;
          modify (set_register_application_timer (Some assign_client_timeout_cbk_handler))
        else emit (log warn_assign_client_sender_not_initialized)
      else emit (log warn_assign_client_not_connected).

Definition register_application : M unit :=
  has_receiver <- gets receiver_ ;;
  if negb has_receiver then emit (log err_cannot_register_no_local_server)
  else
    its_client <- get_client ;;
    let its_command :=
      protocol.register_application_command its_client (receiver_local_port E) in
    if serialize_ok E its_command then
      connected <- gets is_connected_ ;;
      has_sender <- gets sender_ ;;
      when (connected && has_sender)
        (modify (set_state ST_REGISTERING) ;;
         _ <- sender_send_buffer its_command ;;
         modify (set_register_application_timer
                   (Some register_application_timeout_cbk_handler)) ;;
         let its_command_config := protocol.config_command its_client (client_host E) in
         if serialize_ok E its_command_config
         then (_ <- sender_send_buffer its_command_config ;; ret tt)
         else emit (log err_config_serialization_failed))
    else emit (log err_register_application_serialization_failed).

(** [init_receiver], on the platforms that keep the client/sec-client
    mappings. *)
Definition init_receiver : M unit :=
  if negb (has_policy_manager E) then ret tt
  else
    its_client <- get_client ;;
    emit (store_client_to_sec_client_mappings its_client) ;;
    has_receiver <- gets receiver_ ;;
    when (negb has_receiver) (modify (set_receiver (create_local_server_ok E))).

Definition on_connect (endpoint_is_sender : bool) : M unit :=
  if negb endpoint_is_sender then ret tt
  else modify (set_is_connected true) ;; assign_client.

Definition on_disconnect (endpoint_is_sender : bool) : M unit :=
  if negb endpoint_is_sender then ret tt
  else
    modify (set_is_connected false) ;;
    cancel_keepalive ;;
    emit (log warn_on_disconnect_resetting_state) ;;
    modify (set_state ST_DEREGISTERED) ;;
    emit (host_on_state ST_DEREGISTERED).

Definition on_client_assign_ack (_client : client_t) : M unit :=
  state <- gets state_ ;;
  if decide (state = ST_ASSIGNING) then
    if negb (_client =? VSOMEIP_CLIENT_UNSET E) then
      modify (set_state ST_ASSIGNED) ;;
      modify (set_register_application_timer None) ;;
      emit (host_set_client _client) ;;
      modify (set_client _client) ;;
      started <- gets is_started_ ;;
      if started then
        init_receiver ;;
        has_receiver <- gets receiver_ ;;
        if has_receiver then
          emit receiver_start ;;
          register_application
        else
          emit (log warn_receiver_not_started_restarting) ;;
          modify (set_state ST_DEREGISTERED) ;;
          emit (host_set_client (VSOMEIP_CLIENT_UNSET E)) ;;
          modify (set_client (VSOMEIP_CLIENT_UNSET E)) ;;
          has_sender <- gets sender_ ;;
          when has_sender (emit sender_restart)
      else emit (log warn_not_started_discarding)
    else emit (log err_invalid_client_id)
  else emit (log warn_received_another_client_identifier).

(** [get_remote_subscriber_count]: the counter is a [uint32_t], so the
    increment wraps at 2^32. *)
Definition get_remote_subscriber_count (service : service_t) (instance : instance_t)
    (eventgroup : eventgroup_t) (_increment : bool) : M Z :=
  m <- gets remote_subscriber_count_ ;;
  match remote_subscriber_count_lookup m service instance eventgroup with
  | Some found_group =>
      if _increment then
        let count := (found_group + 1) mod 2 ^ 32 in
        modify (set_remote_subscriber_count
                  (remote_subscriber_count_assign m service instance eventgroup count)) ;;
        ret count
      else if 0 <? found_group then
        let count := found_group - 1 in
        modify (set_remote_subscriber_count
                  (remote_subscriber_count_assign m service instance eventgroup count)) ;;
        ret count
      else ret found_group
  | None =>
      if _increment then
        modify (set_remote_subscriber_count
                  (remote_subscriber_count_assign m service instance eventgroup 1)) ;;
        ret 1
      else ret 0
  end.

(** Modelled from the spec: [routing_manager_base::add_known_client] and
    [remove_known_client] are defined outside this translation unit; by the
    data model, KnownClient maps a ClientId to its hostname, so they assign
    and erase the entry of [known_clients_]. *)
Definition add_known_client (client : client_t) (name : string) : M unit :=
  modify (fun st => set_known_clients (map_assign client name (known_clients_ st)) st).

Definition remove_known_client (client : client_t) : M unit :=
  modify (fun st => set_known_clients (map_erase client (known_clients_ st)) st).

(** The first statements of the RIE_ADD_CLIENT and RIE_ADD_SERVICE_INSTANCE
    cases of [on_routing_info]. *)
Definition add_guest_if_specified (e : protocol.routing_info_entry) : M unit :=
  match protocol.e_address e with
  | Some its_address =>
      emit (add_guest (protocol.e_client e) its_address (protocol.e_port e)) ;;
      add_known_client (protocol.e_client e) EmptyString
  | None => ret tt
  end.

(** One round of the [for] loop of [on_routing_info].  The boolean result is
    [true] when the round ends in the [return] statement of the failing
    credential check (taken on the platforms that check credentials).  In
    the RIE_ADD_SERVICE_INSTANCE case the call of the base class's
    [send_pending_subscriptions] is one event: the SUBSCRIBE commands that
    it hands to [send_subscribe] are not followed. *)
Definition on_routing_info_entry (fuel : nat) (e : protocol.routing_info_entry)
    (st : routing_manager_client) : option (bool * routing_manager_client) :=
  let its_client := protocol.e_client e in
  match protocol.e_type e with
  | protocol.RIE_ADD_CLIENT =>
      let st1 := exec (add_guest_if_specified e) st in
      if its_client =? client_ st1 then
        if negb (check_credentials E (client_ st1)) then
          Some (true,
                exec (emit (log err_credential_check_failed) ;;
                      deregister_application ;;
                      emit (host_on_state ST_DEREGISTERED)) st1)
        else
          match state_ st1 with
          | ST_REGISTERING =>
              let acked := send_registered_ack st1 in
              if fst acked then
                match send_pending_commands fuel (snd acked) with
                | None => None
                | Some (true, st2) =>
                    Some (false,
                          exec (modify (set_state ST_REGISTERED) ;;
                                modify (set_register_application_timer None) ;;
                                start_keepalive ;;
                                emit state_condition_notify_one ;;
                                emit (host_on_state ST_REGISTERED)) st2)
                | Some (false, st2) =>
                    Some (false, exec (emit (log err_failure_registering_client)) st2)
                end
              else
                Some (false, exec (emit (log err_failure_registering_client)) (snd acked))
          | _ => Some (false, st1)
          end
      else Some (false, st1)
  | protocol.RIE_DELETE_CLIENT =>
      Some (false,
            exec (remove_known_client its_client ;;
                  own <- get_client ;;
                  if its_client =? own then
                    emit (remove_client_to_sec_client_mapping its_client) ;;
                    emit (host_on_state ST_DEREGISTERED) ;;
                    modify (set_state ST_DEREGISTERED) ;;
                    emit state_condition_notify_one
                  else
                    when (negb (its_client =? VSOMEIP_ROUTING_CLIENT E))
                      (emit (remove_local its_client))) st)
  | protocol.RIE_ADD_SERVICE_INSTANCE =>
      Some (false,
            exec (add_guest_if_specified e ;;
                  known <- gets known_clients_ ;;
                  when (bool_decide (map_find its_client known = None))
                    (modify (set_known_clients (map_assign its_client EmptyString known))) ;;
                  for_each (protocol.e_services e) (fun s =>
                    emit (local_services_insert s its_client) ;;
                    emit (send_pending_subscriptions (protocol.service_ s)
                            (protocol.instance_ s) (protocol.major_ s)) ;;
                    emit (host_on_availability s true))) st)
  | protocol.RIE_DELETE_SERVICE_INSTANCE =>
      Some (false,
            exec (for_each (protocol.e_services e) (fun s =>
                    emit (local_services_erase s its_client) ;;
                    emit (on_stop_offer_service s) ;;
                    emit (host_on_availability s false))) st)
  | protocol.RIE_other _ =>
      Some (false, exec (emit (log err_unknown_routing_info_entry_type)) st)
  end.

Fixpoint on_routing_info_entries (fuel : nat) (entries : list protocol.routing_info_entry)
    (st : routing_manager_client) : option (bool * routing_manager_client) :=
  match entries with
  | [] => Some (false, st)
  | e :: entries' =>
      match on_routing_info_entry fuel e st with
      | None => None
      | Some (true, st') => Some (true, st')
      | Some (false, st') => on_routing_info_entries fuel entries' st'
      end
  end.

(** The last block of [on_routing_info]: the parked inbound subscriptions of
    the clients that are known by now, collected with [push_front] and then
    handed to the application host. *)
Definition subscription_actions (st : routing_manager_client)
  : list (client_t * subscription_data_t) :=
  rev (flat_map
         (fun k =>
            match map_find (fst k) (pending_incoming_subscriptions_ st) with
            | Some subscriptions => map (pair (fst k)) subscriptions
            | None => []
            end)
         (known_clients_ st)).

Definition process_pending_incoming_subscriptions : M unit :=
  pending <- gets pending_incoming_subscriptions_ ;;
  match pending with
  | [] => ret tt
  | _ :: _ =>
      actions <- gets subscription_actions ;;
      for_each actions (fun si =>
        emit (find_or_create_local (fst si)) ;;
        emit (host_on_subscription (sd_service (snd si)) (sd_instance (snd si))
                (sd_eventgroup (snd si)) (fst si) true) ;;
        modify (fun st =>
          set_pending_incoming_subscriptions
            (map_erase (fst si) (pending_incoming_subscriptions_ st)) st))
  end.

Definition on_routing_info (fuel : nat) (data : option (list protocol.routing_info_entry))
    (st : routing_manager_client) : option routing_manager_client :=
  if negb (has_policy_manager E) then Some st
  else
    match data with
    | None => Some (exec (emit (log err_routing_info_deserialization_failed)) st)
    | Some entries =>
        match on_routing_info_entries fuel entries st with
        | None => None
        | Some (true, st') => Some st'
        | Some (false, st') => Some (exec process_pending_incoming_subscriptions st')
        end
    end.

(** The UNSUBSCRIBE_ID and EXPIRE_ID cases of [on_message] share their body
    up to the acknowledgement, which only UNSUBSCRIBE sends. *)
Definition on_subscription_end (u : subscription_end) (acknowledge : bool) : M unit :=
  emit (host_on_subscription (u_service u) (u_instance u) (u_eventgroup u)
          (u_client u) false) ;;
  if u_pending_id u =? PENDING_SUBSCRIPTION_ID E then
    emit (base_unsubscribe (u_client u) (u_service u) (u_instance u)
            (u_eventgroup u) (u_event u))
  else
    its_remote_subscriber_count <-
      get_remote_subscriber_count (u_service u) (u_instance u) (u_eventgroup u) false ;;
    when (its_remote_subscriber_count =? 0)
      (emit (base_unsubscribe (VSOMEIP_ROUTING_CLIENT E) (u_service u) (u_instance u)
               (u_eventgroup u) (u_event u))) ;;
    when acknowledge
      (send_unsubscribe_ack (u_service u) (u_instance u) (u_eventgroup u)
         (u_pending_id u)).

(** [is_from_routing] as [on_message] computes it. *)
Definition is_from_routing (its_client _bound_client : client_t)
    (_remote_address _remote_port : Z) : bool :=
  if is_security_enabled E then
    if is_local_routing E then _bound_client =? routing_host_id E
    else (_remote_address =? routing_host_address E)
         && (_remote_port =? routing_host_port E + 1)
  else its_client =? routing_host_id E.

(** The [switch] of [on_message]. *)
Definition on_message_dispatch (fuel : nat) (its_client : client_t) (cmd : inbound)
    (from_routing : bool) (st : routing_manager_client) : option routing_manager_client :=
  match cmd with
  | in_assign_client_ack assigned =>
      Some (exec (on_client_assign_ack (default (VSOMEIP_CLIENT_UNSET E) assigned)) st)
  | in_routing_info entries =>
      if negb (is_security_enabled E) || from_routing
      then on_routing_info fuel entries st
      else Some (exec (emit (log warn_routing_info_not_from_routing_manager)) st)
  | in_ping ok =>
      Some (exec (if ok then send_pong else emit (log err_ping_deserialization_failed)) st)
  | in_pong ok =>
      Some (exec (if ok then on_pong its_client
                  else emit (log err_pong_deserialization_failed)) st)
  | in_unsubscribe body =>
      Some (exec (match body with
                  | Some u => on_subscription_end u true
                  | None => emit (log err_unsubscribe_deserialization_failed)
                  end) st)
  | in_expire body =>
      Some (exec (match body with
                  | Some u => on_subscription_end u false
                  | None => emit (log err_expire_deserialization_failed)
                  end) st)
  | in_other id => Some (exec (emit (dispatch_other id its_client)) st)
  end.

(** [on_message]: [data] is the result of [dummy_command::deserialize] on the
    frame ([None] when it fails), the other arguments are the function's. *)
Definition on_message (fuel : nat) (data : option (client_t * inbound))
    (_bound_client : client_t) (_remote_address _remote_port : Z)
    (st : routing_manager_client) : option routing_manager_client :=
  if negb (has_policy_manager E) then Some st
  else
    match data with
    | None => Some (exec (emit (log err_dummy_command_deserialization_failed)) st)
    | Some (its_client, cmd) =>
        let from_routing :=
          is_from_routing its_client _bound_client _remote_address _remote_port in
        if is_security_enabled E && is_local_routing E
           && negb from_routing && negb (_bound_client =? its_client)
        then Some (exec (emit (log warn_bound_client_mismatch_skip_message)) st)
        else on_message_dispatch fuel its_client cmd from_routing st
    end.

End Proxy.

(** ** The object after construction, and a reference environment *)

(** The member initializers of the constructor; [client] is the client id
    the application host reports before any assignment. *)
Definition constructed (client : client_t) : routing_manager_client :=
  {| state_ := ST_DEREGISTERED;
     client_ := client;
     is_connected_ := false;
     is_started_ := false;
     sender_ := false;
     receiver_ := false;
     keepalive_active_ := false;
     keepalive_is_alive_ := false;
     keepalive_timer_ := None;
     register_application_timer_ := None;
     request_debounce_timer_ := None;
     request_debounce_timer_running_ := false;
     pending_offers_ := [];
     requests_ := [];
     requests_to_debounce_ := [];
     pending_event_registrations_ := [];
     remote_subscriber_count_ := ∅;
     known_clients_ := [];
     pending_incoming_subscriptions_ := [];
     sends_ := 0%nat;
     trace_ := [] |}.

(** An ordering of [protocol::service] by service and then instance: two
    versions of one service instance are equivalent under it. *)
Definition service_instance_lt (a b : protocol.service) : bool :=
  (protocol.service_ a <? protocol.service_ b)
  || ((protocol.service_ a =? protocol.service_ b)
      && (protocol.instance_ a <? protocol.instance_ b)).

(** A local, security-enabled deployment whose codec and transport never
    fail: routing host 0, debounce window of 50 ms, keepalive every 200 ms. *)
Definition reference_environment : environment :=
  {| is_security_enabled := true;
     is_local_routing := true;
     routing_host_id := 0;
     routing_host_address := 0;
     routing_host_port := 31490;
     request_debounce_time := 50;
     is_local_clients_keepalive_enabled := true;
     local_clients_keepalive_time := 200;
     has_policy_manager := true;
     check_credentials := fun _ => true;
     host_name := "app";
     client_host := "node";
     serialize_ok := fun _ => true;
     add_registration_fits := fun _ _ => true;
     service_lt := service_instance_lt;
     send_result := fun _ _ => true;
     create_local_server_ok := true;
     receiver_local_port := 31491;
     base_offer_service_result := fun _ => true;
     VSOMEIP_CLIENT_UNSET := 0xFFFF;
     VSOMEIP_ROUTING_CLIENT := 0;
     PENDING_SUBSCRIPTION_ID := 0;
     ANY_EVENT := 0xFFFF |}.

(** * Vocabulary of the properties *)

(** ** Sets of services *)

Section ServiceOrder.
Variable lt : protocol.service -> protocol.service -> bool.

(** Two services are equivalent for the set when neither is less than the
    other. *)
Definition equivalent (a b : protocol.service) : Prop :=
  lt a b = false /\ lt b a = false.

(** Two versions of one service instance. *)
Definition same_service_instance (a b : protocol.service) : Prop :=
  protocol.service_ a = protocol.service_ b
  /\ protocol.instance_ a = protocol.instance_ b.

(** What the proofs about [release_service] need from [operator<]: it is
    transitive, and it cannot tell two services apart exactly when they
    agree on service and instance. *)
Definition orders_by_service_instance : Prop :=
  (forall a b c, lt a b = true -> lt b c = true -> lt a c = true)
  /\ (forall a b, equivalent a b <-> same_service_instance a b).

(** The elements of a set, in iteration order, are strictly ascending. *)
Definition is_set (s : list protocol.service) : Prop :=
  StronglySorted (fun a b => lt a b = true) s.

End ServiceOrder.

#[global] Instance service_eq_dec : EqDecision protocol.service.
Proof. solve_decision. Defined.

(** ** Traces *)

(** The number of effects of a trace that satisfy [p]. *)
Fixpoint count_effects (p : effect -> bool) (t : list effect) : nat :=
  match t with
  | [] => 0%nat
  | ev :: t' => ((if p ev then 1 else 0) + count_effects p t')%nat
  end.

(** An OFFER_SERVICE for [s] handed to the sender. *)
Definition is_offer_service_emission (s : protocol.service) (ev : effect) : bool :=
  match ev with
  | sender_send (protocol.offer_service_command _ s') _ => bool_decide (s' = s)
  | _ => false
  end.

(** The number of OFFER_SERVICE commands for [s] in a trace. *)
Definition offer_service_emissions (s : protocol.service) (t : list effect) : nat :=
  count_effects (is_offer_service_emission s) t.

(** ** Objects of the scenarios *)

(** The service of the scenarios: (0x1111, 0x2222, 1, 0). *)
Definition service_1111_2222 : protocol.service :=
  {| protocol.service_ := 0x1111; protocol.instance_ := 0x2222;
     protocol.major_ := 1; protocol.minor_ := 0 |}.

(** A started and connected proxy with client id 0x1234 in the given state
    and with the given intent. *)
Definition connected_proxy (state : inner_state_type_e)
    (offers requests : list protocol.service) (registrations : list event_data_t)
  : routing_manager_client :=
  {| state_ := state;
     client_ := 0x1234;
     is_connected_ := true;
     is_started_ := true;
     sender_ := true;
     receiver_ := true;
     keepalive_active_ := false;
     keepalive_is_alive_ := false;
     keepalive_timer_ := None;
     register_application_timer_ :=
       match state with
       | ST_ASSIGNING => Some assign_client_timeout_cbk_handler
       | ST_REGISTERING => Some register_application_timeout_cbk_handler
       | _ => None
       end;
     request_debounce_timer_ := None;
     request_debounce_timer_running_ := false;
     pending_offers_ := offers;
     requests_ := requests;
     requests_to_debounce_ := [];
     pending_event_registrations_ := registrations;
     remote_subscriber_count_ := ∅;
     known_clients_ := [];
     pending_incoming_subscriptions_ := [];
     sends_ := 0%nat;
     trace_ := [] |}.

(** The ROUTING_INFO entry ADD_CLIENT for client 0x1234, without address. *)
Definition add_client_1234 : protocol.routing_info_entry :=
  {| protocol.e_type := protocol.RIE_ADD_CLIENT;
     protocol.e_client := 0x1234;
     protocol.e_address := None;
     protocol.e_port := 0;
     protocol.e_services := [] |}.

(** A second service: (0x3333, 0x4444, 2, 5). *)
Definition service_3333_4444 : protocol.service :=
  {| protocol.service_ := 0x3333; protocol.instance_ := 0x4444;
     protocol.major_ := 2; protocol.minor_ := 5 |}.

(** An event that service (0x1111, 0x2222) provides and an event of service
    (0x3333, 0x4444) that the application consumes, both in eventgroup
    0x10. *)
Definition provided_event_8001 : event_data_t :=
  {| service_ := 0x1111; instance_ := 0x2222; notifier_ := 0x8001; type_ := 0;
     reliability_ := 1; is_provided_ := true; is_cyclic_ := false;
     eventgroups_ := [0x10] |}.

Definition consumed_event_8002 : event_data_t :=
  {| service_ := 0x3333; instance_ := 0x4444; notifier_ := 0x8002; type_ := 0;
     reliability_ := 1; is_provided_ := false; is_cyclic_ := false;
     eventgroups_ := [0x10] |}.

(** An environment with another verdict of the transport. *)
Definition with_send_result (f : nat -> protocol.command -> bool) (E : environment)
  : environment :=
  {| is_security_enabled := is_security_enabled E;
     is_local_routing := is_local_routing E;
     routing_host_id := routing_host_id E;
     routing_host_address := routing_host_address E;
     routing_host_port := routing_host_port E;
     request_debounce_time := request_debounce_time E;
     is_local_clients_keepalive_enabled := is_local_clients_keepalive_enabled E;
     local_clients_keepalive_time := local_clients_keepalive_time E;
     has_policy_manager := has_policy_manager E;
     check_credentials := check_credentials E;
     host_name := host_name E;
     client_host := client_host E;
     serialize_ok := serialize_ok E;
     add_registration_fits := add_registration_fits E;
     service_lt := service_lt E;
     send_result := f;
     create_local_server_ok := create_local_server_ok E;
     receiver_local_port := receiver_local_port E;
     base_offer_service_result := base_offer_service_result E;
     VSOMEIP_CLIENT_UNSET := VSOMEIP_CLIENT_UNSET E;
     VSOMEIP_ROUTING_CLIENT := VSOMEIP_ROUTING_CLIENT E;
     PENDING_SUBSCRIPTION_ID := PENDING_SUBSCRIPTION_ID E;
     ANY_EVENT := ANY_EVENT E |}.

(** A transport that takes the first frame and refuses every later one. *)
Definition only_first_send_succeeds : environment :=
  with_send_result (fun n _ => Nat.eqb n 0) reference_environment.

(** The order of the replay as the specification states it: OFFER_SERVICE
    first, then REQUEST_SERVICE, then REGISTER_EVENT. *)
Definition specified_replay_rank (ev : effect) : option nat :=
  match ev with
  | sender_send (protocol.offer_service_command _ _) _ => Some 0%nat
  | sender_send (protocol.request_service_command _ _) _ => Some 1%nat
  | sender_send (protocol.register_events_command _ _) _ => Some 2%nat
  | _ => None
  end.

(** The ranks never go down. *)
Fixpoint nondecreasing (ranks : list nat) : bool :=
  match ranks with
  | a :: (b :: _) as rest => Nat.leb a b && nondecreasing rest
  | _ => true
  end.

(** The replay commands of a trace come in the specified order. *)
Definition replay_in_specified_order (t : list effect) : bool :=
  nondecreasing (omap specified_replay_rank t).

(** A proxy that counts two remote subscribers of eventgroup 0x10 of
    service (0x1111, 0x2222). *)
Definition proxy_with_two_remote_subscribers : routing_manager_client :=
  set_remote_subscriber_count
    (remote_subscriber_count_assign ∅ 0x1111 0x2222 0x10 2)
    (connected_proxy ST_REGISTERED [service_1111_2222] [] []).

(** A proxy whose counter for that eventgroup has come down to zero. *)
Definition proxy_with_no_remote_subscriber : routing_manager_client :=
  set_remote_subscriber_count
    (remote_subscriber_count_assign ∅ 0x1111 0x2222 0x10 0)
    (connected_proxy ST_REGISTERED [service_1111_2222] [] []).

(** UNSUBSCRIBE{pending_id = 7} for eventgroup 0x10, relayed by the host. *)
Definition remote_unsubscribe_7 : subscription_end :=
  {| u_client := 0; u_service := 0x1111; u_instance := 0x2222; u_eventgroup := 0x10;
     u_event := 0xFFFF; u_pending_id := 7 |}.

(** A Registered proxy with one buffered request. *)
Definition proxy_with_buffered_request : routing_manager_client :=
  set_request_debounce_timer_running true
    (set_requests_to_debounce [service_3333_4444]
       (connected_proxy ST_REGISTERED [] [] [])).

(** ** Sends and their outcome *)

Section Outcome.
Variable E : environment.

(** The object after one call of [sender_->send] on command [c]. *)
Definition after_send (c : protocol.command) (st : routing_manager_client)
  : routing_manager_client :=
  set_trace (trace_ st ++ [sender_send c (send_result E (sends_ st) c)])
    (set_sends (S (sends_ st)) st).

(** The object after a send whose failure is reported by the error line
    [l]. *)
Definition after_failure_log (ok : bool) (l : log_line) (st : routing_manager_client)
  : routing_manager_client :=
  if ok then st else set_trace (trace_ st ++ [log l]) st.

(** The object after a call of [sender_->send] on [c] that returned [true]. *)
Definition sent (c : protocol.command) (st : routing_manager_client)
  : routing_manager_client :=
  set_trace (trace_ st ++ [sender_send c true]) (set_sends (S (sends_ st)) st).

(** The object after a successful send of each command of [cmds]. *)
Definition sent_all (cmds : list protocol.command) (st : routing_manager_client)
  : routing_manager_client :=
  set_trace (trace_ st ++ map (fun c => sender_send c true) cmds)
    (set_sends (sends_ st + length cmds)%nat st).

Definition is_send_or_log (ev : effect) : Prop :=
  match ev with
  | sender_send _ _ | log _ => True
  | _ => False
  end.

(** [st'] differs from [st] at most by sends and log lines appended to the
    trace and by the count of sends. *)
Definition only_sent (st st' : routing_manager_client) : Prop :=
  exists new n,
    Forall is_send_or_log new
    /\ st' = set_trace (trace_ st ++ new) (set_sends (sends_ st + n)%nat st).

(** The REQUEST_SERVICE of a replay: none for an empty set. *)
Definition request_services_command (client : client_t)
    (requests : list protocol.service) : list protocol.command :=
  match requests with
  | [] => []
  | _ :: _ => [protocol.request_service_command client requests]
  end.

(** One round of the loop of [send_pending_event_registrations]: the
    command built by the inner loop is handed to the sender. *)
Definition send_registrations_round (_client : client_t)
    (registrations : list protocol.register_event) : M bool :=
  let its_command := protocol.register_events_command _client registrations in
  (if serialize_ok E its_command then
     ok <- sender_and_send E its_command ;;
     if ok then ret true
     else emit (log err_failed_to_send_pending_registration) ;; ret false
   else emit (log err_register_event_serialization_failed) ;; ret false)%rmc.

(** The REGISTER_EVENT of a replay: none for an empty iteration, otherwise
    one command that holds, after the registrations it has already, those
    of the whole iteration. *)
Definition register_events_commands (client : client_t)
    (registrations : list protocol.register_event) (it : list event_data_t)
  : list protocol.command :=
  match it with
  | [] => []
  | _ :: _ =>
      [protocol.register_events_command client
         (registrations ++ map to_register_event it)]
  end.

(** The commands of a successful [send_pending_commands], in the order in
    which they are handed to the sender: one OFFER_SERVICE per pending
    offer, one REGISTER_EVENT with every pending event registration (if
    there is any), one REQUEST_SERVICE with [requests_] (if there is any). *)
Definition pending_commands (st : routing_manager_client) : list protocol.command :=
  map (protocol.offer_service_command (client_ st)) (pending_offers_ st)
  ++ register_events_commands (client_ st) [] (pending_event_registrations_ st)
  ++ request_services_command (client_ st) (requests_ st).

(** The commands of a successful replay: REGISTERED_ACK, then the pending
    commands. *)
Definition replay_commands (st : routing_manager_client) : list protocol.command :=
  protocol.registered_ack_command (client_ st) :: pending_commands st.

(** The effect of the first statements of the RIE_ADD_CLIENT case. *)
Definition guest_effects (e : protocol.routing_info_entry) : list effect :=
  match protocol.e_address e with
  | Some its_address => [add_guest (protocol.e_client e) its_address (protocol.e_port e)]
  | None => []
  end.

(** A command of the replay handed to the sender. *)
Definition is_replay_emission (ev : effect) : bool :=
  match ev with
  | sender_send (protocol.registered_ack_command _) _
  | sender_send (protocol.offer_service_command _ _) _
  | sender_send (protocol.register_events_command _ _) _
  | sender_send (protocol.request_service_command _ _) _ => true
  | _ => false
  end.

(** No command of the replay is among the effects [new]. *)
Definition no_replay_emission (new : list effect) : Prop :=
  Forall (fun ev => is_replay_emission ev = false) new.

(** The statements that follow a successful replay in [on_routing_info]. *)
Definition enter_registered : M unit :=
  (modify (set_state ST_REGISTERED) ;;
   modify (set_register_application_timer None) ;;
   start_keepalive E ;;
   emit state_condition_notify_one ;;
   emit (host_on_state ST_REGISTERED))%rmc.

End Outcome.

(** The proxy of the replay scenario, before the entry for its own client
    id arrives. *)
Definition proxy_before_replay : routing_manager_client :=
  connected_proxy ST_REGISTERING [service_1111_2222] [service_3333_4444]
    [provided_event_8001; consumed_event_8002].

(** The object that entry leaves. *)
Definition proxy_after_replay : routing_manager_client :=
  match on_routing_info_entry reference_environment 1 add_client_1234
          proxy_before_replay with
  | Some r => snd r
  | None => proxy_before_replay
  end.

(** * Further member functions *)

(** The order of the entries of a [std::map] with integer keys. *)
Definition key_le {V} (a b : Z * V) : Prop := fst a <= fst b.

#[global] Instance key_le_dec {V} (a b : Z * V) : Decision (key_le a b).
Proof. unfold key_le. apply _. Defined.

(** The entries of a [std::map] with integer keys in iteration order, that
    is by ascending key. *)
Definition in_key_order {V} (m : gmap Z V) : list (Z * V) :=
  sorting.merge_sort key_le (map_to_list m).

Section Suspend.
Variable E : environment.

Local Open Scope rmc_scope.

(** [is_client_known] *)
Definition is_client_known (_client : client_t) : M bool :=
  gets (fun st =>
    match map_find _client (known_clients_ st) with
    | Some _ => true
    | None => false
    end).

(** [get_env] *)
Definition get_env (_client : client_t) : M string :=
  gets (get_env_unlocked _client).

(** [on_suspend]: one [routing_manager_base::unsubscribe] per entry of
    [remote_subscriber_count_], then [clear()]. *)
Definition on_suspend : M unit :=
  m <- gets remote_subscriber_count_ ;;
  for_each (in_key_order m) (fun s =>
    for_each (in_key_order (snd s)) (fun i =>
      for_each (in_key_order (snd i)) (fun e =>
        emit (base_unsubscribe (VSOMEIP_ROUTING_CLIENT E) (fst s) (fst i) (fst e)
                (ANY_EVENT E))))) ;;
  modify (set_remote_subscriber_count ∅).

End Suspend.

(** ** Vocabulary of the further properties *)

(** The codec serializes every command of [cmds] and the sender takes each
    of them, the first of them being send number [n]. *)
Fixpoint delivered (E : environment) (n : nat) (cmds : list protocol.command) : bool :=
  match cmds with
  | [] => true
  | c :: cmds' => serialize_ok E c && send_result E n c && delivered E (S n) cmds'
  end.

(** The replay of a registration goes through: there is a sender, and
    REGISTERED_ACK and every pending command serialize and are taken by
    it. *)
Definition replay_succeeds (E : environment) (st : routing_manager_client) : bool :=
  sender_ st && delivered E (sends_ st) (replay_commands st).

(** The keys of the entries of [remote_subscriber_count_], in the order in
    which [on_suspend] visits them. *)
Definition remote_subscriber_count_keys (m : gmap Z (gmap Z (gmap Z Z)))
  : list (service_t * instance_t * eventgroup_t) :=
  flat_map (fun s =>
    flat_map (fun i =>
      map (fun e => (fst s, fst i, fst e)) (in_key_order (snd i)))
      (in_key_order (snd s)))
    (in_key_order m).

(** An environment with another verdict of [add_registration]. *)
Definition with_add_registration_fits
    (f : list protocol.register_event -> protocol.register_event -> bool)
    (E : environment) : environment :=
  {| is_security_enabled := is_security_enabled E;
     is_local_routing := is_local_routing E;
     routing_host_id := routing_host_id E;
     routing_host_address := routing_host_address E;
     routing_host_port := routing_host_port E;
     request_debounce_time := request_debounce_time E;
     is_local_clients_keepalive_enabled := is_local_clients_keepalive_enabled E;
     local_clients_keepalive_time := local_clients_keepalive_time E;
     has_policy_manager := has_policy_manager E;
     check_credentials := check_credentials E;
     host_name := host_name E;
     client_host := client_host E;
     serialize_ok := serialize_ok E;
     add_registration_fits := f;
     service_lt := service_lt E;
     send_result := send_result E;
     create_local_server_ok := create_local_server_ok E;
     receiver_local_port := receiver_local_port E;
     base_offer_service_result := base_offer_service_result E;
     VSOMEIP_CLIENT_UNSET := VSOMEIP_CLIENT_UNSET E;
     VSOMEIP_ROUTING_CLIENT := VSOMEIP_ROUTING_CLIENT E;
     PENDING_SUBSCRIPTION_ID := PENDING_SUBSCRIPTION_ID E;
     ANY_EVENT := ANY_EVENT E |}.

(** A codec whose REGISTER_EVENT command holds one registration. *)
Definition one_registration_per_command : environment :=
  with_add_registration_fits (fun l _ => bool_decide (l = []))
    reference_environment.

(** An environment with another debounce window. *)
Definition with_request_debounce_time (t : Z) (E : environment) : environment :=
  {| is_security_enabled := is_security_enabled E;
     is_local_routing := is_local_routing E;
     routing_host_id := routing_host_id E;
     routing_host_address := routing_host_address E;
     routing_host_port := routing_host_port E;
     request_debounce_time := t;
     is_local_clients_keepalive_enabled := is_local_clients_keepalive_enabled E;
     local_clients_keepalive_time := local_clients_keepalive_time E;
     has_policy_manager := has_policy_manager E;
     check_credentials := check_credentials E;
     host_name := host_name E;
     client_host := client_host E;
     serialize_ok := serialize_ok E;
     add_registration_fits := add_registration_fits E;
     service_lt := service_lt E;
     send_result := send_result E;
     create_local_server_ok := create_local_server_ok E;
     receiver_local_port := receiver_local_port E;
     base_offer_service_result := base_offer_service_result E;
     VSOMEIP_CLIENT_UNSET := VSOMEIP_CLIENT_UNSET E;
     VSOMEIP_ROUTING_CLIENT := VSOMEIP_ROUTING_CLIENT E;
     PENDING_SUBSCRIPTION_ID := PENDING_SUBSCRIPTION_ID E;
     ANY_EVENT := ANY_EVENT E |}.

(** The reference deployment on a node where the local server endpoint
    cannot be created. *)
Definition without_local_server : environment :=
  {| is_security_enabled := is_security_enabled reference_environment;
     is_local_routing := is_local_routing reference_environment;
     routing_host_id := routing_host_id reference_environment;
     routing_host_address := routing_host_address reference_environment;
     routing_host_port := routing_host_port reference_environment;
     request_debounce_time := request_debounce_time reference_environment;
     is_local_clients_keepalive_enabled :=
       is_local_clients_keepalive_enabled reference_environment;
     local_clients_keepalive_time := local_clients_keepalive_time reference_environment;
     has_policy_manager := has_policy_manager reference_environment;
     check_credentials := check_credentials reference_environment;
     host_name := host_name reference_environment;
     client_host := client_host reference_environment;
     serialize_ok := serialize_ok reference_environment;
     add_registration_fits := add_registration_fits reference_environment;
     service_lt := service_lt reference_environment;
     send_result := send_result reference_environment;
     create_local_server_ok := false;
     receiver_local_port := receiver_local_port reference_environment;
     base_offer_service_result := base_offer_service_result reference_environment;
     VSOMEIP_CLIENT_UNSET := VSOMEIP_CLIENT_UNSET reference_environment;
     VSOMEIP_ROUTING_CLIENT := VSOMEIP_ROUTING_CLIENT reference_environment;
     PENDING_SUBSCRIPTION_ID := PENDING_SUBSCRIPTION_ID reference_environment;
     ANY_EVENT := ANY_EVENT reference_environment |}.

(** The reference deployment without request debouncing. *)
Definition undebounced_environment : environment :=
  with_request_debounce_time 0 reference_environment.

(** A Registered proxy whose keepalive is running, with the last probe
    answered or not. *)
Definition proxy_with_keepalive (alive : bool) : routing_manager_client :=
  set_keepalive_timer (Some 200)
    (set_keepalive_is_alive alive
       (set_keepalive_active true (connected_proxy ST_REGISTERED [] [] []))).

(** The ROUTING_INFO entry DELETE_SERVICE_INSTANCE by which client 0x4321
    withdraws two services. *)
Definition delete_services_of_4321 : protocol.routing_info_entry :=
  {| protocol.e_type := protocol.RIE_DELETE_SERVICE_INSTANCE;
     protocol.e_client := 0x4321;
     protocol.e_address := None;
     protocol.e_port := 0;
     protocol.e_services := [service_1111_2222; service_3333_4444] |}.

(** The ROUTING_INFO entry DELETE_CLIENT for client 0x1234. *)
Definition delete_client_1234 : protocol.routing_info_entry :=
  {| protocol.e_type := protocol.RIE_DELETE_CLIENT;
     protocol.e_client := 0x1234;
     protocol.e_address := None;
     protocol.e_port := 0;
     protocol.e_services := [] |}.

(** A started, connected proxy that has not been assigned a client id. *)
Definition unassigned_proxy : routing_manager_client :=
  set_receiver false
    (set_client 0xFFFF (connected_proxy ST_DEREGISTERED [] [] [])).


(** * The client endpoint behind the sender

    [sender_] is a client endpoint; [client_endpoint_impl] is the class
    template that its connection handling and its send queue come from.  Its
    completion handlers call back into the proxy ([on_connect],
    [on_disconnect]) through the endpoint host.

    Conventions of this embedding.
    - The object is the record [client_endpoint_impl]; a member function is
      a computation of the state monad [C] and is one atomic step.
    - What the endpoint does to the outside is appended to [trace_]: calls
      of the endpoint host, work handed to the strand with
      [boost::asio::dispatch], calls of the virtual functions that the
      protocol-specific subclasses define ([receive], [send_queued],
      [print_status], [max_allowed_reconnects_reached]), operations on the
      socket, WARNING and ERROR log lines.
    - The endpoint host leads to the proxy.  Its [on_connect] calls back
      into the endpoint, and the embedding follows these calls; its
      [on_disconnect] does not touch the endpoint.
    - The class declaration is not part of the translation unit.  The
      members are taken with the types of that declaration: 32-bit unsigned
      [connect_timeout_] and [reconnect_counter_], [size_t] [queue_size_]
      (its width is [size_bits] of the environment).
    - The buffers of [queue_] are not null: this file queues a buffer only
      after it has read its size. *)

Module client_endpoint.

(** [cei_state_e] *)
Inductive cei_state_e :=
| CLOSED
| CONNECTING
| CONNECTED
| ESTABLISHED.

#[global] Instance cei_state_e_eq_dec : EqDecision cei_state_e.
Proof. solve_decision. Defined.

(** [connecting_timer_state_e] *)
Inductive connecting_timer_state_e :=
| IN_PROGRESS
| FINISH_SUCCESS
| FINISH_ERROR.

(** [boost::system::error_code] as the handlers inspect it: the codes they
    compare with by name, and [other_error] for any other code (its value is
    neither 0 nor that of a named code). *)
Inductive error_code :=
| success
| operation_aborted
| already_connected
| timed_out
| broken_pipe
| not_connected
| bad_descriptor
| no_permission
| not_socket
| destination_address_required
| other_error (value : Z).

(** [message_buffer_t]: the bytes of a buffer. *)
Abbreviation message_buffer_t := (list Z) (only parsing).

(** The WARNING and ERROR lines of the modelled functions. *)
Inductive log_line :=
| warn_connect_cbk_endpoint_stopped
| warn_connect_cbk_restarting_socket
| warn_connect_cbk_attempt
| warn_connect_cbk_resume_sending
| warn_cancel_and_connect_cbk_cancelled
| warn_wait_connecting_cbk_not_calling_connect_cbk
| warn_send_cbk_received_error
| warn_send_cbk_socket_not_yet_connected
| warn_send_cbk_received_error_with_queue
| err_socket_closed_already
| warn_socket_shutdown_error
| warn_socket_close_error
| warn_socket_was_not_open
| warn_socket_has_been_reset
| err_queue_size_limit_reached.

Inductive effect :=
(* endpoint_host *)
| host_on_connect
| host_on_disconnect
(* boost::asio::dispatch(strand_, ...) *)
| dispatch_connect
| dispatch_shutdown_and_close_socket (_recreate_socket : bool)
| dispatch_send_queued (entry : message_buffer_t * Z)
(* virtual functions of the subclasses *)
| send_queued (entry : message_buffer_t * Z)
| receive
| max_allowed_reconnects_reached
| print_status
(* the socket and the condition variable of the connecting timer *)
| socket_shutdown
| socket_close
| socket_reset
| connecting_timer_condition_notify_all
| log (l : log_line).

(** What the translation unit takes from its surroundings: constants of the
    headers, members of the base class [endpoint_impl] that this file only
    reads, the return value of the virtual [get_max_allowed_reconnects], and
    the verdicts of the operating system on the socket. *)
Record environment := {
  VSOMEIP_DEFAULT_CONNECT_TIMEOUT : Z;
  VSOMEIP_MAX_CONNECT_TIMEOUT : Z;
  MAX_RECONNECTS_UNLIMITED : Z;
  MESSAGE_SIZE_UNLIMITED : Z;
  QUEUE_SIZE_UNLIMITED : Z;
  max_allowed_reconnects : Z;
  max_message_size_ : Z;
  queue_limit_ : Z;
  size_bits : Z;
  (* fcntl(F_GETFD) on the socket's handle does not return -1 *)
  socket_handle_is_valid : bool;
  (* socket_->shutdown and socket_->close set their error code *)
  socket_shutdown_fails : bool;
  socket_close_fails : bool
}.

(** The members the modelled functions use.
    - [socket_is_open_] is [socket_->is_open()];
    - [endpoint_host_] is [true] when [endpoint_host_.lock()] yields a host;
    - a timer is [Some] while an asynchronous wait is pending on it, with
      the expiry in ms;
    - [queue_] holds the buffers with their separation times, front
      first. *)
Record client_endpoint_impl := {
  state_ : cei_state_e;
  socket_is_open_ : bool;
  sending_blocked_ : bool;
  endpoint_host_ : bool;
  connect_timer_ : option Z;
  connect_timeout_ : Z;
  reconnect_counter_ : Z;
  connecting_timer_ : option Z;
  connecting_timeout_ : Z;
  connecting_timer_state_ : connecting_timer_state_e;
  was_not_connected_ : bool;
  is_sending_ : bool;
  queue_ : list (message_buffer_t * Z);
  queue_size_ : Z;
  has_last_departure_ : bool;
  last_departure_ : Z;
  trace_ : list effect
}.

Definition set_state (v : cei_state_e) (ep : client_endpoint_impl)
  : client_endpoint_impl :=
  {| state_ := v;
     socket_is_open_ := socket_is_open_ ep;
     sending_blocked_ := sending_blocked_ ep;
     endpoint_host_ := endpoint_host_ ep;
     connect_timer_ := connect_timer_ ep;
     connect_timeout_ := connect_timeout_ ep;
     reconnect_counter_ := reconnect_counter_ ep;
     connecting_timer_ := connecting_timer_ ep;
     connecting_timeout_ := connecting_timeout_ ep;
     connecting_timer_state_ := connecting_timer_state_ ep;
     was_not_connected_ := was_not_connected_ ep;
     is_sending_ := is_sending_ ep;
     queue_ := queue_ ep;
     queue_size_ := queue_size_ ep;
     has_last_departure_ := has_last_departure_ ep;
     last_departure_ := last_departure_ ep;
     trace_ := trace_ ep |}.

Definition set_socket_is_open (v : bool) (ep : client_endpoint_impl)
  : client_endpoint_impl :=
  {| state_ := state_ ep;
     socket_is_open_ := v;
     sending_blocked_ := sending_blocked_ ep;
     endpoint_host_ := endpoint_host_ ep;
     connect_timer_ := connect_timer_ ep;
     connect_timeout_ := connect_timeout_ ep;
     reconnect_counter_ := reconnect_counter_ ep;
     connecting_timer_ := connecting_timer_ ep;
     connecting_timeout_ := connecting_timeout_ ep;
     connecting_timer_state_ := connecting_timer_state_ ep;
     was_not_connected_ := was_not_connected_ ep;
     is_sending_ := is_sending_ ep;
     queue_ := queue_ ep;
     queue_size_ := queue_size_ ep;
     has_last_departure_ := has_last_departure_ ep;
     last_departure_ := last_departure_ ep;
     trace_ := trace_ ep |}.

Definition set_sending_blocked (v : bool) (ep : client_endpoint_impl)
  : client_endpoint_impl :=
  {| state_ := state_ ep;
     socket_is_open_ := socket_is_open_ ep;
     sending_blocked_ := v;
     endpoint_host_ := endpoint_host_ ep;
     connect_timer_ := connect_timer_ ep;
     connect_timeout_ := connect_timeout_ ep;
     reconnect_counter_ := reconnect_counter_ ep;
     connecting_timer_ := connecting_timer_ ep;
     connecting_timeout_ := connecting_timeout_ ep;
     connecting_timer_state_ := connecting_timer_state_ ep;
     was_not_connected_ := was_not_connected_ ep;
     is_sending_ := is_sending_ ep;
     queue_ := queue_ ep;
     queue_size_ := queue_size_ ep;
     has_last_departure_ := has_last_departure_ ep;
     last_departure_ := last_departure_ ep;
     trace_ := trace_ ep |}.

Definition set_connect_timer (v : option Z) (ep : client_endpoint_impl)
  : client_endpoint_impl :=
  {| state_ := state_ ep;
     socket_is_open_ := socket_is_open_ ep;
     sending_blocked_ := sending_blocked_ ep;
     endpoint_host_ := endpoint_host_ ep;
     connect_timer_ := v;
     connect_timeout_ := connect_timeout_ ep;
     reconnect_counter_ := reconnect_counter_ ep;
     connecting_timer_ := connecting_timer_ ep;
     connecting_timeout_ := connecting_timeout_ ep;
     connecting_timer_state_ := connecting_timer_state_ ep;
     was_not_connected_ := was_not_connected_ ep;
     is_sending_ := is_sending_ ep;
     queue_ := queue_ ep;
     queue_size_ := queue_size_ ep;
     has_last_departure_ := has_last_departure_ ep;
     last_departure_ := last_departure_ ep;
     trace_ := trace_ ep |}.

Definition set_connect_timeout (v : Z) (ep : client_endpoint_impl)
  : client_endpoint_impl :=
  {| state_ := state_ ep;
     socket_is_open_ := socket_is_open_ ep;
     sending_blocked_ := sending_blocked_ ep;
     endpoint_host_ := endpoint_host_ ep;
     connect_timer_ := connect_timer_ ep;
     connect_timeout_ := v;
     reconnect_counter_ := reconnect_counter_ ep;
     connecting_timer_ := connecting_timer_ ep;
     connecting_timeout_ := connecting_timeout_ ep;
     connecting_timer_state_ := connecting_timer_state_ ep;
     was_not_connected_ := was_not_connected_ ep;
     is_sending_ := is_sending_ ep;
     queue_ := queue_ ep;
     queue_size_ := queue_size_ ep;
     has_last_departure_ := has_last_departure_ ep;
     last_departure_ := last_departure_ ep;
     trace_ := trace_ ep |}.

Definition set_reconnect_counter (v : Z) (ep : client_endpoint_impl)
  : client_endpoint_impl :=
  {| state_ := state_ ep;
     socket_is_open_ := socket_is_open_ ep;
     sending_blocked_ := sending_blocked_ ep;
     endpoint_host_ := endpoint_host_ ep;
     connect_timer_ := connect_timer_ ep;
     connect_timeout_ := connect_timeout_ ep;
     reconnect_counter_ := v;
     connecting_timer_ := connecting_timer_ ep;
     connecting_timeout_ := connecting_timeout_ ep;
     connecting_timer_state_ := connecting_timer_state_ ep;
     was_not_connected_ := was_not_connected_ ep;
     is_sending_ := is_sending_ ep;
     queue_ := queue_ ep;
     queue_size_ := queue_size_ ep;
     has_last_departure_ := has_last_departure_ ep;
     last_departure_ := last_departure_ ep;
     trace_ := trace_ ep |}.

Definition set_connecting_timer (v : option Z) (ep : client_endpoint_impl)
  : client_endpoint_impl :=
  {| state_ := state_ ep;
     socket_is_open_ := socket_is_open_ ep;
     sending_blocked_ := sending_blocked_ ep;
     endpoint_host_ := endpoint_host_ ep;
     connect_timer_ := connect_timer_ ep;
     connect_timeout_ := connect_timeout_ ep;
     reconnect_counter_ := reconnect_counter_ ep;
     connecting_timer_ := v;
     connecting_timeout_ := connecting_timeout_ ep;
     connecting_timer_state_ := connecting_timer_state_ ep;
     was_not_connected_ := was_not_connected_ ep;
     is_sending_ := is_sending_ ep;
     queue_ := queue_ ep;
     queue_size_ := queue_size_ ep;
     has_last_departure_ := has_last_departure_ ep;
     last_departure_ := last_departure_ ep;
     trace_ := trace_ ep |}.

Definition set_connecting_timer_state (v : connecting_timer_state_e) (ep : client_endpoint_impl)
  : client_endpoint_impl :=
  {| state_ := state_ ep;
     socket_is_open_ := socket_is_open_ ep;
     sending_blocked_ := sending_blocked_ ep;
     endpoint_host_ := endpoint_host_ ep;
     connect_timer_ := connect_timer_ ep;
     connect_timeout_ := connect_timeout_ ep;
     reconnect_counter_ := reconnect_counter_ ep;
     connecting_timer_ := connecting_timer_ ep;
     connecting_timeout_ := connecting_timeout_ ep;
     connecting_timer_state_ := v;
     was_not_connected_ := was_not_connected_ ep;
     is_sending_ := is_sending_ ep;
     queue_ := queue_ ep;
     queue_size_ := queue_size_ ep;
     has_last_departure_ := has_last_departure_ ep;
     last_departure_ := last_departure_ ep;
     trace_ := trace_ ep |}.

Definition set_was_not_connected (v : bool) (ep : client_endpoint_impl)
  : client_endpoint_impl :=
  {| state_ := state_ ep;
     socket_is_open_ := socket_is_open_ ep;
     sending_blocked_ := sending_blocked_ ep;
     endpoint_host_ := endpoint_host_ ep;
     connect_timer_ := connect_timer_ ep;
     connect_timeout_ := connect_timeout_ ep;
     reconnect_counter_ := reconnect_counter_ ep;
     connecting_timer_ := connecting_timer_ ep;
     connecting_timeout_ := connecting_timeout_ ep;
     connecting_timer_state_ := connecting_timer_state_ ep;
     was_not_connected_ := v;
     is_sending_ := is_sending_ ep;
     queue_ := queue_ ep;
     queue_size_ := queue_size_ ep;
     has_last_departure_ := has_last_departure_ ep;
     last_departure_ := last_departure_ ep;
     trace_ := trace_ ep |}.

Definition set_is_sending (v : bool) (ep : client_endpoint_impl)
  : client_endpoint_impl :=
  {| state_ := state_ ep;
     socket_is_open_ := socket_is_open_ ep;
     sending_blocked_ := sending_blocked_ ep;
     endpoint_host_ := endpoint_host_ ep;
     connect_timer_ := connect_timer_ ep;
     connect_timeout_ := connect_timeout_ ep;
     reconnect_counter_ := reconnect_counter_ ep;
     connecting_timer_ := connecting_timer_ ep;
     connecting_timeout_ := connecting_timeout_ ep;
     connecting_timer_state_ := connecting_timer_state_ ep;
     was_not_connected_ := was_not_connected_ ep;
     is_sending_ := v;
     queue_ := queue_ ep;
     queue_size_ := queue_size_ ep;
     has_last_departure_ := has_last_departure_ ep;
     last_departure_ := last_departure_ ep;
     trace_ := trace_ ep |}.

Definition set_queue (v : list (message_buffer_t * Z)) (ep : client_endpoint_impl)
  : client_endpoint_impl :=
  {| state_ := state_ ep;
     socket_is_open_ := socket_is_open_ ep;
     sending_blocked_ := sending_blocked_ ep;
     endpoint_host_ := endpoint_host_ ep;
     connect_timer_ := connect_timer_ ep;
     connect_timeout_ := connect_timeout_ ep;
     reconnect_counter_ := reconnect_counter_ ep;
     connecting_timer_ := connecting_timer_ ep;
     connecting_timeout_ := connecting_timeout_ ep;
     connecting_timer_state_ := connecting_timer_state_ ep;
     was_not_connected_ := was_not_connected_ ep;
     is_sending_ := is_sending_ ep;
     queue_ := v;
     queue_size_ := queue_size_ ep;
     has_last_departure_ := has_last_departure_ ep;
     last_departure_ := last_departure_ ep;
     trace_ := trace_ ep |}.

Definition set_queue_size (v : Z) (ep : client_endpoint_impl)
  : client_endpoint_impl :=
  {| state_ := state_ ep;
     socket_is_open_ := socket_is_open_ ep;
     sending_blocked_ := sending_blocked_ ep;
     endpoint_host_ := endpoint_host_ ep;
     connect_timer_ := connect_timer_ ep;
     connect_timeout_ := connect_timeout_ ep;
     reconnect_counter_ := reconnect_counter_ ep;
     connecting_timer_ := connecting_timer_ ep;
     connecting_timeout_ := connecting_timeout_ ep;
     connecting_timer_state_ := connecting_timer_state_ ep;
     was_not_connected_ := was_not_connected_ ep;
     is_sending_ := is_sending_ ep;
     queue_ := queue_ ep;
     queue_size_ := v;
     has_last_departure_ := has_last_departure_ ep;
     last_departure_ := last_departure_ ep;
     trace_ := trace_ ep |}.

Definition set_has_last_departure (v : bool) (ep : client_endpoint_impl)
  : client_endpoint_impl :=
  {| state_ := state_ ep;
     socket_is_open_ := socket_is_open_ ep;
     sending_blocked_ := sending_blocked_ ep;
     endpoint_host_ := endpoint_host_ ep;
     connect_timer_ := connect_timer_ ep;
     connect_timeout_ := connect_timeout_ ep;
     reconnect_counter_ := reconnect_counter_ ep;
     connecting_timer_ := connecting_timer_ ep;
     connecting_timeout_ := connecting_timeout_ ep;
     connecting_timer_state_ := connecting_timer_state_ ep;
     was_not_connected_ := was_not_connected_ ep;
     is_sending_ := is_sending_ ep;
     queue_ := queue_ ep;
     queue_size_ := queue_size_ ep;
     has_last_departure_ := v;
     last_departure_ := last_departure_ ep;
     trace_ := trace_ ep |}.

Definition set_last_departure (v : Z) (ep : client_endpoint_impl)
  : client_endpoint_impl :=
  {| state_ := state_ ep;
     socket_is_open_ := socket_is_open_ ep;
     sending_blocked_ := sending_blocked_ ep;
     endpoint_host_ := endpoint_host_ ep;
     connect_timer_ := connect_timer_ ep;
     connect_timeout_ := connect_timeout_ ep;
     reconnect_counter_ := reconnect_counter_ ep;
     connecting_timer_ := connecting_timer_ ep;
     connecting_timeout_ := connecting_timeout_ ep;
     connecting_timer_state_ := connecting_timer_state_ ep;
     was_not_connected_ := was_not_connected_ ep;
     is_sending_ := is_sending_ ep;
     queue_ := queue_ ep;
     queue_size_ := queue_size_ ep;
     has_last_departure_ := has_last_departure_ ep;
     last_departure_ := v;
     trace_ := trace_ ep |}.

Definition set_trace (v : list effect) (ep : client_endpoint_impl)
  : client_endpoint_impl :=
  {| state_ := state_ ep;
     socket_is_open_ := socket_is_open_ ep;
     sending_blocked_ := sending_blocked_ ep;
     endpoint_host_ := endpoint_host_ ep;
     connect_timer_ := connect_timer_ ep;
     connect_timeout_ := connect_timeout_ ep;
     reconnect_counter_ := reconnect_counter_ ep;
     connecting_timer_ := connecting_timer_ ep;
     connecting_timeout_ := connecting_timeout_ ep;
     connecting_timer_state_ := connecting_timer_state_ ep;
     was_not_connected_ := was_not_connected_ ep;
     is_sending_ := is_sending_ ep;
     queue_ := queue_ ep;
     queue_size_ := queue_size_ ep;
     has_last_departure_ := has_last_departure_ ep;
     last_departure_ := last_departure_ ep;
     trace_ := v |}.

Arguments set_state v ep /.
Arguments set_socket_is_open v ep /.
Arguments set_sending_blocked v ep /.
Arguments set_connect_timer v ep /.
Arguments set_connect_timeout v ep /.
Arguments set_reconnect_counter v ep /.
Arguments set_connecting_timer v ep /.
Arguments set_connecting_timer_state v ep /.
Arguments set_was_not_connected v ep /.
Arguments set_is_sending v ep /.
Arguments set_queue v ep /.
Arguments set_queue_size v ep /.
Arguments set_has_last_departure v ep /.
Arguments set_last_departure v ep /.
Arguments set_trace v ep /.

(** ** The state monad of member functions *)

Definition C (A : Type) : Type := client_endpoint_impl -> A * client_endpoint_impl.

Definition ret {A} (a : A) : C A := fun ep => (a, ep).

Definition bind {A B} (m : C A) (k : A -> C B) : C B :=
  fun ep => k (fst (m ep)) (snd (m ep)).

Definition gets {A} (f : client_endpoint_impl -> A) : C A := fun ep => (f ep, ep).

Definition modify (f : client_endpoint_impl -> client_endpoint_impl) : C unit :=
  fun ep => (tt, f ep).

Definition emit (e : effect) : C unit :=
  modify (fun ep => set_trace (trace_ ep ++ [e]) ep).

Definition when (b : bool) (m : C unit) : C unit := if b then m else ret tt.

Definition exec {A} (m : C A) (ep : client_endpoint_impl) : client_endpoint_impl :=
  snd (m ep).

Declare Scope cei_scope.
Delimit Scope cei_scope with cei.
Notation "x <- c1 ;; c2" := (bind c1 (fun x => c2))
  (at level 100, c1 at next level, c2 at level 200, right associativity) : cei_scope.
Notation "c1 ;; c2" := (bind c1 (fun _ => c2))
  (at level 100, c2 at level 200, right associativity) : cei_scope.

(** ** Member functions *)

Section Endpoint.
Variable E : environment.

Local Open Scope cei_scope.

Definition get_front : C (option (message_buffer_t * Z)) :=
  gets (fun ep => head (queue_ ep)).

Definition is_client : C bool := ret true.

Definition is_established : C bool :=
  gets (fun ep => bool_decide (state_ ep = ESTABLISHED)).

Definition is_established_or_connected : C bool :=
  gets (fun ep =>
    bool_decide (state_ ep = ESTABLISHED) || bool_decide (state_ ep = CONNECTED)).

Definition is_closed : C bool :=
  gets (fun ep => bool_decide (state_ ep = CLOSED)).

Definition set_established (_established : bool) : C unit :=
  if _established then
    state <- gets state_ ;;
    if decide (state <> CONNECTING) then
      open <- gets socket_is_open_ ;;
      if open then modify (set_state ESTABLISHED) else modify (set_state CLOSED)
    else ret tt
  else modify (set_state CLOSED).

Definition set_connected (_connected : bool) : C unit :=
  if _connected then
    open <- gets socket_is_open_ ;;
    if open then modify (set_state CONNECTED) else modify (set_state CLOSED)
  else modify (set_state CLOSED).

Definition stop : C unit :=
  modify (set_sending_blocked true) ;;
  modify (set_queue []) ;;
  modify (set_queue_size 0) ;;
  modify (set_connect_timer None) ;;
  modify (set_connect_timeout (VSOMEIP_DEFAULT_CONNECT_TIMEOUT E)) ;;
  emit (dispatch_shutdown_and_close_socket false).

(** [shutdown_and_close_socket] and [shutdown_and_close_socket_unlocked], on
    the platforms that check the handle.  A socket is not open after
    [close], whether or not [close] reports an error, and a new socket is
    not open. *)
Definition shutdown_and_close_socket (_recreate_socket : bool) : C unit :=
  open <- gets socket_is_open_ ;;
  (if open then
     when (negb (socket_handle_is_valid E)) (emit (log err_socket_closed_already)) ;;
     emit socket_shutdown ;;
     when (socket_shutdown_fails E) (emit (log warn_socket_shutdown_error)) ;;
     emit socket_close ;;
     when (socket_close_fails E) (emit (log warn_socket_close_error)) ;;
     modify (set_socket_is_open false)
   else emit (log warn_socket_was_not_open)) ;;
  modify (set_state CLOSED) ;;
  when _recreate_socket
    (emit socket_reset ;;
     modify (set_socket_is_open false) ;;
     emit (log warn_socket_has_been_reset)).

Definition start_connect_timer : C unit :=
  timeout <- gets connect_timeout_ ;;
  modify (set_connect_timer (Some timeout)).

Definition start_connecting_timer : C unit :=
  timeout <- gets connecting_timeout_ ;;
  modify (set_connecting_timer (Some timeout)).

(** The call [its_host->on_connect(shared_from_this())].  The host of the
    endpoint behind the proxy's sender hands it to
    [routing_manager_client::on_connect], whose first two statements call
    [set_connected(true)] and [set_established(true)] on this endpoint.
    What the proxy then does to itself (and the ASSIGN_CLIENT it may hand to
    [send], which ends in the endpoint's train) is the event
    [host_on_connect]. *)
Definition on_connect : C unit :=
  emit host_on_connect ;;
  set_connected true ;;
  set_established true.

Definition connect_cbk (_error : error_code) : C unit :=
  blocked <- gets sending_blocked_ ;;
  if match _error with operation_aborted => true | _ => blocked end then
    emit (log warn_connect_cbk_endpoint_stopped) ;;
    shutdown_and_close_socket false
  else
    its_host <- gets endpoint_host_ ;;
    if its_host then
      match _error with
      | success | already_connected =>
          when (match _error with success => false | _ => true end)
            (emit (log warn_connect_cbk_attempt)) ;;
          modify (set_connect_timer None) ;;
          modify (set_connect_timeout (VSOMEIP_DEFAULT_CONNECT_TIMEOUT E)) ;;
          modify (set_reconnect_counter 0) ;;
          was_not_connected <- gets was_not_connected_ ;;
          when was_not_connected
            (modify (set_was_not_connected false) ;;
             its_entry <- get_front ;;
             match its_entry with
             | Some entry =>
                 modify (set_is_sending true) ;;
                 emit (dispatch_send_queued entry) ;;
                 emit (log warn_connect_cbk_resume_sending)
             | None => ret tt
             end) ;;
          state <- gets state_ ;;
          when (bool_decide (state <> ESTABLISHED)) on_connect ;;
          emit receive
      | _ =>
          emit (log warn_connect_cbk_restarting_socket) ;;
          shutdown_and_close_socket true ;;
          state <- gets state_ ;;
          when (bool_decide (state <> ESTABLISHED))
            (modify (set_state CLOSED) ;;
             emit host_on_disconnect) ;;
          (if max_allowed_reconnects E =? MAX_RECONNECTS_UNLIMITED E then
             start_connect_timer
           else
             modify (fun ep =>
               set_reconnect_counter ((reconnect_counter_ ep + 1) mod 2 ^ 32) ep) ;;
             counter <- gets reconnect_counter_ ;;
             if counter <=? max_allowed_reconnects E then start_connect_timer
             else emit max_allowed_reconnects_reached) ;;
          timeout <- gets connect_timeout_ ;;
          counter <- gets reconnect_counter_ ;;
          when ((timeout <? VSOMEIP_MAX_CONNECT_TIMEOUT E) && (30 <? counter))
            (modify (set_connect_timeout (Z.shiftl timeout 1 mod 2 ^ 32)))
      end
    else ret tt.

Definition cancel_and_connect_cbk (_error : error_code) : C unit :=
  modify (set_connecting_timer_state FINISH_ERROR) ;;
  pending_wait <- gets connecting_timer_ ;;
  let operations_cancelled :=
    match pending_wait with Some _ => 1 | None => 0 end in
  modify (set_connecting_timer None) ;;
  when (match _error with success => true | _ => false end)
    (modify (set_connecting_timer_state FINISH_SUCCESS)) ;;
  emit connecting_timer_condition_notify_all ;;
  if negb (operations_cancelled =? 0) then
    when (match _error with success => false | _ => true end)
      (emit (log warn_cancel_and_connect_cbk_cancelled)) ;;
    connect_cbk _error
  else ret tt.

Definition wait_connect_cbk (_error : error_code) : C unit :=
  blocked <- gets sending_blocked_ ;;
  when (match _error with success => negb blocked | _ => false end)
    (emit dispatch_connect).

Definition wait_connecting_cbk (_error : error_code) : C unit :=
  blocked <- gets sending_blocked_ ;;
  if match _error with success => negb blocked | _ => false end then
    connect_cbk timed_out
  else
    match _error with
    | operation_aborted => ret tt
    | _ => emit (log warn_wait_connecting_cbk_not_calling_connect_cbk)
    end.

Definition update_last_departure (now : Z) : C unit :=
  modify (set_last_departure now) ;;
  modify (set_has_last_departure true).

(** The statements at the end of [send_cbk]. *)
Definition send_cbk_epilogue : C unit :=
  modify (set_was_not_connected true) ;;
  modify (set_is_sending false).

(** The branch of [send_cbk] that leaves the queue and the socket alone
    while the endpoint is closed or reconnecting. *)
Definition send_cbk_not_yet_connected : C unit :=
  emit (log warn_send_cbk_socket_not_yet_connected) ;;
  modify (set_was_not_connected true) ;;
  modify (set_is_sending false).

(** [send_cbk]; [now] is the reading of the steady clock in
    [update_last_departure]. *)
Definition send_cbk (_error : error_code) (now : Z) : C unit :=
  match _error with
  | success =>
      queue <- gets queue_ ;;
      match queue with
      | [] => ret tt
      | front :: rest =>
          modify (fun ep =>
            set_queue_size
              ((queue_size_ ep - Z.of_nat (length (fst front))) mod 2 ^ size_bits E) ep) ;;
          modify (set_queue rest) ;;
          update_last_departure now ;;
          match rest with
          | [] => modify (set_is_sending false)
          | _ :: _ =>
              its_entry <- get_front ;;
              match its_entry with
              | Some entry => emit (send_queued entry)
              | None => modify (set_is_sending false)
              end
          end
      end
  | broken_pipe =>
      emit (log warn_send_cbk_received_error) ;;
      connected <- is_established_or_connected ;;
      if negb connected then send_cbk_not_yet_connected
      else
        modify (set_state CLOSED) ;;
        stopping <- gets sending_blocked_ ;;
        (if stopping then
           modify (set_queue []) ;;
           modify (set_queue_size 0)
         else emit (log warn_send_cbk_received_error_with_queue)) ;;
        when (negb stopping) (emit print_status) ;;
        modify (set_was_not_connected true) ;;
        shutdown_and_close_socket true ;;
        emit dispatch_connect ;;
        send_cbk_epilogue
  | not_connected | bad_descriptor | no_permission | not_socket =>
      emit (log warn_send_cbk_received_error) ;;
      connected <- is_established_or_connected ;;
      if negb connected then send_cbk_not_yet_connected
      else
        modify (set_state CLOSED) ;;
        when (match _error with no_permission => true | _ => false end)
          (modify (set_queue []) ;;
           modify (set_queue_size 0)) ;;
        modify (set_was_not_connected true) ;;
        shutdown_and_close_socket true ;;
        emit dispatch_connect ;;
        send_cbk_epilogue
  | operation_aborted =>
      emit (log warn_send_cbk_received_error) ;;
      connected <- is_established_or_connected ;;
      if negb connected then send_cbk_not_yet_connected
      else
        modify (set_sending_blocked true) ;;
        shutdown_and_close_socket false ;;
        send_cbk_epilogue
  | destination_address_required =>
      emit (log warn_send_cbk_received_error) ;;
      modify (set_was_not_connected true) ;;
      send_cbk_epilogue
  | _ =>
      emit (log warn_send_cbk_received_error_with_queue) ;;
      emit print_status ;;
      send_cbk_epilogue
  end.

Definition check_message_size (_size : Z) : bool :=
  negb (negb (max_message_size_ E =? MESSAGE_SIZE_UNLIMITED E)
        && (max_message_size_ E <? _size)).

(** [check_queue_limit]: the sum is a [size_t]. *)
Definition check_queue_limit (_size : Z) : C bool :=
  queue_size <- gets queue_size_ ;;
  let sum := (queue_size + _size) mod 2 ^ size_bits E in
  if negb (queue_limit_ E =? QUEUE_SIZE_UNLIMITED E)
     && ((queue_limit_ E <? sum) || (sum <? _size))
  then emit (log err_queue_size_limit_reached) ;; ret false
  else ret true.

(** [queue_train]; [buffer] is the train's buffer. *)
Definition queue_train (buffer : message_buffer_t) : C unit :=
  modify (fun ep =>
    set_queue_size ((queue_size_ ep + Z.of_nat (length buffer)) mod 2 ^ size_bits E) ep) ;;
  modify (fun ep => set_queue (queue_ ep ++ [(buffer, 0)]) ep) ;;
  sending <- gets is_sending_ ;;
  queue <- gets queue_ ;;
  when (negb sending && negb (bool_decide (queue = [])))
    (its_entry <- get_front ;;
     match its_entry with
     | Some entry =>
         modify (set_is_sending true) ;;
         emit (dispatch_send_queued entry)
     | None => ret tt
     end).

Definition get_queue_size : C Z := gets queue_size_.

End Endpoint.

(** ** Vocabulary of the endpoint's properties *)

(** The bytes held by a queue. *)
Definition queue_bytes (queue : list (message_buffer_t * Z)) : Z :=
  fold_right (fun entry sum => Z.of_nat (length (fst entry)) + sum) 0 queue.

(** [queue_size_] is the number of bytes in [queue_], as a [size_t]. *)
Definition queue_size_is_accurate (E : environment) (ep : client_endpoint_impl) : Prop :=
  queue_size_ ep = queue_bytes (queue_ ep) mod 2 ^ size_bits E.

(** The effects of [shutdown_and_close_socket] on a socket that is open or
    not. *)
Definition shutdown_and_close_effects (E : environment) (open _recreate_socket : bool)
  : list effect :=
  (if open then
     (if socket_handle_is_valid E then [] else [log err_socket_closed_already])
     ++ [socket_shutdown]
     ++ (if socket_shutdown_fails E then [log warn_socket_shutdown_error] else [])
     ++ [socket_close]
     ++ (if socket_close_fails E then [log warn_socket_close_error] else [])
   else [log warn_socket_was_not_open])
  ++ (if _recreate_socket then [socket_reset; log warn_socket_has_been_reset] else []).

(** A computation that leaves [queue_size_] accurate if it was. *)
Definition keeps_queue_size_accurate {A} (E : environment) (m : C A) : Prop :=
  forall ep, queue_size_is_accurate E ep -> queue_size_is_accurate E (snd (m ep)).

(** A connect attempt that failed: any code other than success,
    cancellation and "already connected". *)
Definition is_connect_failure (_error : error_code) : bool :=
  match _error with
  | success | operation_aborted | already_connected => false
  | _ => true
  end.

(** An effect that reaches the endpoint host or starts a reconnect. *)
Definition is_host_call_or_reconnect (ev : effect) : bool :=
  match ev with
  | host_on_connect | host_on_disconnect | dispatch_connect => true
  | _ => false
  end.

(** The endpoint after construction, before its socket is opened. *)
Definition constructed (E : environment) (connecting_timeout : Z)
  : client_endpoint_impl :=
  {| state_ := CLOSED;
     socket_is_open_ := false;
     sending_blocked_ := false;
     endpoint_host_ := true;
     connect_timer_ := None;
     connect_timeout_ := VSOMEIP_DEFAULT_CONNECT_TIMEOUT E;
     reconnect_counter_ := 0;
     connecting_timer_ := None;
     connecting_timeout_ := connecting_timeout;
     connecting_timer_state_ := IN_PROGRESS;
     was_not_connected_ := false;
     is_sending_ := false;
     queue_ := [];
     queue_size_ := 0;
     has_last_departure_ := false;
     last_departure_ := 0;
     trace_ := [] |}.

(** A 64-bit deployment with unlimited reconnects, a message limit of
    4 KiB and a queue limit of 64 KiB; the connect timeout starts at 100 ms
    and is not doubled beyond 1600 ms. *)
Definition reference_environment : environment :=
  {| VSOMEIP_DEFAULT_CONNECT_TIMEOUT := 100;
     VSOMEIP_MAX_CONNECT_TIMEOUT := 1600;
     MAX_RECONNECTS_UNLIMITED := 0xFFFFFFFF;
     MESSAGE_SIZE_UNLIMITED := 0xFFFFFFFF;
     QUEUE_SIZE_UNLIMITED := 0xFFFFFFFF;
     max_allowed_reconnects := 0xFFFFFFFF;
     max_message_size_ := 4096;
     queue_limit_ := 65536;
     size_bits := 64;
     socket_handle_is_valid := true;
     socket_shutdown_fails := false;
     socket_close_fails := false |}.

(** The same deployment with at most [n] reconnects. *)
Definition with_max_allowed_reconnects (n : Z) (E : environment) : environment :=
  {| VSOMEIP_DEFAULT_CONNECT_TIMEOUT := VSOMEIP_DEFAULT_CONNECT_TIMEOUT E;
     VSOMEIP_MAX_CONNECT_TIMEOUT := VSOMEIP_MAX_CONNECT_TIMEOUT E;
     MAX_RECONNECTS_UNLIMITED := MAX_RECONNECTS_UNLIMITED E;
     MESSAGE_SIZE_UNLIMITED := MESSAGE_SIZE_UNLIMITED E;
     QUEUE_SIZE_UNLIMITED := QUEUE_SIZE_UNLIMITED E;
     max_allowed_reconnects := n;
     max_message_size_ := max_message_size_ E;
     queue_limit_ := queue_limit_ E;
     size_bits := size_bits E;
     socket_handle_is_valid := socket_handle_is_valid E;
     socket_shutdown_fails := socket_shutdown_fails E;
     socket_close_fails := socket_close_fails E |}.

(** An established endpoint with an open socket and the given queue. *)
Definition established (E : environment) (queue : list (message_buffer_t * Z))
  : client_endpoint_impl :=
  set_queue_size (queue_bytes queue mod 2 ^ size_bits E)
    (set_queue queue
       (set_socket_is_open true (set_state ESTABLISHED (constructed E 0)))).

End client_endpoint.

(** * Properties *)

(** ** Facts about sets of services *)

Section ServiceSetFacts.
Variable lt : protocol.service -> protocol.service -> bool.

Lemma elem_of_set_insert (x z : protocol.service) (s : list protocol.service) :
  z ∈ set_insert lt x s -> z = x \/ z ∈ s.
Proof.
  induction s as [|y s IH]; cbn.
  - intros H%list_elem_of_singleton. now left.
  - destruct (lt x y).
    + intros [->|H]%elem_of_cons; [now left | now right].
    + destruct (lt y x); [|now right].
      intros [->|H]%elem_of_cons.
      * right. apply elem_of_cons. now left.
      * destruct (IH H) as [->|Hin]; [now left|].
        right. apply elem_of_cons. now right.
Qed.

Lemma set_insert_keeps (x y : protocol.service) (s : list protocol.service) :
  y ∈ s -> y ∈ set_insert lt x s.
Proof.
  induction s as [|z s IH]; cbn.
  - intros H. inversion H.
  - intros Hin. destruct (lt x z).
    + apply elem_of_cons. now right.
    + destruct (lt z x); [|exact Hin].
      apply elem_of_cons in Hin as [->|Hin]; apply elem_of_cons; auto.
Qed.

Lemma set_insert_represents (x : protocol.service) (s : list protocol.service) :
  exists z, z ∈ set_insert lt x s /\ (z = x \/ equivalent lt x z).
Proof.
  induction s as [|y s IH]; cbn.
  - exists x. split; [apply list_elem_of_singleton; reflexivity | now left].
  - destruct (lt x y) eqn:Hxy.
    + exists x. split; [apply elem_of_cons; now left | now left].
    + destruct (lt y x) eqn:Hyx.
      * destruct IH as (z & Hz & Hrel). exists z.
        split; [apply elem_of_cons; now right | exact Hrel].
      * exists y. split; [apply elem_of_cons; now left | right; now split].
Qed.

Lemma set_insert_range_keeps (xs s : list protocol.service) (y : protocol.service) :
  y ∈ s -> y ∈ set_insert_range lt xs s.
Proof.
  revert s. induction xs as [|x xs IH]; cbn; intros s H; [exact H|].
  apply IH. now apply set_insert_keeps.
Qed.

Lemma set_insert_range_represents (xs s : list protocol.service) (x : protocol.service) :
  x ∈ xs -> exists z, z ∈ set_insert_range lt xs s /\ (z = x \/ equivalent lt x z).
Proof.
  revert s. induction xs as [|a xs IH]; cbn; intros s H; [inversion H|].
  apply elem_of_cons in H as [->|H]; [|now apply IH].
  destruct (set_insert_represents a s) as (z & Hz & Hrel).
  exists z. split; [now apply set_insert_range_keeps | exact Hrel].
Qed.

Lemma set_insert_is_set (x : protocol.service) (s : list protocol.service) :
  (forall a b c, lt a b = true -> lt b c = true -> lt a c = true) ->
  is_set lt s -> is_set lt (set_insert lt x s).
Proof.
  intros Htrans. unfold is_set. induction s as [|y s IH]; cbn; intros Hs.
  - repeat constructor.
  - inversion Hs as [|? ? Hs' Hall]; subst.
    destruct (lt x y) eqn:Hxy.
    + constructor; [exact Hs|]. constructor; [exact Hxy|].
      eapply Forall_impl; [exact Hall|]. cbn. intros z Hyz. now apply (Htrans x y z).
    + destruct (lt y x) eqn:Hyx; [|exact Hs].
      constructor; [now apply IH|].
      apply Forall_forall. intros z Hz.
      apply elem_of_set_insert in Hz as [->|Hz]; [exact Hyx|].
      rewrite Forall_forall in Hall. now apply Hall.
Qed.

(** In a set whose order cannot separate two versions of a service
    instance, erasing the first element with a given service and instance
    leaves none. *)
Lemma erase_first_leaves_none (service : service_t) (instance : instance_t)
    (s : list protocol.service) :
  (forall a b, same_service_instance a b -> equivalent lt a b) ->
  is_set lt s ->
  Forall (fun x => matches_service_instance service instance x = false)
    (erase_first (matches_service_instance service instance) s).
Proof.
  intros Hkey. unfold is_set. induction s as [|y s IH]; cbn; intros Hs.
  - constructor.
  - inversion Hs as [|? ? Hs' Hall]; subst.
    destruct (matches_service_instance service instance y) eqn:Hy.
    + apply Forall_forall. intros z Hz.
      destruct (matches_service_instance service instance z) eqn:Hmz; [|reflexivity].
      rewrite Forall_forall in Hall. specialize (Hall z Hz). cbn in Hall.
      unfold matches_service_instance in Hy, Hmz.
      apply andb_prop in Hy as [Hy1 Hy2]. apply andb_prop in Hmz as [Hz1 Hz2].
      apply Z.eqb_eq in Hy1, Hy2, Hz1, Hz2.
      destruct (Hkey y z) as [Hlt _]; [split; congruence|]. congruence.
    + constructor; [exact Hy | now apply IH].
Qed.

Lemma matches_own_service_instance (x : protocol.service) :
  matches_service_instance (protocol.service_ x) (protocol.instance_ x) x = true.
Proof. unfold matches_service_instance. now rewrite !Z.eqb_refl. Qed.

(** After [insert(x)] the search loop of [release_service] finds an element
    for [x]'s service and instance. *)
Lemma set_insert_found (x : protocol.service) (s : list protocol.service) :
  (forall a b, equivalent lt a b -> same_service_instance a b) ->
  existsb (matches_service_instance (protocol.service_ x) (protocol.instance_ x))
    (set_insert lt x s) = true.
Proof.
  intros Hkey. destruct (set_insert_represents x s) as (z & Hz & Hrel).
  apply existsb_exists. exists z. split; [now apply list_elem_of_In|].
  destruct Hrel as [->|Heq]; [apply matches_own_service_instance|].
  destruct (Hkey _ _ Heq) as [H1 H2]. unfold matches_service_instance.
  rewrite <- H1, <- H2, !Z.eqb_refl. reflexivity.
Qed.

End ServiceSetFacts.

(** The ordering of the reference environment is one of these. *)
Lemma service_instance_lt_orders : orders_by_service_instance service_instance_lt.
Proof.
  unfold orders_by_service_instance, equivalent, same_service_instance,
    service_instance_lt.
  split.
  - intros a b c H1 H2.
    apply orb_true_iff in H1. apply orb_true_iff in H2. apply orb_true_iff.
    rewrite !andb_true_iff, !Z.ltb_lt, !Z.eqb_eq in *. lia.
  - intros a b. rewrite !orb_false_iff, !andb_false_iff, !Z.ltb_ge, !Z.eqb_neq. lia.
Qed.


(** Field updates unfold under simplification, so that a field read off an
    updated object reduces. *)
Arguments set_state v st /.
Arguments set_client v st /.
Arguments set_is_connected v st /.
Arguments set_sender v st /.
Arguments set_receiver v st /.
Arguments set_keepalive_active v st /.
Arguments set_keepalive_is_alive v st /.
Arguments set_keepalive_timer v st /.
Arguments set_register_application_timer v st /.
Arguments set_request_debounce_timer v st /.
Arguments set_request_debounce_timer_running v st /.
Arguments set_pending_offers v st /.
Arguments set_requests v st /.
Arguments set_requests_to_debounce v st /.
Arguments set_remote_subscriber_count v st /.
Arguments set_known_clients v st /.
Arguments set_pending_incoming_subscriptions v st /.
Arguments set_sends v st /.
Arguments set_trace v st /.

(** Simplification stops at the containers and at the member functions;
    these are unfolded by name where a proof goes through their bodies. *)
Arguments set_insert : simpl never.
Arguments set_insert_range : simpl never.
Arguments erase_first : simpl never.
Arguments matches_service_instance : simpl never.
Arguments map_find : simpl never.
Arguments map_assign : simpl never.
Arguments map_erase : simpl never.
Arguments sender_send_buffer : simpl never.
Arguments sender_and_send : simpl never.
Arguments if_sender_send : simpl never.
Arguments send_offer_service : simpl never.
Arguments send_request_services : simpl never.
Arguments send_release_service : simpl never.
Arguments send_registered_ack : simpl never.
Arguments send_unsubscribe_ack : simpl never.
Arguments send_pending_offers : simpl never.
Arguments send_pending_event_registrations : simpl never.
Arguments send_pending_commands : simpl never.
Arguments deregister_application : simpl never.
Arguments start_keepalive : simpl never.
Arguments get_remote_subscriber_count : simpl never.
Arguments for_each : simpl never.

(** Unfolds the monad's plumbing. *)
Ltac run_monad :=
  cbv beta iota zeta delta [exec bind ret gets modify emit when get_client];
  cbn [fst snd].

(** Settles a test of the registration state whose outcome the context
    determines. *)
Ltac decide_state :=
  match goal with
  | |- context [decide (?a = ?b)] =>
      destruct (decide (a = b)); [try congruence | try congruence]
  | |- context [decide (?a <> ?b)] =>
      destruct (decide (a <> b)); [try congruence | try congruence]
  end.

(** ** The remote-subscriber counter *)

Section RemoteSubscriberCount.

Lemma remote_subscriber_count_lookup_assign (m : gmap Z (gmap Z (gmap Z Z)))
    (s i e v : Z) :
  remote_subscriber_count_lookup (remote_subscriber_count_assign m s i e v) s i e = Some v.
Proof.
  unfold remote_subscriber_count_lookup, remote_subscriber_count_assign.
  rewrite lookup_insert_eq. cbn. rewrite lookup_insert_eq. cbn.
  apply lookup_insert_eq.
Qed.

(** C10.  The counter saturates at zero and is sparse: a decrement
    ([_increment = false]) of an absent entry returns 0 and leaves the object
    as it is, so no entry appears; a decrement of an entry that holds 0
    returns 0 and leaves the entry at 0; an increment of an absent entry
    returns 1 and creates the entry with the value 1.  No decrement of a
    non-negative count yields a negative one. *)
Theorem get_remote_subscriber_count_saturating_sparse
    (st : routing_manager_client) (service instance eventgroup : Z) :
  let count_of st' :=
    remote_subscriber_count_lookup (remote_subscriber_count_ st')
      service instance eventgroup in
  let decrement := get_remote_subscriber_count service instance eventgroup false st in
  let increment := get_remote_subscriber_count service instance eventgroup true st in
  (count_of st = None -> decrement = (0, st)) /\
  (count_of st = Some 0 ->
     decrement = (0, st) /\ count_of (snd decrement) = Some 0) /\
  (count_of st = None ->
     fst increment = 1 /\ count_of (snd increment) = Some 1) /\
  (forall c, count_of st = Some c -> 0 <= c ->
     0 <= fst decrement /\ count_of (snd decrement) = Some (fst decrement)).
Proof.
  cbn zeta. unfold get_remote_subscriber_count. run_monad.
  repeat split.
  - intros ->. reflexivity.
  - rewrite H. reflexivity.
  - rewrite H. cbn. exact H.
  - rewrite H. reflexivity.
  - rewrite H. cbn. apply remote_subscriber_count_lookup_assign.
  - rewrite H. destruct (0 <? c) eqn:Hc; cbn; lia.
  - rewrite H. destruct (0 <? c) eqn:Hc; cbn.
    + apply remote_subscriber_count_lookup_assign.
    + exact H.
Qed.

End RemoteSubscriberCount.

(** ** Client assignment *)

Section Assignment.
Variable E : environment.

(** C8.  An ASSIGN_CLIENT_ACK that carries [VSOMEIP_CLIENT_UNSET] (or whose
    body cannot be deserialized, which [on_message] turns into the same
    value) and arrives in state Assigning is a failure: the only effect is
    the error line "Invalid clientID".  The state stays Assigning, the
    host's client id is not set and nothing is handed to the sender, so no
    REGISTER_APPLICATION leaves. *)
Theorem on_client_assign_ack_unset_is_failure (st : routing_manager_client) :
  state_ st = ST_ASSIGNING ->
  let st' := exec (on_client_assign_ack E (VSOMEIP_CLIENT_UNSET E)) st in
  st' = set_trace (trace_ st ++ [log err_invalid_client_id]) st
  /\ state_ st' = ST_ASSIGNING
  /\ state_ st' <> ST_ASSIGNED
  /\ client_ st' = client_ st
  /\ sends_ st' = sends_ st
  /\ (forall fuel its_client assigned from_routing,
        assigned = Some (VSOMEIP_CLIENT_UNSET E) \/ assigned = None ->
        on_message_dispatch E fuel its_client (in_assign_client_ack assigned)
          from_routing st = Some st').
Proof.
  intros Hst st'.
  assert (Hst' : st' = set_trace (trace_ st ++ [log err_invalid_client_id]) st).
  { subst st'. unfold on_client_assign_ack. run_monad.
    decide_state. rewrite Z.eqb_refl. reflexivity. }
  split; [exact Hst'|].
  repeat split; try (rewrite Hst'; cbn; congruence).
  intros fuel its_client assigned from_routing [-> | ->]; reflexivity.
Qed.

End Assignment.

(** ** The security gate of the inbound dispatcher *)

Section Gate.
Variable E : environment.

(** C4.  With security enabled and local routing, a frame whose connection
    is not bound to the routing host's client id reaches the dispatcher's
    switch exactly when the client field of the command equals the bound
    client id.  Otherwise the frame is dropped: the object is unchanged but
    for the warning "doesn't match the bound client ~> skip message!". *)
Theorem on_message_bound_client_gate (fuel : nat) (its_client : client_t)
    (cmd : inbound) (_bound_client : client_t) (_remote_address _remote_port : Z)
    (st : routing_manager_client) :
  has_policy_manager E = true ->
  is_security_enabled E = true ->
  is_local_routing E = true ->
  is_from_routing E its_client _bound_client _remote_address _remote_port = false ->
  on_message E fuel (Some (its_client, cmd)) _bound_client _remote_address _remote_port st
  = if _bound_client =? its_client
    then on_message_dispatch E fuel its_client cmd false st
    else Some (set_trace (trace_ st ++ [log warn_bound_client_mismatch_skip_message]) st).
Proof.
  intros Hpm Hsec Hloc Hfrom. unfold on_message.
  rewrite Hpm, Hsec, Hloc, Hfrom. cbn.
  destruct (_bound_client =? its_client); reflexivity.
Qed.

End Gate.

(** ** Handing a command to the sender *)

Section Sending.
Variable E : environment.

Lemma sender_and_send_present (c : protocol.command) (st : routing_manager_client) :
  sender_ st = true ->
  sender_and_send E c st = (send_result E (sends_ st) c, after_send E c st).
Proof. intros H. unfold sender_and_send. run_monad. now rewrite H. Qed.

Lemma sender_and_send_absent (c : protocol.command) (st : routing_manager_client) :
  sender_ st = false -> sender_and_send E c st = (false, st).
Proof. intros H. unfold sender_and_send. run_monad. now rewrite H. Qed.

Lemma send_request_services_run (r : protocol.service) (rs : list protocol.service)
    (st : routing_manager_client) :
  sender_ st = true ->
  serialize_ok E (protocol.request_service_command (client_ st) (r :: rs)) = true ->
  send_request_services E (r :: rs) st
  = (send_result E (sends_ st)
       (protocol.request_service_command (client_ st) (r :: rs)),
     after_failure_log
       (send_result E (sends_ st)
          (protocol.request_service_command (client_ st) (r :: rs)))
       err_failed_to_send_requested_services
       (after_send E (protocol.request_service_command (client_ st) (r :: rs)) st)).
Proof.
  intros Hs Hser. unfold send_request_services. run_monad.
  rewrite Hser. rewrite sender_and_send_present by exact Hs. cbn [fst snd].
  unfold after_failure_log. destruct (send_result E _ _); reflexivity.
Qed.

Lemma send_offer_service_run (c : client_t) (s : protocol.service)
    (st : routing_manager_client) :
  sender_ st = true ->
  serialize_ok E (protocol.offer_service_command (client_ st) s) = true ->
  send_offer_service E c s st
  = (send_result E (sends_ st) (protocol.offer_service_command (client_ st) s),
     after_failure_log
       (send_result E (sends_ st) (protocol.offer_service_command (client_ st) s))
       err_failure_offering_service
       (after_send E (protocol.offer_service_command (client_ st) s) st)).
Proof.
  intros Hs Hser. unfold send_offer_service. run_monad.
  rewrite Hser. rewrite sender_and_send_present by exact Hs. cbn [fst snd].
  unfold after_failure_log. destruct (send_result E _ _); reflexivity.
Qed.

End Sending.

(** ** Withdrawal of remote subscriptions *)

Section RemoteUnsubscribe.
Variable E : environment.

(** C5.  An inbound UNSUBSCRIBE or EXPIRE whose pending id is not
    [PENDING_SUBSCRIPTION_ID] (a remote subscriber) decrements the
    remote-subscriber count of its (service, instance, eventgroup), the
    decrement stopping at zero; the local subscription of the routing client
    is withdrawn ([routing_manager_base::unsubscribe]) exactly when the
    count after the decrement is zero; and UNSUBSCRIBE, unlike EXPIRE, hands
    an UNSUBSCRIBE_ACK to the sender whatever the count is.  The
    acknowledgement presupposes a sender and a command that serializes. *)
Theorem remote_unsubscribe_withdraws_at_zero (fuel : nat) (its_client : client_t)
    (from_routing : bool) (u : subscription_end) (is_unsubscribe : bool)
    (st : routing_manager_client) :
  let count_of st' :=
    default 0 (remote_subscriber_count_lookup (remote_subscriber_count_ st')
                 (u_service u) (u_instance u) (u_eventgroup u)) in
  let decremented := Z.max 0 (count_of st - 1) in
  let ack :=
    protocol.unsubscribe_ack_command (client_ st) (u_service u) (u_instance u)
      (u_eventgroup u) (u_pending_id u) in
  u_pending_id u <> PENDING_SUBSCRIPTION_ID E ->
  0 <= count_of st ->
  (is_unsubscribe = true -> sender_ st = true /\ serialize_ok E ack = true) ->
  exists st',
    on_message_dispatch E fuel its_client
      (if is_unsubscribe then in_unsubscribe (Some u) else in_expire (Some u))
      from_routing st = Some st'
    /\ count_of st' = decremented
    /\ trace_ st' =
         trace_ st
         ++ [host_on_subscription (u_service u) (u_instance u) (u_eventgroup u)
               (u_client u) false]
         ++ (if decremented =? 0
             then [base_unsubscribe (VSOMEIP_ROUTING_CLIENT E) (u_service u)
                     (u_instance u) (u_eventgroup u) (u_event u)]
             else [])
         ++ (if is_unsubscribe
             then [sender_send ack (send_result E (sends_ st) ack)]
             else []).
Proof.
  cbv beta zeta. intros Hid Hc Hack.
  assert (Hneq : (u_pending_id u =? PENDING_SUBSCRIPTION_ID E) = false)
    by now apply Z.eqb_neq.
  remember (remote_subscriber_count_lookup (remote_subscriber_count_ st)
              (u_service u) (u_instance u) (u_eventgroup u)) as lk eqn:Hlk0 in *.
  assert (Hbody : forall acknowledge,
    (acknowledge = true -> is_unsubscribe = true) ->
    let st' := exec (on_subscription_end E u acknowledge) st in
    default 0 (remote_subscriber_count_lookup (remote_subscriber_count_ st')
                 (u_service u) (u_instance u) (u_eventgroup u))
    = Z.max 0 (default 0 lk - 1)
    /\ trace_ st' =
         trace_ st
         ++ [host_on_subscription (u_service u) (u_instance u) (u_eventgroup u)
               (u_client u) false]
         ++ (if Z.max 0 (default 0 lk - 1) =? 0
             then [base_unsubscribe (VSOMEIP_ROUTING_CLIENT E) (u_service u)
                     (u_instance u) (u_eventgroup u) (u_event u)]
             else [])
         ++ (if acknowledge
             then [sender_send
                     (protocol.unsubscribe_ack_command (client_ st) (u_service u)
                        (u_instance u) (u_eventgroup u) (u_pending_id u))
                     (send_result E (sends_ st)
                        (protocol.unsubscribe_ack_command (client_ st) (u_service u)
                           (u_instance u) (u_eventgroup u) (u_pending_id u)))]
             else [])).
  { intros acknowledge Himp st'. subst st'.
    unfold on_subscription_end, get_remote_subscriber_count, send_unsubscribe_ack,
      if_sender_send, sender_send_buffer.
    run_monad. rewrite Hneq. cbn -[Z.max Z.eqb Z.ltb].
    rewrite <- Hlk0.
    assert (Hfinish : forall b : bool, b = acknowledge ->
              b = true ->
              sender_ st = true
              /\ serialize_ok E
                   (protocol.unsubscribe_ack_command (client_ st) (u_service u)
                      (u_instance u) (u_eventgroup u) (u_pending_id u)) = true)
      by (intros b -> Hb; auto).
    symmetry in Hlk0. destruct lk as [c|]; cbn -[Z.max Z.eqb Z.ltb] in *.
    - destruct (0 <? c) eqn:Hpos.
      + apply Z.ltb_lt in Hpos.
        replace (Z.max 0 (c - 1)) with (c - 1) by lia.
        cbn -[Z.max Z.eqb Z.ltb].
        destruct (c - 1 =? 0); destruct acknowledge;
          try (destruct (Hfinish true eq_refl eq_refl) as [Hs Hser]);
          cbn -[Z.max Z.eqb Z.ltb]; rewrite ?Hser; cbn; rewrite ?Hs; cbn;
          rewrite remote_subscriber_count_lookup_assign;
          (split; [reflexivity|]); rewrite <- ?app_assoc; reflexivity.
      + apply Z.ltb_ge in Hpos. assert (c = 0) by lia. subst c.
        destruct acknowledge;
          try (destruct (Hfinish true eq_refl eq_refl) as [Hs Hser]);
          cbn; rewrite ?Hser; cbn; rewrite ?Hs; cbn; rewrite Hlk0;
          (split; [reflexivity|]); rewrite <- ?app_assoc; reflexivity.
    - destruct acknowledge;
        try (destruct (Hfinish true eq_refl eq_refl) as [Hs Hser]);
        cbn; rewrite ?Hser; cbn; rewrite ?Hs; cbn; rewrite Hlk0;
        (split; [reflexivity|]); rewrite <- ?app_assoc; reflexivity. }
  subst lk.
  destruct is_unsubscribe; cbn.
  - eexists; split; [reflexivity|]. apply (Hbody true). auto.
  - eexists; split; [reflexivity|]. apply (Hbody false). intros; discriminate.
Qed.

End RemoteUnsubscribe.

(** ** Request debounce *)

Section Debounce.
Variable E : environment.

(** C6.  The request-debounce timer elapses ([request_debounce_timeout_cbk]
    with a success code) while the debounce set is not empty.
    - In state Registered the whole set goes out in one REQUEST_SERVICE
      command, it is merged into [requests_] (everything that was there
      stays, every flushed request is now represented), the debounce set is
      emptied and the timer is marked as not running.  The send presupposes
      a sender and a command that serializes.
    - In any other state nothing is sent and no set changes: the only
      effect is that the timer is armed again for one debounce interval. *)
Theorem request_debounce_timeout_flushes_or_defers (st : routing_manager_client) :
  let st' := exec (request_debounce_timeout_cbk E success) st in
  let to_debounce := requests_to_debounce_ st in
  let flush := protocol.request_service_command (client_ st) to_debounce in
  let sent := send_result E (sends_ st) flush in
  to_debounce <> [] ->
  (state_ st = ST_REGISTERED -> sender_ st = true -> serialize_ok E flush = true ->
     trace_ st' =
       trace_ st ++ sender_send flush sent
                    :: (if sent then [] else [log err_failed_to_send_requested_services])
     /\ requests_ st' = set_insert_range (service_lt E) to_debounce (requests_ st)
     /\ (forall y, y ∈ requests_ st -> y ∈ requests_ st')
     /\ (forall x, x ∈ to_debounce ->
           exists z, z ∈ requests_ st' /\ (z = x \/ equivalent (service_lt E) x z))
     /\ requests_to_debounce_ st' = []
     /\ request_debounce_timer_running_ st' = false
     /\ state_ st' = ST_REGISTERED)
  /\ (state_ st <> ST_REGISTERED ->
        st' = set_request_debounce_timer (Some (request_debounce_time E)) st).
Proof.
  cbv beta zeta. intros Hne.
  destruct (requests_to_debounce_ st) as [|r rs] eqn:Hd; [congruence|].
  split.
  - intros Hst Hsender Hser.
    assert (Hrun : exec (request_debounce_timeout_cbk E success) st
              = set_request_debounce_timer_running false
                  (set_requests_to_debounce []
                     (set_requests
                        (set_insert_range (service_lt E) (r :: rs) (requests_ st))
                        (after_failure_log
                           (send_result E (sends_ st)
                              (protocol.request_service_command (client_ st) (r :: rs)))
                           err_failed_to_send_requested_services
                           (after_send E
                              (protocol.request_service_command (client_ st) (r :: rs))
                              st))))).
    { unfold request_debounce_timeout_cbk. run_monad. rewrite Hd, Hst.
      decide_state. cbn [fst snd].
      rewrite send_request_services_run by assumption.
      cbn [fst snd]. unfold after_failure_log.
      destruct (send_result E _ _); reflexivity. }
    rewrite Hrun. unfold after_failure_log, after_send.
    destruct (send_result E (sends_ st) _) eqn:Hsent;
      cbn -[set_insert_range]; rewrite <- ?app_assoc;
      (repeat split; try reflexivity; try assumption;
       [ intros y Hy; now apply set_insert_range_keeps
       | intros x Hx; now apply set_insert_range_represents ]).
  - intros Hst. unfold request_debounce_timeout_cbk. run_monad. rewrite Hd.
    destruct (decide (state_ st = ST_REGISTERED)); [contradiction|].
    reflexivity.
Qed.

(** Whatever REQUEST_SERVICE command the debounce callback hands to the
    sender carries the debounce set. *)
Lemma request_debounce_timeout_cbk_sends (err : error_code) (st : routing_manager_client)
    (c : client_t) (services : list protocol.service) (ok : bool) :
  sender_send (protocol.request_service_command c services) ok
    ∈ trace_ (exec (request_debounce_timeout_cbk E err) st) ->
  sender_send (protocol.request_service_command c services) ok ∈ trace_ st
  \/ services = requests_to_debounce_ st.
Proof.
  unfold request_debounce_timeout_cbk, send_request_services, sender_and_send,
    sender_send_buffer.
  run_monad.
  destruct err; destruct (requests_to_debounce_ st) as [|r rs] eqn:Hd; cbn;
    try (now left).
  destruct (decide (state_ st = ST_REGISTERED)); cbn; [|now left].
  destruct (serialize_ok E _); cbn.
  - destruct (sender_ st); cbn.
    + destruct (send_result E _ _); cbn;
        rewrite ?elem_of_app, ?elem_of_cons, ?elem_of_nil;
        intros Hin; decompose [or] Hin; try discriminate; try contradiction;
        try (now left); right; congruence.
    + rewrite ?elem_of_app, ?elem_of_cons, ?elem_of_nil.
      intros Hin; decompose [or] Hin; try discriminate; try contradiction; now left.
  - rewrite ?elem_of_app, ?elem_of_cons, ?elem_of_nil.
    intros Hin; decompose [or] Hin; try discriminate; try contradiction; now left.
Qed.

(** C7.  With a positive debounce time, [request_service] only buffers: it
    hands nothing to the sender and leaves an entry for the service instance
    in the debounce set.  As long as that entry is there, that is before the
    debounce timer flushes, [release_service] for the service instance
    cancels the request silently: the call hands nothing to the sender (in
    particular no RELEASE_SERVICE), and afterwards neither the debounce set
    nor [requests_] holds an entry for the service instance, so the
    REQUEST_SERVICE of the next flush, which carries the debounce set, is
    without it.  The sets are ordered by an [operator<] that identifies
    exactly the versions of one service instance. *)
Theorem release_before_flush_cancels_request (_client : client_t)
    (request : protocol.service) (st : routing_manager_client) :
  let service := protocol.service_ request in
  let instance := protocol.instance_ request in
  let buffered st' :=
    existsb (matches_service_instance service instance) (requests_to_debounce_ st')
    = true in
  let absent requests :=
    Forall (fun x => matches_service_instance service instance x = false) requests in
  let st1 := exec (request_service E _client request) st in
  request_debounce_time E <> 0 ->
  orders_by_service_instance (service_lt E) ->
  is_set (service_lt E) (requests_to_debounce_ st) ->
  is_set (service_lt E) (requests_ st) ->
  (buffered st1
   /\ is_set (service_lt E) (requests_to_debounce_ st1)
   /\ is_set (service_lt E) (requests_ st1)
   /\ trace_ st1 = trace_ st ++ [base_request_service _client request]
   /\ sends_ st1 = sends_ st)
  /\ (forall st',
        buffered st' ->
        is_set (service_lt E) (requests_to_debounce_ st') ->
        is_set (service_lt E) (requests_ st') ->
        let st2 := exec (release_service E _client service instance) st' in
        let st3 := exec (request_debounce_timeout_cbk E success) st2 in
        absent (requests_to_debounce_ st2)
        /\ absent (requests_ st2)
        /\ trace_ st2 =
             trace_ st' ++ [base_release_service _client service instance;
                            remove_pending_subscription service instance 0xFFFF
                              (ANY_EVENT E)]
        /\ sends_ st2 = sends_ st'
        /\ (forall c services ok,
              sender_send (protocol.request_service_command c services) ok
                ∈ trace_ st3 ->
              sender_send (protocol.request_service_command c services) ok
                ∈ trace_ st'
              \/ services = requests_to_debounce_ st2)).
Proof.
  cbv beta zeta. intros Htime (Htrans & Hkey) Hset_d Hset_r.
  assert (Hz : (request_debounce_time E =? 0) = false) by now apply Z.eqb_neq.
  set (service := protocol.service_ request).
  set (instance := protocol.instance_ request).
  split.
  - assert (Hst1 :
      requests_to_debounce_ (exec (request_service E _client request) st)
      = set_insert (service_lt E) request (requests_to_debounce_ st)
      /\ requests_ (exec (request_service E _client request) st) = requests_ st
      /\ trace_ (exec (request_service E _client request) st)
         = trace_ st ++ [base_request_service _client request]
      /\ sends_ (exec (request_service E _client request) st) = sends_ st).
    { unfold request_service. run_monad. rewrite Hz. cbn.
      destruct (request_debounce_timer_running_ st); cbn; repeat split; reflexivity. }
    destruct Hst1 as (Hd1 & Hr1 & Ht1 & Hs1).
    rewrite Hd1, Hr1, Ht1, Hs1. repeat split; try assumption.
    + apply set_insert_found. intros a b. apply Hkey.
    + now apply set_insert_is_set.
  - intros st' Hbuffered Hset_d' Hset_r'.
    assert (Hst2 :
      requests_to_debounce_ (exec (release_service E _client service instance) st')
      = erase_first (matches_service_instance service instance)
          (requests_to_debounce_ st')
      /\ requests_ (exec (release_service E _client service instance) st')
         = erase_first (matches_service_instance service instance) (requests_ st')
      /\ trace_ (exec (release_service E _client service instance) st')
         = trace_ st' ++ [base_release_service _client service instance;
                          remove_pending_subscription service instance 0xFFFF
                            (ANY_EVENT E)]
      /\ sends_ (exec (release_service E _client service instance) st') = sends_ st').
    { unfold release_service. run_monad. cbn. rewrite Hbuffered. cbn.
      rewrite <- ?app_assoc. repeat split; reflexivity. }
    destruct Hst2 as (Hd2 & Hr2 & Ht2 & Hs2).
    repeat split; try assumption.
    + rewrite Hd2. apply (erase_first_leaves_none (service_lt E));
        [intros a b; apply Hkey | assumption].
    + rewrite Hr2. apply (erase_first_leaves_none (service_lt E));
        [intros a b; apply Hkey | assumption].
    + intros c services ok Hin.
      apply request_debounce_timeout_cbk_sends in Hin as [Hin|Hin]; [|now right].
      rewrite Ht2 in Hin. apply elem_of_app in Hin as [Hin|Hin]; [now left|].
      rewrite !elem_of_cons, elem_of_nil in Hin.
      decompose [or] Hin; try discriminate; contradiction.
Qed.

End Debounce.

(** ** Offers *)

Lemma count_effects_app (p : effect -> bool) (t1 t2 : list effect) :
  count_effects p (t1 ++ t2) = (count_effects p t1 + count_effects p t2)%nat.
Proof. induction t1 as [|ev t1 IH]; cbn; [reflexivity|]. rewrite IH. lia. Qed.

Section Offers.
Variable E : environment.

(** C3, as the code has it.  [offer_service] hands one OFFER_SERVICE to the
    sender on every call made in state Registered, whether or not the
    service is already in [pending_offers_]; in any other state it hands
    nothing to the sender.  Only the insertion into [pending_offers_] is
    the set's, and so without effect for a service that is present.  The
    send presupposes a sender and a command that serializes. *)
Theorem offer_service_sends_on_every_call (_client : client_t) (s : protocol.service)
    (st : routing_manager_client) :
  let st' := exec (offer_service E _client s) st in
  let offer := protocol.offer_service_command (client_ st) s in
  let sent := send_result E (sends_ st) offer in
  let base :=
    base_offer_service _client s
    :: (if base_offer_service_result E s then []
        else [log warn_base_offer_service_returned_false]) in
  sender_ st = true ->
  serialize_ok E offer = true ->
  (state_ st = ST_REGISTERED ->
     trace_ st' =
       trace_ st ++ base ++ sender_send offer sent
                            :: (if sent then [] else [log err_failure_offering_service])
     /\ offer_service_emissions s (trace_ st')
        = S (offer_service_emissions s (trace_ st)))
  /\ (state_ st <> ST_REGISTERED ->
        trace_ st' = trace_ st ++ base /\ sends_ st' = sends_ st)
  /\ pending_offers_ st' = set_insert (service_lt E) s (pending_offers_ st)
  /\ state_ st' = state_ st.
Proof.
  cbv beta zeta. intros Hsender Hser.
  unfold offer_service. run_monad.
  destruct (base_offer_service_result E s) eqn:Hres; cbn;
    (destruct (decide (state_ st = ST_REGISTERED)) as [Hreg|Hreg]; cbn;
     [ rewrite send_offer_service_run by (cbn; assumption);
       unfold after_failure_log, after_send, offer_service_emissions; cbn;
       destruct (send_result E (sends_ st) _); cbn;
       (split; [intros _; split | split; [intros; congruence | split; assumption || reflexivity]]);
       rewrite <- ?app_assoc; try reflexivity;
       rewrite !count_effects_app; cbn;
       rewrite bool_decide_eq_true_2 by reflexivity; lia
     | split; [intros; congruence | split; [intros _; split | split]];
       rewrite <- ?app_assoc; reflexivity ]).
Qed.

End Offers.

(** C3, as the specification has it, fails.  A Registered proxy that has
    (0x1111, 0x2222, 1, 0) in [pending_offers_] and has handed nothing to the
    sender yet is told twice to offer that service: two OFFER_SERVICE
    commands leave, not one, and already the first call, for a service that
    is present in the set, causes a send. *)
Lemma offer_service_twice_emits_twice :
  let st := connected_proxy ST_REGISTERED [service_1111_2222] [] [] in
  let once := exec (offer_service reference_environment 0x1234 service_1111_2222) st in
  let twice := exec (offer_service reference_environment 0x1234 service_1111_2222) once in
  service_1111_2222 ∈ pending_offers_ st
  /\ offer_service_emissions service_1111_2222 (trace_ st) = 0%nat
  /\ offer_service_emissions service_1111_2222 (trace_ once) = 1%nat
  /\ offer_service_emissions service_1111_2222 (trace_ twice) = 2%nat
  /\ offer_service_emissions service_1111_2222 (trace_ twice) <> 1%nat.
Proof.
  cbv zeta. split; [apply list_elem_of_singleton; reflexivity|].
  vm_compute. repeat split; congruence.
Qed.

(** ** The commit of a registration *)

Section Replay.
Variable E : environment.

Lemma sent_all_nil (st : routing_manager_client) : sent_all [] st = st.
Proof.
  destruct st. unfold sent_all. cbn. now rewrite app_nil_r, Nat.add_0_r.
Qed.

Lemma sent_all_cons (c : protocol.command) (cmds : list protocol.command)
    (st : routing_manager_client) :
  sent_all cmds (sent c st) = sent_all (c :: cmds) st.
Proof.
  unfold sent_all, sent. cbn. f_equal; [lia|].
  now rewrite <- app_assoc.
Qed.

Lemma sent_all_app (cmds1 cmds2 : list protocol.command) (st : routing_manager_client) :
  sent_all cmds2 (sent_all cmds1 st) = sent_all (cmds1 ++ cmds2) st.
Proof.
  unfold sent_all. cbn. f_equal; [rewrite length_app; lia|].
  now rewrite map_app, <- app_assoc.
Qed.

Lemma sent_all_one (c : protocol.command) (st : routing_manager_client) :
  sent c st = sent_all [c] st.
Proof. unfold sent, sent_all. cbn. f_equal. lia. Qed.

(** A send that reports success went through a sender, and the object after
    it is [sent]. *)
Lemma sender_and_send_true (c : protocol.command) (st st' : routing_manager_client) :
  sender_and_send E c st = (true, st') -> sender_ st = true /\ st' = sent c st.
Proof.
  unfold sender_and_send, sender_send_buffer. run_monad.
  destruct (sender_ st); [|discriminate].
  intros H. injection H as Hok Hst. split; [reflexivity|].
  subst st'. unfold sent. now rewrite Hok.
Qed.

Lemma only_sent_refl (st : routing_manager_client) : only_sent st st.
Proof.
  exists [], 0%nat. split; [constructor|].
  destruct st. cbn. now rewrite app_nil_r, Nat.add_0_r.
Qed.

Lemma only_sent_trans (st1 st2 st3 : routing_manager_client) :
  only_sent st1 st2 -> only_sent st2 st3 -> only_sent st1 st3.
Proof.
  intros (new1 & n1 & H1 & ->) (new2 & n2 & H2 & ->).
  exists (new1 ++ new2), (n1 + n2)%nat. split; [now apply Forall_app|].
  cbn. f_equal; [lia | now rewrite app_assoc].
Qed.

Lemma only_sent_log (l : log_line) (st : routing_manager_client) :
  only_sent st (set_trace (trace_ st ++ [log l]) st).
Proof.
  exists [log l], 0%nat. split; [repeat constructor|].
  destruct st. cbn. now rewrite Nat.add_0_r.
Qed.

Lemma only_sent_after_send (c : protocol.command) (st : routing_manager_client) :
  only_sent st (after_send E c st).
Proof.
  exists [sender_send c (send_result E (sends_ st) c)], 1%nat.
  split; [repeat constructor|]. unfold after_send. cbn. f_equal. lia.
Qed.

Lemma only_sent_sender_and_send (c : protocol.command) (st : routing_manager_client) :
  only_sent st (snd (sender_and_send E c st)).
Proof.
  destruct (sender_ st) eqn:Hs.
  - rewrite sender_and_send_present by exact Hs. apply only_sent_after_send.
  - rewrite sender_and_send_absent by exact Hs. apply only_sent_refl.
Qed.

(** The three functions of the commit that report success: a command goes
    out, and a failure adds an error line. *)
Lemma only_sent_send_registered_ack (st : routing_manager_client) :
  only_sent st (snd (send_registered_ack E st)).
Proof.
  unfold send_registered_ack. run_monad.
  destruct (serialize_ok E _); cbn [fst snd]; [|apply only_sent_log].
  destruct (sender_and_send E _ st) as [ok st1] eqn:Hsend. cbn [fst snd].
  assert (H1 : only_sent st st1).
  { replace st1 with (snd (sender_and_send E
      (protocol.registered_ack_command (client_ st)) st)) by now rewrite Hsend.
    apply only_sent_sender_and_send. }
  destruct ok; cbn [fst snd]; [exact H1|].
  eapply only_sent_trans; [exact H1 | apply only_sent_log].
Qed.

Lemma only_sent_send_offer_service (c : client_t) (s : protocol.service)
    (st : routing_manager_client) :
  only_sent st (snd (send_offer_service E c s st)).
Proof.
  unfold send_offer_service. run_monad.
  destruct (serialize_ok E _); cbn [fst snd]; [|apply only_sent_log].
  destruct (sender_and_send E _ st) as [ok st1] eqn:Hsend. cbn [fst snd].
  assert (H1 : only_sent st st1).
  { replace st1 with (snd (sender_and_send E
      (protocol.offer_service_command (client_ st) s) st)) by now rewrite Hsend.
    apply only_sent_sender_and_send. }
  destruct ok; cbn [fst snd]; [exact H1|].
  eapply only_sent_trans; [exact H1 | apply only_sent_log].
Qed.

Lemma only_sent_send_request_services (requests : list protocol.service)
    (st : routing_manager_client) :
  only_sent st (snd (send_request_services E requests st)).
Proof.
  unfold send_request_services. destruct requests as [|r rs]; [apply only_sent_refl|].
  run_monad.
  destruct (serialize_ok E _); cbn [fst snd]; [|apply only_sent_log].
  destruct (sender_and_send E _ st) as [ok st1] eqn:Hsend. cbn [fst snd].
  assert (H1 : only_sent st st1).
  { replace st1 with (snd (sender_and_send E
      (protocol.request_service_command (client_ st) (r :: rs)) st))
      by now rewrite Hsend.
    apply only_sent_sender_and_send. }
  destruct ok; cbn [fst snd]; [exact H1|].
  eapply only_sent_trans; [exact H1 | apply only_sent_log].
Qed.

Lemma send_pending_offers_cons (po : protocol.service) (offers : list protocol.service)
    (st : routing_manager_client) :
  send_pending_offers E (po :: offers) st
  = if fst (send_offer_service E (client_ st) po st)
    then send_pending_offers E offers (snd (send_offer_service E (client_ st) po st))
    else (false, snd (send_offer_service E (client_ st) po st)).
Proof.
  unfold send_pending_offers at 1. fold (send_pending_offers E). run_monad.
  destruct (fst (send_offer_service E (client_ st) po st)); reflexivity.
Qed.

Lemma only_sent_send_pending_offers (offers : list protocol.service)
    (st : routing_manager_client) :
  only_sent st (snd (send_pending_offers E offers st)).
Proof.
  revert st. induction offers as [|po offers IH]; intros st.
  - apply only_sent_refl.
  - rewrite send_pending_offers_cons.
    pose proof (only_sent_send_offer_service (client_ st) po st) as H1.
    destruct (send_offer_service E (client_ st) po st) as [ok st1]. cbn [fst snd] in *.
    destruct ok; [|exact H1].
    eapply only_sent_trans; [exact H1 | apply IH].
Qed.


Lemma send_registered_ack_true (st st' : routing_manager_client) :
  send_registered_ack E st = (true, st') ->
  sender_ st = true /\ st' = sent (protocol.registered_ack_command (client_ st)) st.
Proof.
  unfold send_registered_ack. run_monad.
  destruct (serialize_ok E _); cbn [fst snd]; [|discriminate].
  destruct (sender_and_send E _ st) as [ok st1] eqn:Hsend. cbn [fst snd].
  destruct ok; [|discriminate].
  intros H. injection H as <-. now apply sender_and_send_true.
Qed.

Lemma send_offer_service_true (c : client_t) (s : protocol.service)
    (st st' : routing_manager_client) :
  send_offer_service E c s st = (true, st') ->
  st' = sent (protocol.offer_service_command (client_ st) s) st.
Proof.
  unfold send_offer_service. run_monad.
  destruct (serialize_ok E _); cbn [fst snd]; [|discriminate].
  destruct (sender_and_send E _ st) as [ok st1] eqn:Hsend. cbn [fst snd].
  destruct ok; [|discriminate].
  intros H. injection H as <-. now apply sender_and_send_true in Hsend.
Qed.

Lemma send_request_services_true (requests : list protocol.service)
    (st st' : routing_manager_client) :
  send_request_services E requests st = (true, st') ->
  st' = sent_all (request_services_command (client_ st) requests) st.
Proof.
  unfold send_request_services. destruct requests as [|r rs].
  - intros H. injection H as <-. cbn. now rewrite sent_all_nil.
  - run_monad.
    destruct (serialize_ok E _); cbn [fst snd]; [|discriminate].
    destruct (sender_and_send E _ st) as [ok st1] eqn:Hsend. cbn [fst snd].
    destruct ok; [|discriminate].
    intros H. injection H as <-. apply sender_and_send_true in Hsend as [_ ->].
    apply sent_all_one.
Qed.

Lemma send_pending_offers_true (offers : list protocol.service)
    (st st' : routing_manager_client) :
  send_pending_offers E offers st = (true, st') ->
  st' = sent_all (map (protocol.offer_service_command (client_ st)) offers) st.
Proof.
  revert st. induction offers as [|po offers IH]; intros st.
  - intros H. injection H as <-. cbn. now rewrite sent_all_nil.
  - rewrite send_pending_offers_cons.
    destruct (send_offer_service E (client_ st) po st) as [ok st1] eqn:Hsend.
    cbn [fst snd]. destruct ok; [|discriminate].
    apply send_offer_service_true in Hsend. subst st1.
    intros H. apply IH in H. rewrite H. cbn [map]. apply sent_all_cons.
Qed.

(** *** The loop over the pending event registrations *)

Lemma add_registrations_exhausted (registrations registrations' : list protocol.register_event)
    (it : list event_data_t) :
  add_registrations E registrations it = (registrations', []) ->
  registrations' = registrations ++ map to_register_event it.
Proof.
  revert registrations. induction it as [|ed it IH]; intros registrations; cbn.
  - intros H. injection H as <-. now rewrite app_nil_r.
  - destruct (add_registration_fits E registrations (to_register_event ed));
      [|discriminate].
    intros H. apply IH in H. now rewrite H, <- app_assoc.
Qed.

(** What the inner loop leaves over starts with a registration that the
    command it has built refuses. *)
Lemma add_registrations_refused (registrations : list protocol.register_event)
    (it rest : list event_data_t) (ed : event_data_t) :
  snd (add_registrations E registrations it) = ed :: rest ->
  add_registration_fits E (fst (add_registrations E registrations it))
    (to_register_event ed) = false.
Proof.
  revert registrations. induction it as [|ed' it IH]; intros registrations; cbn.
  - discriminate.
  - destruct (add_registration_fits E registrations (to_register_event ed')) eqn:Hfit.
    + apply IH.
    + cbn. intros H. injection H as -> _. exact Hfit.
Qed.

Lemma add_registrations_all_fit (registrations : list protocol.register_event)
    (it : list event_data_t) :
  (forall l r, add_registration_fits E l r = true) ->
  add_registrations E registrations it
  = (registrations ++ map to_register_event it, []).
Proof.
  intros Hfit. revert registrations.
  induction it as [|ed it IH]; intros registrations; cbn.
  - now rewrite app_nil_r.
  - rewrite Hfit, IH, <- app_assoc. reflexivity.
Qed.

Lemma send_pending_event_registrations_loop_step (fuel : nat) (_client : client_t)
    (registrations : list protocol.register_event) (ed : event_data_t)
    (it : list event_data_t) (st : routing_manager_client) :
  send_pending_event_registrations_loop E (S fuel) _client registrations (ed :: it) st
  = let built := add_registrations E registrations (ed :: it) in
    let r := send_registrations_round E _client (fst built) st in
    if fst r
    then send_pending_event_registrations_loop E fuel _client (fst built) (snd built)
           (snd r)
    else Some (false, snd r).
Proof. reflexivity. Qed.

Lemma send_registrations_round_true (_client : client_t)
    (registrations : list protocol.register_event) (st st' : routing_manager_client) :
  send_registrations_round E _client registrations st = (true, st') ->
  st' = sent (protocol.register_events_command _client registrations) st.
Proof.
  unfold send_registrations_round. run_monad.
  destruct (serialize_ok E _); cbn [fst snd]; [|discriminate].
  destruct (sender_and_send E _ st) as [ok st1] eqn:Hsend. cbn [fst snd].
  destruct ok; [|discriminate].
  intros H. injection H as <-. now apply sender_and_send_true in Hsend.
Qed.

Lemma only_sent_send_registrations_round (_client : client_t)
    (registrations : list protocol.register_event) (st : routing_manager_client) :
  only_sent st (snd (send_registrations_round E _client registrations st)).
Proof.
  unfold send_registrations_round. run_monad.
  destruct (serialize_ok E _); cbn [fst snd]; [|apply only_sent_log].
  destruct (sender_and_send E _ st) as [ok st1] eqn:Hsend. cbn [fst snd].
  assert (H1 : only_sent st st1).
  { replace st1 with (snd (sender_and_send E
      (protocol.register_events_command _client registrations) st))
      by now rewrite Hsend.
    apply only_sent_sender_and_send. }
  destruct ok; cbn [fst snd]; [exact H1|].
  eapply only_sent_trans; [exact H1 | apply only_sent_log].
Qed.

(** Once the command refuses the next registration the loop cannot end
    with success: every round sends the same command and leaves the
    iterator where it is. *)
Lemma send_pending_event_registrations_loop_stuck (fuel : nat) (_client : client_t)
    (registrations : list protocol.register_event) (ed : event_data_t)
    (it : list event_data_t) (st st' : routing_manager_client) :
  add_registration_fits E registrations (to_register_event ed) = false ->
  send_pending_event_registrations_loop E fuel _client registrations (ed :: it) st
  <> Some (true, st').
Proof.
  intros Hfit. revert st. induction fuel as [|fuel IH]; intros st.
  - discriminate.
  - rewrite send_pending_event_registrations_loop_step.
    cbn [add_registrations]. rewrite Hfit. cbv zeta. cbn [fst snd].
    destruct (fst (send_registrations_round E _client registrations st));
      [apply IH | discriminate].
Qed.

Lemma send_pending_event_registrations_loop_true (fuel : nat) (_client : client_t)
    (registrations : list protocol.register_event) (it : list event_data_t)
    (st st' : routing_manager_client) :
  send_pending_event_registrations_loop E fuel _client registrations it st
  = Some (true, st') ->
  st' = sent_all (register_events_commands _client registrations it) st.
Proof.
  destruct it as [|ed it].
  - destruct fuel; cbn; intros H; injection H as <-; now rewrite sent_all_nil.
  - destruct fuel as [|fuel]; [discriminate|].
    rewrite send_pending_event_registrations_loop_step. cbv zeta.
    destruct (add_registrations E registrations (ed :: it)) as [built rest] eqn:Hadd.
    cbn [fst snd].
    destruct (send_registrations_round E _client built st) as [ok st1] eqn:Hround.
    cbn [fst snd]. destruct ok; [|discriminate].
    apply send_registrations_round_true in Hround. subst st1.
    destruct rest as [|ed' rest].
    + apply add_registrations_exhausted in Hadd. subst built.
      destruct fuel; cbn [send_pending_event_registrations_loop];
        intros H; injection H as <-; cbn [register_events_commands];
        apply sent_all_one.
    + intros H. exfalso.
      eapply send_pending_event_registrations_loop_stuck; [|exact H].
      pose proof (add_registrations_refused registrations (ed :: it) rest ed') as Href.
      rewrite Hadd in Href. cbn [fst snd] in Href. now apply Href.
Qed.

Lemma only_sent_send_pending_event_registrations_loop (fuel : nat) (_client : client_t)
    (registrations : list protocol.register_event) (it : list event_data_t)
    (st st' : routing_manager_client) (ok : bool) :
  send_pending_event_registrations_loop E fuel _client registrations it st
  = Some (ok, st') ->
  only_sent st st'.
Proof.
  revert registrations it st. induction fuel as [|fuel IH]; intros registrations it st.
  - destruct it; cbn; [|discriminate].
    intros H. injection H as _ <-. apply only_sent_refl.
  - destruct it as [|ed it].
    + cbn. intros H. injection H as _ <-. apply only_sent_refl.
    + rewrite send_pending_event_registrations_loop_step. cbv zeta.
      pose proof (only_sent_send_registrations_round _client
                    (fst (add_registrations E registrations (ed :: it))) st) as H1.
      destruct (send_registrations_round E _client _ st) as [ok1 st1].
      cbn [fst snd] in *. destruct ok1.
      * intros H. apply IH in H. eapply only_sent_trans; eassumption.
      * intros H. injection H as _ <-. exact H1.
Qed.

(** With a codec that never refuses a registration the loop is over after
    one round. *)
Lemma send_pending_event_registrations_loop_returns (fuel : nat) (_client : client_t)
    (registrations : list protocol.register_event) (it : list event_data_t)
    (st : routing_manager_client) :
  (forall l r, add_registration_fits E l r = true) ->
  (0 < fuel)%nat ->
  exists r,
    send_pending_event_registrations_loop E fuel _client registrations it st = Some r.
Proof.
  intros Hfit Hfuel. destruct fuel as [|fuel]; [lia|].
  destruct it as [|ed it]; [eexists; reflexivity|].
  rewrite send_pending_event_registrations_loop_step. cbv zeta.
  rewrite add_registrations_all_fit by exact Hfit. cbn [fst snd].
  destruct (fst (send_registrations_round E _client _ st)).
  - destruct fuel; eexists; reflexivity.
  - eexists; reflexivity.
Qed.

End Replay.

Section Commit.
Variable E : environment.

Lemma send_pending_commands_true (fuel : nat) (st st' : routing_manager_client) :
  send_pending_commands E fuel st = Some (true, st') ->
  st' = sent_all (pending_commands st) st.
Proof.
  unfold send_pending_commands, send_pending_event_registrations, pending_commands.
  destruct (send_pending_offers E (pending_offers_ st) st) as [ok st1] eqn:Hoffers.
  cbn [fst snd]. destruct ok; [|discriminate].
  apply send_pending_offers_true in Hoffers. subst st1.
  destruct (send_pending_event_registrations_loop E fuel _ _ _ _)
    as [[ok st2]|] eqn:Hloop; [|discriminate].
  destruct ok; [|discriminate].
  apply send_pending_event_registrations_loop_true in Hloop. subst st2.
  intros H. injection H as H. apply send_request_services_true in H.
  rewrite H. cbn. rewrite !sent_all_app. reflexivity.
Qed.

Lemma only_sent_send_pending_commands (fuel : nat) (ok : bool)
    (st st' : routing_manager_client) :
  send_pending_commands E fuel st = Some (ok, st') -> only_sent st st'.
Proof.
  unfold send_pending_commands, send_pending_event_registrations.
  pose proof (only_sent_send_pending_offers E (pending_offers_ st) st) as H1.
  destruct (send_pending_offers E (pending_offers_ st) st) as [ok1 st1].
  cbn [fst snd] in *. destruct ok1.
  - destruct (send_pending_event_registrations_loop E fuel _ _ _ _)
      as [[ok2 st2]|] eqn:Hloop; [|discriminate].
    apply only_sent_send_pending_event_registrations_loop in Hloop.
    destruct ok2.
    + intros H. injection H as H.
      pose proof (only_sent_send_request_services E (requests_ st2) st2) as H3.
      rewrite H in H3. cbn [snd] in H3.
      eapply only_sent_trans; [exact H1|]. eapply only_sent_trans; eassumption.
    + intros H. injection H as _ <-. eapply only_sent_trans; eassumption.
  - intros H. injection H as _ <-. exact H1.
Qed.

Lemma send_pending_commands_returns (fuel : nat) (st : routing_manager_client) :
  (forall l r, add_registration_fits E l r = true) ->
  (0 < fuel)%nat ->
  exists r, send_pending_commands E fuel st = Some r.
Proof.
  intros Hfit Hfuel. unfold send_pending_commands, send_pending_event_registrations.
  destruct (send_pending_offers E (pending_offers_ st) st) as [ok st1].
  cbn [fst snd]. destruct ok; [|eexists; reflexivity].
  destruct (send_pending_event_registrations_loop_returns E fuel (client_ st1) []
              (pending_event_registrations_ st1) st1 Hfit Hfuel) as [[ok2 st2] ->].
  destruct ok2; eexists; reflexivity.
Qed.

Lemma add_guest_if_specified_run (e : protocol.routing_info_entry)
    (st : routing_manager_client) :
  exec (add_guest_if_specified e) st
  = set_known_clients
      (match protocol.e_address e with
       | Some _ => map_assign (protocol.e_client e) EmptyString (known_clients_ st)
       | None => known_clients_ st
       end)
      (set_trace (trace_ st ++ guest_effects e) st).
Proof.
  unfold add_guest_if_specified, add_known_client, guest_effects.
  destruct (protocol.e_address e); run_monad; cbn; [reflexivity|].
  destruct st; cbn. now rewrite app_nil_r.
Qed.

End Commit.

Section Registration.
Variable E : environment.

Lemma deregister_application_effects (st : routing_manager_client) :
  exists new n,
    no_replay_emission new
    /\ exec (deregister_application E) st
       = set_trace (trace_ st ++ new) (set_sends (sends_ st + n)%nat st).
Proof.
  unfold deregister_application, if_sender_send, sender_send_buffer. run_monad.
  destruct (serialize_ok E _); [destruct (is_connected_ st); [destruct (sender_ st)|]|];
    cbn.
  - exists [sender_send (protocol.deregister_application_command (client_ st))
              (send_result E (sends_ st)
                 (protocol.deregister_application_command (client_ st)))], 1%nat.
    split; [repeat constructor|]. f_equal. lia.
  - exists [], 0%nat. split; [constructor|].
    destruct st; cbn. now rewrite app_nil_r, Nat.add_0_r.
  - exists [], 0%nat. split; [constructor|].
    destruct st; cbn. now rewrite app_nil_r, Nat.add_0_r.
  - exists [log err_deregister_application_serialization_failed], 0%nat.
    split; [repeat constructor|]. f_equal. lia.
Qed.

Lemma for_each_cons {A} (x : A) (xs : list A) (body : A -> M unit)
    (st : routing_manager_client) :
  for_each (x :: xs) body st = for_each xs body (snd (body x st)).
Proof. reflexivity. Qed.

(** A loop whose body keeps the registration state and appends effects of
    one kind does so as a whole. *)
Lemma for_each_effects {A} (P : effect -> Prop) (xs : list A) (body : A -> M unit) :
  (forall x st,
     state_ (snd (body x st)) = state_ st
     /\ exists new, trace_ (snd (body x st)) = trace_ st ++ new /\ Forall P new) ->
  forall st,
    state_ (snd (for_each xs body st)) = state_ st
    /\ exists new, trace_ (snd (for_each xs body st)) = trace_ st ++ new /\ Forall P new.
Proof.
  intros Hbody. induction xs as [|x xs IH]; intros st.
  - split; [reflexivity|]. exists []. split; [now rewrite app_nil_r | constructor].
  - rewrite for_each_cons.
    destruct (Hbody x st) as (Hs1 & new1 & Ht1 & Hn1).
    destruct (IH (snd (body x st))) as (Hs2 & new2 & Ht2 & Hn2).
    split; [congruence|].
    exists (new1 ++ new2). split; [|now apply Forall_app].
    rewrite Ht2, Ht1. now rewrite app_assoc.
Qed.

(** The parked inbound subscriptions are handed to the application host
    without a change of the registration state and without a send. *)
Lemma process_pending_incoming_subscriptions_effects (st : routing_manager_client) :
  exists new,
    no_replay_emission new
    /\ state_ (exec process_pending_incoming_subscriptions st) = state_ st
    /\ trace_ (exec process_pending_incoming_subscriptions st) = trace_ st ++ new.
Proof.
  unfold process_pending_incoming_subscriptions, exec, bind, gets. cbn [fst snd].
  destruct (pending_incoming_subscriptions_ st) eqn:Hp.
  { exists []. split; [constructor|]. split; [reflexivity|]. now rewrite app_nil_r. }
  match goal with |- context [for_each ?xs ?body st] =>
    destruct (for_each_effects (fun ev => is_replay_emission ev = false) xs body)
      with (st := st) as (Hstate & new & Htrace & Hnew) end.
  { intros x st0. run_monad. cbn. split; [reflexivity|].
    eexists [_; _]. split; [now rewrite <- app_assoc | repeat constructor]. }
  exists new. repeat split; assumption.
Qed.

(** C9.  A ROUTING_INFO entry ADD_CLIENT for the proxy's own client id that
    arrives in state Registered starts no registration: the state stays
    Registered and neither REGISTERED_ACK nor any command of the replay
    (OFFER_SERVICE, REGISTER_EVENT, REQUEST_SERVICE) is handed to the sender,
    by the entry or by the frame that consists of it.  With a passing
    credential check the entry does nothing but record the guest address it
    may carry, and nothing at all when the address is unspecified. *)
Theorem add_client_for_self_when_registered_is_noop (fuel : nat)
    (e : protocol.routing_info_entry) (st : routing_manager_client) :
  protocol.e_type e = protocol.RIE_ADD_CLIENT ->
  protocol.e_client e = client_ st ->
  state_ st = ST_REGISTERED ->
  (exists returned st' new,
     on_routing_info_entry E fuel e st = Some (returned, st')
     /\ state_ st' = ST_REGISTERED
     /\ trace_ st' = trace_ st ++ new
     /\ no_replay_emission new
     /\ (check_credentials E (client_ st) = true ->
           returned = false /\ st' = exec (add_guest_if_specified e) st)
     /\ (check_credentials E (client_ st) = true -> protocol.e_address e = None ->
           st' = st))
  /\ (exists st' new,
        on_routing_info E fuel (Some [e]) st = Some st'
        /\ state_ st' = ST_REGISTERED
        /\ trace_ st' = trace_ st ++ new
        /\ no_replay_emission new).
Proof.
  intros Htype Hclient Hstate.
  assert (Hguest : no_replay_emission (guest_effects e)).
  { unfold guest_effects. destruct (protocol.e_address e); repeat constructor. }
  assert (Hentry : exists returned st' new,
     on_routing_info_entry E fuel e st = Some (returned, st')
     /\ state_ st' = ST_REGISTERED
     /\ trace_ st' = trace_ st ++ new
     /\ no_replay_emission new
     /\ (check_credentials E (client_ st) = true ->
           returned = false /\ st' = exec (add_guest_if_specified e) st)
     /\ (check_credentials E (client_ st) = true -> protocol.e_address e = None ->
           st' = st)).
  { unfold on_routing_info_entry. rewrite Htype.
    rewrite add_guest_if_specified_run. cbn.
    rewrite Hclient, Z.eqb_refl.
    destruct (check_credentials E (client_ st)) eqn:Hcred; cbn.
    - rewrite Hstate. eexists false, _, (guest_effects e).
      split; [reflexivity|]. cbn.
      repeat split; try assumption.
      intros _ Haddr. unfold guest_effects. rewrite Haddr.
      destruct st; cbn in *. rewrite app_nil_r. now rewrite Hstate.
    - run_monad.
      match goal with |- context [deregister_application E ?st0] =>
        destruct (deregister_application_effects st0) as (new & n & Hnew & Hrun) end.
      unfold exec in Hrun. rewrite Hrun. cbn.
      eexists true, _, (guest_effects e ++ [log err_credential_check_failed] ++ new
                        ++ [host_on_state ST_DEREGISTERED]).
      split; [reflexivity|]. cbn.
      repeat split; try assumption; try discriminate.
      + now rewrite <- !app_assoc.
      + apply Forall_app. split; [exact Hguest|].
        constructor; [reflexivity|].
        apply Forall_app. split; [exact Hnew | repeat constructor]. }
  split; [exact Hentry|].
  destruct Hentry as (returned & st' & new & Hrun & Hst' & Htrace & Hnew & _).
  unfold on_routing_info.
  destruct (has_policy_manager E); cbn.
  - cbn [on_routing_info_entries]. rewrite Hrun.
    destruct returned.
    + exists st', new. repeat split; assumption.
    + destruct (process_pending_incoming_subscriptions_effects st')
        as (new' & Hnew' & Hstate' & Htrace').
      exists (exec process_pending_incoming_subscriptions st'), (new ++ new').
      split; [reflexivity|].
      split; [congruence|].
      split; [rewrite Htrace', Htrace; now rewrite app_assoc|].
      now apply Forall_app.
  - exists st, []. split; [reflexivity|]. split; [assumption|].
    split; [now rewrite app_nil_r | constructor].
Qed.


Lemma enter_registered_run (st : routing_manager_client) :
  exec (enter_registered E) st
  = set_trace (trace_ st ++ [state_condition_notify_one; host_on_state ST_REGISTERED])
      (set_keepalive_timer
         (if negb (keepalive_active_ st) && is_local_clients_keepalive_enabled E
          then Some (local_clients_keepalive_time E) else keepalive_timer_ st)
         (set_keepalive_is_alive
            (if negb (keepalive_active_ st) && is_local_clients_keepalive_enabled E
             then true else keepalive_is_alive_ st)
            (set_keepalive_active
               (keepalive_active_ st || is_local_clients_keepalive_enabled E)
               (set_register_application_timer None (set_state ST_REGISTERED st))))).
Proof.
  unfold enter_registered, start_keepalive. run_monad. cbn.
  destruct (keepalive_active_ st) eqn:Ha;
    destruct (is_local_clients_keepalive_enabled E); cbn;
    rewrite <- ?app_assoc; cbn; rewrite ?Ha; reflexivity.
Qed.

(** The RIE_ADD_CLIENT case for the own client id in state Registering,
    after a passing credential check, by the outcome of
    [send_registered_ack() && send_pending_commands()]. *)
Lemma on_routing_info_entry_registering (fuel : nat) (e : protocol.routing_info_entry)
    (st : routing_manager_client) :
  protocol.e_type e = protocol.RIE_ADD_CLIENT ->
  protocol.e_client e = client_ st ->
  state_ st = ST_REGISTERING ->
  check_credentials E (client_ st) = true ->
  on_routing_info_entry E fuel e st
  = let acked := send_registered_ack E (exec (add_guest_if_specified e) st) in
    if fst acked then
      match send_pending_commands E fuel (snd acked) with
      | None => None
      | Some (true, st2) => Some (false, exec (enter_registered E) st2)
      | Some (false, st2) =>
          Some (false, set_trace (trace_ st2 ++ [log err_failure_registering_client]) st2)
      end
    else
      Some (false,
            set_trace (trace_ (snd acked) ++ [log err_failure_registering_client])
              (snd acked)).
Proof.
  intros Htype Hclient Hstate Hcred.
  unfold on_routing_info_entry. rewrite Htype.
  assert (Hc1 : client_ (exec (add_guest_if_specified e) st) = client_ st)
    by now rewrite add_guest_if_specified_run.
  assert (Hs1 : state_ (exec (add_guest_if_specified e) st) = ST_REGISTERING)
    by now rewrite add_guest_if_specified_run.
  rewrite Hc1, Hclient, Z.eqb_refl, Hcred, Hs1. cbn [negb].
  reflexivity.
Qed.

End Registration.


(** *** A codec and a transport that do not fail *)

Section ReliableTransport.
Variable E : environment.
Hypothesis serializes : forall c, serialize_ok E c = true.
Hypothesis delivers : forall n c, send_result E n c = true.
Hypothesis fits : forall l r, add_registration_fits E l r = true.

Lemma sender_and_send_delivers (c : protocol.command) (st : routing_manager_client) :
  sender_ st = true -> sender_and_send E c st = (true, sent c st).
Proof.
  intros Hs. rewrite sender_and_send_present by exact Hs.
  unfold after_send, sent. now rewrite delivers.
Qed.

Lemma send_registered_ack_delivers (st : routing_manager_client) :
  sender_ st = true ->
  send_registered_ack E st
  = (true, sent (protocol.registered_ack_command (client_ st)) st).
Proof.
  intros Hs. unfold send_registered_ack. run_monad.
  rewrite serializes, sender_and_send_delivers by exact Hs. reflexivity.
Qed.

Lemma send_offer_service_delivers (c : client_t) (s : protocol.service)
    (st : routing_manager_client) :
  sender_ st = true ->
  send_offer_service E c s st
  = (true, sent (protocol.offer_service_command (client_ st) s) st).
Proof.
  intros Hs. unfold send_offer_service. run_monad.
  rewrite serializes, sender_and_send_delivers by exact Hs. reflexivity.
Qed.

Lemma send_pending_offers_delivers (offers : list protocol.service)
    (st : routing_manager_client) :
  sender_ st = true ->
  send_pending_offers E offers st
  = (true, sent_all (map (protocol.offer_service_command (client_ st)) offers) st).
Proof.
  revert st. induction offers as [|po offers IH]; intros st Hs.
  - cbn. now rewrite sent_all_nil.
  - rewrite send_pending_offers_cons, send_offer_service_delivers by exact Hs.
    cbn [fst snd]. rewrite IH by exact Hs. cbn [map]. now rewrite <- sent_all_cons.
Qed.

Lemma send_request_services_delivers (requests : list protocol.service)
    (st : routing_manager_client) :
  sender_ st = true ->
  send_request_services E requests st
  = (true, sent_all (request_services_command (client_ st) requests) st).
Proof.
  intros Hs. destruct requests as [|r rs].
  - cbn. now rewrite sent_all_nil.
  - unfold send_request_services. run_monad.
    rewrite serializes, sender_and_send_delivers by exact Hs.
    cbn. now rewrite sent_all_one.
Qed.

Lemma send_pending_event_registrations_loop_delivers (fuel : nat) (_client : client_t)
    (registrations : list protocol.register_event) (it : list event_data_t)
    (st : routing_manager_client) :
  sender_ st = true ->
  (0 < fuel)%nat ->
  send_pending_event_registrations_loop E fuel _client registrations it st
  = Some (true, sent_all (register_events_commands _client registrations it) st).
Proof.
  intros Hs Hfuel. destruct fuel as [|fuel]; [lia|].
  destruct it as [|ed it].
  - cbn. now rewrite sent_all_nil.
  - rewrite send_pending_event_registrations_loop_step. cbv zeta.
    rewrite add_registrations_all_fit by exact fits. cbn [fst snd].
    unfold send_registrations_round. run_monad.
    rewrite serializes, sender_and_send_delivers by exact Hs. cbn [fst snd].
    destruct fuel; cbn [send_pending_event_registrations_loop register_events_commands];
      now rewrite sent_all_one.
Qed.

Lemma send_pending_commands_delivers (fuel : nat) (st : routing_manager_client) :
  sender_ st = true ->
  (0 < fuel)%nat ->
  send_pending_commands E fuel st = Some (true, sent_all (pending_commands st) st).
Proof.
  intros Hs Hfuel. unfold send_pending_commands, send_pending_event_registrations.
  rewrite send_pending_offers_delivers by exact Hs. cbn [fst snd].
  rewrite send_pending_event_registrations_loop_delivers by (cbn; assumption).
  rewrite send_request_services_delivers by (cbn; assumption).
  unfold pending_commands. cbn. now rewrite !sent_all_app.
Qed.

End ReliableTransport.

Section CommitPoint.
Variable E : environment.

Lemma only_sent_fields (st st' : routing_manager_client) :
  only_sent st st' ->
  state_ st' = state_ st
  /\ client_ st' = client_ st
  /\ sender_ st' = sender_ st
  /\ register_application_timer_ st' = register_application_timer_ st
  /\ keepalive_active_ st' = keepalive_active_ st
  /\ exists new, trace_ st' = trace_ st ++ new /\ Forall is_send_or_log new.
Proof.
  intros (new & n & Hnew & ->). cbn. repeat split. now exists new.
Qed.

(** The register watchdog expires while the proxy is not Registered. *)
Lemma register_application_timer_expires_run (st : routing_manager_client) :
  register_application_timer_ st = Some register_application_timeout_cbk_handler ->
  state_ st <> ST_REGISTERED ->
  let st' := exec register_application_timer_expires st in
  state_ st' = ST_DEREGISTERED
  /\ register_application_timer_ st' = None
  /\ trace_ st' =
       trace_ st ++ log warn_register_timeout_trying_again
                    :: (if sender_ st then [sender_restart] else []).
Proof.
  intros Htimer Hstate. cbv zeta.
  unfold register_application_timer_expires, register_application_timeout_cbk.
  run_monad. rewrite Htimer. cbn.
  rewrite bool_decide_eq_true_2 by exact Hstate. cbn.
  destruct (sender_ st); cbn; rewrite <- ?app_assoc; repeat split; reflexivity.
Qed.

(** C2, as the code has it.  Whenever a ROUTING_INFO entry ADD_CLIENT for the
    own client id takes the proxy from Registering to Registered, what the
    entry appends to the trace is, in this order: the guest address it may
    carry, REGISTERED_ACK, one OFFER_SERVICE for each element of
    [pending_offers_], one REGISTER_EVENT command with all the elements of
    [pending_event_registrations_], provided or not (none when the set is
    empty), one REQUEST_SERVICE with [requests_] (none when the set is
    empty), each of them sent with success, and then the notifications of
    the state change.  The transition does take place when the credential
    check passes, there is a sender and neither the codec nor the transport
    fails. *)
Theorem registration_replays_offers_events_requests (fuel : nat)
    (e : protocol.routing_info_entry) (st : routing_manager_client) :
  protocol.e_type e = protocol.RIE_ADD_CLIENT ->
  protocol.e_client e = client_ st ->
  state_ st = ST_REGISTERING ->
  (forall returned st',
     on_routing_info_entry E fuel e st = Some (returned, st') ->
     state_ st' = ST_REGISTERED ->
     trace_ st' =
       trace_ st
       ++ guest_effects e
       ++ map (fun c => sender_send c true)
            (protocol.registered_ack_command (client_ st)
             :: map (protocol.offer_service_command (client_ st)) (pending_offers_ st)
             ++ register_events_commands (client_ st) []
                  (pending_event_registrations_ st)
             ++ request_services_command (client_ st) (requests_ st))
       ++ [state_condition_notify_one; host_on_state ST_REGISTERED])
  /\ (check_credentials E (client_ st) = true ->
      sender_ st = true ->
      (forall c, serialize_ok E c = true) ->
      (forall n c, send_result E n c = true) ->
      (forall l r, add_registration_fits E l r = true) ->
      (0 < fuel)%nat ->
      exists st',
        on_routing_info_entry E fuel e st = Some (false, st')
        /\ state_ st' = ST_REGISTERED).
Proof.
  intros Htype Hclient Hstate.
  set (st1 := exec (add_guest_if_specified e) st).
  assert (Hfields1 :
    client_ st1 = client_ st /\ state_ st1 = ST_REGISTERING
    /\ trace_ st1 = trace_ st ++ guest_effects e
    /\ pending_commands st1 = pending_commands st
    /\ sender_ st1 = sender_ st)
    by (subst st1; rewrite add_guest_if_specified_run; cbn; auto 10).
  destruct Hfields1 as (Hc1 & Hs1 & Ht1 & Hp1 & Hsd1).
  split.
  - intros returned st' Hrun Hst'.
    destruct (check_credentials E (client_ st)) eqn:Hcred.
    + rewrite on_routing_info_entry_registering in Hrun by assumption.
      cbv zeta in Hrun. fold st1 in Hrun.
      pose proof (only_sent_send_registered_ack E st1) as Hack_sent.
      destruct (send_registered_ack E st1) as [acked st2] eqn:Hack.
      cbn [fst snd] in *. destruct acked.
      * apply send_registered_ack_true in Hack as [_ Hst2].
        destruct (send_pending_commands E fuel st2) as [[ok st3]|] eqn:Hpending;
          [|discriminate].
        destruct ok.
        -- apply send_pending_commands_true in Hpending.
           injection Hrun as _ <-.
           rewrite enter_registered_run. cbn.
           rewrite Hpending, Hst2. cbn. fold (pending_commands st1).
           rewrite Hp1, Ht1, Hc1. unfold pending_commands.
           now rewrite <- !app_assoc.
        -- apply only_sent_send_pending_commands in Hpending.
           apply only_sent_fields in Hack_sent as (Hsa & _).
           apply only_sent_fields in Hpending as (Hsb & _).
           injection Hrun as _ <-. cbn in Hst'. congruence.
      * apply only_sent_fields in Hack_sent as (Hsa & _).
        injection Hrun as _ <-. cbn in Hst'. congruence.
    + unfold on_routing_info_entry in Hrun. rewrite Htype in Hrun.
      fold st1 in Hrun. rewrite Hc1, Hclient, Z.eqb_refl, Hcred in Hrun.
      cbn [negb] in Hrun. injection Hrun as _ <-.
      revert Hst'. run_monad.
      match goal with |- context [deregister_application E ?st0] =>
        destruct (deregister_application_effects E st0) as (new & n & _ & Hd) end.
      unfold exec in Hd. rewrite Hd. cbn. congruence.
  - intros Hcred Hsender Hser Hsend Hfit Hfuel.
    rewrite on_routing_info_entry_registering by assumption.
    cbv zeta. fold st1.
    rewrite send_registered_ack_delivers by (try assumption; congruence).
    cbn [fst snd].
    rewrite send_pending_commands_delivers by (try assumption; cbn; congruence).
    eexists. split; [reflexivity|].
    now rewrite enter_registered_run.
Qed.

(** *** The outcome of the replay, send by send *)

Lemma delivered_app (n : nat) (cmds1 cmds2 : list protocol.command) :
  delivered E n (cmds1 ++ cmds2)
  = delivered E n cmds1 && delivered E (n + length cmds1) cmds2.
Proof.
  revert n. induction cmds1 as [|c cmds1 IH]; intros n; cbn.
  - now rewrite Nat.add_0_r.
  - rewrite IH, <- Nat.add_succ_comm. now rewrite !andb_assoc.
Qed.

Lemma send_registered_ack_outcome (st : routing_manager_client) :
  sender_ st = true ->
  fst (send_registered_ack E st)
  = delivered E (sends_ st) [protocol.registered_ack_command (client_ st)].
Proof.
  intros Hs. unfold send_registered_ack. run_monad. cbn [delivered].
  destruct (serialize_ok E _); [|reflexivity].
  rewrite sender_and_send_present by exact Hs. cbn [fst snd].
  destruct (send_result E _ _); reflexivity.
Qed.

Lemma send_offer_service_outcome (c : client_t) (s : protocol.service)
    (st : routing_manager_client) :
  sender_ st = true ->
  fst (send_offer_service E c s st)
  = delivered E (sends_ st) [protocol.offer_service_command (client_ st) s].
Proof.
  intros Hs. unfold send_offer_service. run_monad. cbn [delivered].
  destruct (serialize_ok E _); [|reflexivity].
  rewrite sender_and_send_present by exact Hs. cbn [fst snd].
  destruct (send_result E _ _); reflexivity.
Qed.

Lemma send_pending_offers_outcome (offers : list protocol.service)
    (st : routing_manager_client) :
  sender_ st = true ->
  fst (send_pending_offers E offers st)
  = delivered E (sends_ st) (map (protocol.offer_service_command (client_ st)) offers).
Proof.
  revert st. induction offers as [|po offers IH]; intros st Hs; [reflexivity|].
  rewrite send_pending_offers_cons.
  pose proof (send_offer_service_outcome (client_ st) po st Hs) as Hone.
  destruct (send_offer_service E (client_ st) po st) as [ok st1] eqn:Hoffer.
  cbn [fst snd] in *. cbn [map delivered] in *.
  rewrite andb_true_r in Hone. rewrite <- Hone.
  destruct ok; [|reflexivity].
  apply send_offer_service_true in Hoffer. subst st1.
  rewrite IH by exact Hs. reflexivity.
Qed.

Lemma send_request_services_outcome (requests : list protocol.service)
    (st : routing_manager_client) :
  sender_ st = true ->
  fst (send_request_services E requests st)
  = delivered E (sends_ st) (request_services_command (client_ st) requests).
Proof.
  intros Hs. destruct requests as [|r rs]; [reflexivity|].
  unfold send_request_services. run_monad. cbn [request_services_command delivered].
  destruct (serialize_ok E _); [|reflexivity].
  rewrite sender_and_send_present by exact Hs. cbn [fst snd].
  destruct (send_result E _ _); reflexivity.
Qed.

(** Where one REGISTER_EVENT command holds every pending registration, the
    loop of [send_pending_event_registrations] ends after one round. *)
Lemma send_pending_event_registrations_outcome (fuel : nat) (_client : client_t)
    (st : routing_manager_client) :
  sender_ st = true ->
  (0 < fuel)%nat ->
  snd (add_registrations E [] (pending_event_registrations_ st)) = [] ->
  exists st',
    send_pending_event_registrations E fuel _client st
    = Some (delivered E (sends_ st)
              (register_events_commands _client [] (pending_event_registrations_ st)),
            st').
Proof.
  intros Hs Hfuel Hall. unfold send_pending_event_registrations.
  destruct (pending_event_registrations_ st) as [|ed it] eqn:Hpending.
  - exists st. destruct fuel; reflexivity.
  - destruct fuel as [|fuel]; [lia|].
    rewrite send_pending_event_registrations_loop_step. cbv zeta.
    destruct (add_registrations E [] (ed :: it)) as [built rest] eqn:Hadd.
    cbn [fst snd] in *. subst rest.
    apply add_registrations_exhausted in Hadd. subst built.
    cbn [register_events_commands delivered].
    unfold send_registrations_round. run_monad.
    destruct (serialize_ok E _); cbn [fst snd andb]; [|eexists; reflexivity].
    rewrite sender_and_send_present by exact Hs. cbn [fst snd].
    destruct (send_result E _ _); cbn [fst snd andb]; [|eexists; reflexivity].
    eexists. destruct fuel; reflexivity.
Qed.

Lemma send_pending_commands_outcome (fuel : nat) (st : routing_manager_client) :
  sender_ st = true ->
  (0 < fuel)%nat ->
  snd (add_registrations E [] (pending_event_registrations_ st)) = [] ->
  exists st',
    send_pending_commands E fuel st
    = Some (delivered E (sends_ st) (pending_commands st), st').
Proof.
  intros Hs Hfuel Hall. unfold send_pending_commands, pending_commands.
  rewrite !delivered_app.
  pose proof (send_pending_offers_outcome (pending_offers_ st) st Hs) as Hoffers.
  destruct (send_pending_offers E (pending_offers_ st) st) as [ok st1] eqn:Hrun.
  cbn [fst snd] in *. rewrite <- Hoffers.
  destruct ok; [|eexists; reflexivity].
  apply send_pending_offers_true in Hrun. subst st1. cbn [andb].
  destruct (send_pending_event_registrations_outcome fuel
              (client_ (sent_all (map (protocol.offer_service_command (client_ st))
                                    (pending_offers_ st)) st))
              (sent_all (map (protocol.offer_service_command (client_ st))
                           (pending_offers_ st)) st))
    as [st2 Hevents]; [exact Hs | exact Hfuel | exact Hall |].
  rewrite Hevents. cbn [sent_all client_ sends_ pending_event_registrations_
                        set_trace set_sends].
  destruct (delivered E _ (register_events_commands _ _ _)) eqn:Hdelivered;
    cbn [andb]; [|eexists; reflexivity].
  unfold send_pending_event_registrations in Hevents.
  apply send_pending_event_registrations_loop_true in Hevents. subst st2.
  eexists. rewrite (surjective_pairing (send_request_services E _ _)).
  rewrite send_request_services_outcome by exact Hs.
  cbn [sent_all client_ sends_ requests_ set_trace set_sends].
  reflexivity.
Qed.

(** C1, as the code has it.  A ROUTING_INFO entry ADD_CLIENT for the own
    client id arrives in state Registering and the credential check passes.
    Where one REGISTER_EVENT command holds every pending registration, the
    entry is processed to the end, and the outcome is decided by the sends
    alone.
    - If there is a sender, and REGISTERED_ACK and every pending command
      serialize and are taken by it ([replay_succeeds]): the state is
      Registered, the register watchdog is cancelled, [start_keepalive]
      has run (keepalive is active if it was or if the configuration
      enables it) and the application host is told ST_REGISTERED after all
      the sends.
    - Otherwise (no sender, a command that does not serialize, a send that
      is refused): the state is still Registering, whatever was sent before
      the failure stays sent, the host is told nothing and the register
      watchdog is as it was.  When that watchdog then expires,
      [register_application_timeout_cbk] sets the state to Deregistered and
      restarts the sender. *)
Theorem registration_commits_or_waits_for_watchdog (fuel : nat)
    (e : protocol.routing_info_entry) (st : routing_manager_client) :
  protocol.e_type e = protocol.RIE_ADD_CLIENT ->
  protocol.e_client e = client_ st ->
  state_ st = ST_REGISTERING ->
  check_credentials E (client_ st) = true ->
  snd (add_registrations E [] (pending_event_registrations_ st)) = [] ->
  (0 < fuel)%nat ->
  exists st',
    on_routing_info_entry E fuel e st = Some (false, st')
    /\ (replay_succeeds E st = true ->
        state_ st' = ST_REGISTERED
        /\ trace_ st' =
             trace_ st ++ guest_effects e
             ++ map (fun c => sender_send c true) (replay_commands st)
             ++ [state_condition_notify_one; host_on_state ST_REGISTERED]
        /\ register_application_timer_ st' = None
        /\ keepalive_active_ st'
           = keepalive_active_ st || is_local_clients_keepalive_enabled E)
    /\ (replay_succeeds E st = false ->
        state_ st' = ST_REGISTERING
        /\ register_application_timer_ st' = register_application_timer_ st
        /\ (exists attempted,
              trace_ st' =
                trace_ st ++ guest_effects e ++ attempted
                ++ [log err_failure_registering_client]
              /\ Forall is_send_or_log attempted)
        /\ (register_application_timer_ st
            = Some register_application_timeout_cbk_handler ->
            let st'' := exec register_application_timer_expires st' in
            state_ st'' = ST_DEREGISTERED
            /\ register_application_timer_ st'' = None
            /\ trace_ st'' =
                 trace_ st' ++ log warn_register_timeout_trying_again
                               :: (if sender_ st then [sender_restart] else []))).
Proof.
  intros Htype Hclient Hstate Hcred Hfit Hfuel.
  set (st1 := exec (add_guest_if_specified e) st).
  assert (Hfields1 :
    client_ st1 = client_ st /\ state_ st1 = ST_REGISTERING
    /\ trace_ st1 = trace_ st ++ guest_effects e
    /\ pending_commands st1 = pending_commands st
    /\ register_application_timer_ st1 = register_application_timer_ st
    /\ keepalive_active_ st1 = keepalive_active_ st
    /\ sender_ st1 = sender_ st
    /\ sends_ st1 = sends_ st
    /\ pending_event_registrations_ st1 = pending_event_registrations_ st)
    by (subst st1; rewrite add_guest_if_specified_run; cbn; auto 12).
  destruct Hfields1 as (Hc1 & Hs1 & Ht1 & Hp1 & Hr1 & Hk1 & Hsd1 & Hn1 & He1).
  assert (Hwatchdog : forall st2 attempted,
    only_sent st1 st2 ->
    trace_ st2 = trace_ st1 ++ attempted ->
    Forall is_send_or_log attempted ->
    let st' := set_trace (trace_ st2 ++ [log err_failure_registering_client]) st2 in
    state_ st' = ST_REGISTERING
    /\ register_application_timer_ st' = register_application_timer_ st
    /\ (exists attempted,
          trace_ st' =
            trace_ st ++ guest_effects e ++ attempted
            ++ [log err_failure_registering_client]
          /\ Forall is_send_or_log attempted)
    /\ (register_application_timer_ st
        = Some register_application_timeout_cbk_handler ->
        let st'' := exec register_application_timer_expires st' in
        state_ st'' = ST_DEREGISTERED
        /\ register_application_timer_ st'' = None
        /\ trace_ st'' =
             trace_ st' ++ log warn_register_timeout_trying_again
                           :: (if sender_ st then [sender_restart] else []))).
  { intros st2 attempted Hsent Htrace Hatt st'.
    apply only_sent_fields in Hsent as (Hs2 & _ & Hsd2 & Hr2 & _).
    assert (Hf : state_ st' = state_ st2
                 /\ register_application_timer_ st' = register_application_timer_ st2
                 /\ sender_ st' = sender_ st2
                 /\ trace_ st' = trace_ st2 ++ [log err_failure_registering_client])
      by (subst st'; cbn; auto).
    clearbody st'. destruct Hf as (Hs' & Hr' & Hsd' & Ht').
    split; [congruence|]. split; [congruence|]. split.
    - exists attempted. split; [|assumption].
      rewrite Ht', Htrace, Ht1. now rewrite <- !app_assoc.
    - intros Htimer.
      pose proof (register_application_timer_expires_run st') as Hexp.
      cbv zeta in Hexp. rewrite Hsd', Hsd2, Hsd1 in Hexp. apply Hexp; congruence. }
  assert (Hsucceeds :
    replay_succeeds E st
    = sender_ st1
      && (delivered E (sends_ st1) [protocol.registered_ack_command (client_ st1)]
          && delivered E (S (sends_ st1)) (pending_commands st1))).
  { unfold replay_succeeds, replay_commands. cbn [delivered].
    rewrite Hsd1, Hn1, Hc1, Hp1, andb_true_r. reflexivity. }
  rewrite on_routing_info_entry_registering by assumption.
  cbv zeta. fold st1.
  pose proof (only_sent_send_registered_ack E st1) as Hack_sent.
  destruct (sender_ st1) eqn:Hsender.
  - pose proof (send_registered_ack_outcome st1 Hsender) as Hacked.
    destruct (send_registered_ack E st1) as [acked st2] eqn:Hack.
    cbn [fst snd] in *. rewrite <- Hacked in Hsucceeds. destruct acked.
    + apply send_registered_ack_true in Hack as [_ Hst2].
      destruct (send_pending_commands_outcome fuel st2) as [st3 Hpending];
        [subst st2; exact Hsender | exact Hfuel
        | subst st2; cbn; now rewrite He1 |].
      rewrite Hpending.
      assert (Hdelivered :
        delivered E (sends_ st2) (pending_commands st2) = replay_succeeds E st)
        by (rewrite Hsucceeds; subst st2; reflexivity).
      rewrite Hdelivered in Hpending |- *.
      pose proof (only_sent_send_pending_commands E fuel _ st2 st3 Hpending)
        as Hpending_sent.
      destruct (replay_succeeds E st).
      * apply send_pending_commands_true in Hpending.
        eexists. split; [reflexivity|]. split; [|discriminate]. intros _.
        rewrite enter_registered_run. cbn.
        rewrite Hpending, Hst2. cbn. fold (pending_commands st1).
        rewrite Hp1, Ht1, Hc1, Hk1. unfold replay_commands.
        repeat split. cbn. now rewrite <- !app_assoc.
      * eexists. split; [reflexivity|]. split; [discriminate|]. intros _.
        pose proof (only_sent_trans _ _ _ Hack_sent Hpending_sent) as Hsent.
        destruct (only_sent_fields _ _ Hsent)
          as (_ & _ & _ & _ & _ & new & Hnew & Hall).
        now apply (Hwatchdog st3 new).
    + eexists. split; [reflexivity|]. cbn in Hsucceeds. rewrite Hsucceeds.
      split; [discriminate|]. intros _.
      destruct (only_sent_fields _ _ Hack_sent)
        as (_ & _ & _ & _ & _ & new & Hnew & Hall).
      now apply (Hwatchdog st2 new).
  - cbn in Hsucceeds. rewrite Hsucceeds.
    assert (Hack : fst (send_registered_ack E st1) = false).
    { unfold send_registered_ack. run_monad.
      destruct (serialize_ok E _); [|reflexivity].
      rewrite sender_and_send_absent by exact Hsender. reflexivity. }
    destruct (send_registered_ack E st1) as [acked st2].
    cbn [fst snd] in *. subst acked.
    eexists. split; [reflexivity|]. split; [discriminate|]. intros _.
    destruct (only_sent_fields _ _ Hack_sent)
      as (_ & _ & _ & _ & _ & new & Hnew & Hall).
    now apply (Hwatchdog st2 new).
Qed.

End CommitPoint.

(** * The claims on concrete runs *)

(** C1, as the specification has it, fails.  A Registering proxy with one
    pending offer receives the entry for its own client id over a transport
    that takes REGISTERED_ACK and refuses the OFFER_SERVICE.  The state is
    not Deregistered afterwards but still Registering, although
    REGISTERED_ACK has left. *)
Lemma failed_send_leaves_state_registering :
  let st := connected_proxy ST_REGISTERING [service_1111_2222] [] [] in
  let r := on_routing_info_entry only_first_send_succeeds 1 add_client_1234 st in
  option_map (fun r => trace_ (snd r)) r
  = Some [sender_send (protocol.registered_ack_command 0x1234) true;
          sender_send (protocol.offer_service_command 0x1234 service_1111_2222) false;
          log err_failure_offering_service;
          log err_failure_registering_client]
  /\ option_map (fun r => state_ (snd r)) r = Some ST_REGISTERING
  /\ option_map (fun r => state_ (snd r)) r <> Some ST_DEREGISTERED
  /\ option_map (fun r => state_ (snd r)) r <> Some ST_REGISTERED.
Proof. vm_compute. repeat split; congruence. Qed.

(** C2, as the specification has it, fails.  A Registering proxy with one
    offer, one sent request and two event registrations is registered: the
    REGISTER_EVENT command leaves before the REQUEST_SERVICE command, not
    after it, and it carries the consumed event as well as the provided
    one. *)
Lemma replay_sends_register_event_before_request_service :
  let st :=
    connected_proxy ST_REGISTERING [service_1111_2222] [service_3333_4444]
      [provided_event_8001; consumed_event_8002] in
  let r := on_routing_info_entry reference_environment 1 add_client_1234 st in
  option_map (fun r => state_ (snd r)) r = Some ST_REGISTERED
  /\ option_map (fun r => trace_ (snd r)) r
     = Some [sender_send (protocol.registered_ack_command 0x1234) true;
             sender_send (protocol.offer_service_command 0x1234 service_1111_2222) true;
             sender_send
               (protocol.register_events_command 0x1234
                  [to_register_event provided_event_8001;
                   to_register_event consumed_event_8002]) true;
             sender_send
               (protocol.request_service_command 0x1234 [service_3333_4444]) true;
             state_condition_notify_one;
             host_on_state ST_REGISTERED]
  /\ option_map (fun r => replay_in_specified_order (trace_ (snd r))) r = Some false.
Proof. vm_compute. repeat split; congruence. Qed.

(** ** The theorems at concrete inputs *)

Lemma get_remote_subscriber_count_saturating_sparse_witness :
  get_remote_subscriber_count 0x1111 0x2222 0x10 false (constructed 0xFFFF)
  = (0, constructed 0xFFFF)
  /\ get_remote_subscriber_count 0x1111 0x2222 0x10 false proxy_with_no_remote_subscriber
     = (0, proxy_with_no_remote_subscriber)
  /\ fst (get_remote_subscriber_count 0x1111 0x2222 0x10 true (constructed 0xFFFF)) = 1.
Proof.
  pose proof (get_remote_subscriber_count_saturating_sparse
                (constructed 0xFFFF) 0x1111 0x2222 0x10) as Habsent.
  pose proof (get_remote_subscriber_count_saturating_sparse
                proxy_with_no_remote_subscriber 0x1111 0x2222 0x10) as Hzero.
  cbv zeta in Habsent, Hzero.
  destruct Habsent as (Hdec & _ & Hinc & _). destruct Hzero as (_ & Hsat & _).
  split; [apply Hdec; reflexivity|].
  split; [apply Hsat; reflexivity | apply Hinc; reflexivity].
Defined.

Lemma on_client_assign_ack_unset_is_failure_witness :
  state_ (connected_proxy ST_ASSIGNING [] [] []) = ST_ASSIGNING
  /\ state_ (exec (on_client_assign_ack reference_environment 0xFFFF)
               (connected_proxy ST_ASSIGNING [] [] [])) = ST_ASSIGNING.
Proof.
  split; [reflexivity|].
  apply (on_client_assign_ack_unset_is_failure reference_environment
           (connected_proxy ST_ASSIGNING [] [] [])).
  reflexivity.
Defined.

Lemma on_message_bound_client_gate_witness :
  is_from_routing reference_environment 0x2222 0x1111 0 0 = false
  /\ on_message reference_environment 1 (Some (0x2222, in_ping true)) 0x1111 0 0
       (connected_proxy ST_REGISTERED [] [] [])
     = Some (set_trace [log warn_bound_client_mismatch_skip_message]
               (connected_proxy ST_REGISTERED [] [] [])).
Proof.
  split; [reflexivity|].
  apply (on_message_bound_client_gate reference_environment 1 0x2222 (in_ping true)
           0x1111 0 0 (connected_proxy ST_REGISTERED [] [] []));
    reflexivity.
Defined.

Lemma remote_unsubscribe_withdraws_at_zero_witness :
  u_pending_id remote_unsubscribe_7 <> PENDING_SUBSCRIPTION_ID reference_environment
  /\ exists st',
       on_message_dispatch reference_environment 1 0 (in_unsubscribe (Some remote_unsubscribe_7))
         true proxy_with_two_remote_subscribers = Some st'
       /\ default 0 (remote_subscriber_count_lookup (remote_subscriber_count_ st')
                       0x1111 0x2222 0x10) = 1.
Proof.
  split; [discriminate|].
  destruct (remote_unsubscribe_withdraws_at_zero reference_environment 1 0 true
              remote_unsubscribe_7 true proxy_with_two_remote_subscribers)
    as (st' & Hrun & Hcount & _).
  - discriminate.
  - vm_compute. discriminate.
  - intros _. split; reflexivity.
  - exists st'. split; [exact Hrun | exact Hcount].
Defined.

Lemma request_debounce_timeout_flushes_or_defers_witness :
  requests_to_debounce_ proxy_with_buffered_request <> []
  /\ requests_to_debounce_
       (exec (request_debounce_timeout_cbk reference_environment success)
          proxy_with_buffered_request) = []
  /\ requests_
       (exec (request_debounce_timeout_cbk reference_environment success)
          proxy_with_buffered_request) = [service_3333_4444].
Proof.
  split; [discriminate|].
  pose proof (request_debounce_timeout_flushes_or_defers reference_environment
                proxy_with_buffered_request) as H.
  cbv zeta in H. destruct H as [Hflush _]; [discriminate|].
  destruct Hflush as (_ & Hrequests & _ & _ & Hempty & _); try reflexivity.
  split; [exact Hempty | exact Hrequests].
Defined.

Lemma release_before_flush_cancels_request_witness :
  request_debounce_time reference_environment <> 0
  /\ Forall (fun x => matches_service_instance 0x3333 0x4444 x = false)
       (requests_to_debounce_
          (exec (release_service reference_environment 0x1234 0x3333 0x4444)
             (exec (request_service reference_environment 0x1234 service_1111_2222)
                (exec (request_service reference_environment 0x1234 service_3333_4444)
                   (connected_proxy ST_REGISTERED [] [] []))))).
Proof.
  split; [discriminate|].
  pose proof (release_before_flush_cancels_request reference_environment 0x1234
                service_3333_4444 (connected_proxy ST_REGISTERED [] [] [])) as H.
  cbv zeta in H.
  destruct H as [_ Hrelease];
    [discriminate | exact service_instance_lt_orders | constructor | constructor |].
  specialize (Hrelease
    (exec (request_service reference_environment 0x1234 service_1111_2222)
       (exec (request_service reference_environment 0x1234 service_3333_4444)
          (connected_proxy ST_REGISTERED [] [] [])))).
  destruct Hrelease as (Habsent & _);
    [reflexivity | repeat constructor | constructor |].
  exact Habsent.
Defined.

Lemma offer_service_sends_on_every_call_witness :
  sender_ (connected_proxy ST_REGISTERED [service_1111_2222] [] []) = true
  /\ offer_service_emissions service_1111_2222
       (trace_ (exec (offer_service reference_environment 0x1234 service_1111_2222)
                  (connected_proxy ST_REGISTERED [service_1111_2222] [] [])))
     = 1%nat.
Proof.
  split; [reflexivity|].
  pose proof (offer_service_sends_on_every_call reference_environment 0x1234
                service_1111_2222
                (connected_proxy ST_REGISTERED [service_1111_2222] [] [])) as H.
  cbv zeta in H. destruct H as [Hregistered _]; [reflexivity | reflexivity |].
  destruct Hregistered as [_ Hcount]; [reflexivity|]. exact Hcount.
Defined.

Lemma add_client_for_self_when_registered_is_noop_witness :
  state_ (connected_proxy ST_REGISTERED [service_1111_2222] [] []) = ST_REGISTERED
  /\ exists st' new,
       on_routing_info reference_environment 1 (Some [add_client_1234])
         (connected_proxy ST_REGISTERED [service_1111_2222] [] []) = Some st'
       /\ state_ st' = ST_REGISTERED
       /\ trace_ st' = trace_ (connected_proxy ST_REGISTERED [service_1111_2222] [] []) ++ new
       /\ no_replay_emission new.
Proof.
  split; [reflexivity|].
  apply (add_client_for_self_when_registered_is_noop reference_environment 1
           add_client_1234 (connected_proxy ST_REGISTERED [service_1111_2222] [] []));
    reflexivity.
Defined.

Lemma registration_replays_offers_events_requests_witness :
  on_routing_info_entry reference_environment 1 add_client_1234 proxy_before_replay
  = Some (false, proxy_after_replay)
  /\ state_ proxy_after_replay = ST_REGISTERED
  /\ trace_ proxy_after_replay
     = [sender_send (protocol.registered_ack_command 0x1234) true;
        sender_send (protocol.offer_service_command 0x1234 service_1111_2222) true;
        sender_send
          (protocol.register_events_command 0x1234
             [to_register_event provided_event_8001;
              to_register_event consumed_event_8002]) true;
        sender_send (protocol.request_service_command 0x1234 [service_3333_4444]) true;
        state_condition_notify_one;
        host_on_state ST_REGISTERED]
  /\ exists st',
       on_routing_info_entry reference_environment 1 add_client_1234 proxy_before_replay
       = Some (false, st')
       /\ state_ st' = ST_REGISTERED.
Proof.
  assert (Hrun : on_routing_info_entry reference_environment 1 add_client_1234
                   proxy_before_replay = Some (false, proxy_after_replay))
    by (vm_compute; reflexivity).
  assert (Hstate : state_ proxy_after_replay = ST_REGISTERED)
    by (vm_compute; reflexivity).
  destruct (registration_replays_offers_events_requests reference_environment 1
              add_client_1234 proxy_before_replay eq_refl eq_refl eq_refl)
    as [Horder Hhappens].
  split; [exact Hrun|]. split; [exact Hstate|].
  split; [exact (Horder false proxy_after_replay Hrun Hstate)|].
  apply Hhappens; try reflexivity; try (intros; reflexivity). lia.
Defined.

Lemma registration_commits_or_waits_for_watchdog_witness :
  state_ (connected_proxy ST_REGISTERING [service_1111_2222] [] []) = ST_REGISTERING
  /\ replay_succeeds reference_environment
       (connected_proxy ST_REGISTERING [service_1111_2222] [] []) = true
  /\ (exists st',
        on_routing_info_entry reference_environment 1 add_client_1234
          (connected_proxy ST_REGISTERING [service_1111_2222] [] []) = Some (false, st')
        /\ state_ st' = ST_REGISTERED
        /\ register_application_timer_ st' = None)
  /\ replay_succeeds only_first_send_succeeds
       (connected_proxy ST_REGISTERING [service_1111_2222] [] []) = false
  /\ (exists st',
        on_routing_info_entry only_first_send_succeeds 1 add_client_1234
          (connected_proxy ST_REGISTERING [service_1111_2222] [] []) = Some (false, st')
        /\ state_ st' = ST_REGISTERING
        /\ state_ (exec register_application_timer_expires st') = ST_DEREGISTERED).
Proof.
  split; [reflexivity|]. split; [reflexivity|]. split; [|split; [reflexivity|]].
  - destruct (registration_commits_or_waits_for_watchdog reference_environment 1
                add_client_1234 (connected_proxy ST_REGISTERING [service_1111_2222] [] []))
      as (st' & Hrun & Hcommits & _);
      [reflexivity | reflexivity | reflexivity | reflexivity | reflexivity | lia |].
    destruct (Hcommits eq_refl) as (Hstate & _ & Htimer & _).
    exists st'. split; [exact Hrun|]. split; [exact Hstate | exact Htimer].
  - destruct (registration_commits_or_waits_for_watchdog only_first_send_succeeds 1
                add_client_1234 (connected_proxy ST_REGISTERING [service_1111_2222] [] []))
      as (st' & Hrun & _ & Hwaits);
      [reflexivity | reflexivity | reflexivity | reflexivity | reflexivity | lia |].
    destruct (Hwaits eq_refl) as (Hstate & _ & _ & Hexpiry).
    exists st'. split; [exact Hrun|]. split; [exact Hstate|].
    apply Hexpiry. reflexivity.
Defined.

(** * Further properties of the proxy *)

(** ** The keepalive of the connection to the routing host *)

Section Keepalive.
Variable E : environment.

Lemma check_keepalive_unanswered (st : routing_manager_client) :
  keepalive_active_ st = true ->
  keepalive_is_alive_ st = false ->
  exec (check_keepalive E) st
  = set_trace (trace_ st ++ [log warn_keepalive_no_confirmation_from_host;
                             post_handle_client_error (VSOMEIP_ROUTING_CLIENT E)]) st.
Proof.
  intros Hactive Halive. unfold check_keepalive. run_monad.
  rewrite Hactive, Halive. cbn. rewrite <- app_assoc. reflexivity.
Qed.

Lemma check_keepalive_clears_alive (st : routing_manager_client) :
  keepalive_active_ st = true ->
  keepalive_active_ (exec (check_keepalive E) st) = true
  /\ keepalive_is_alive_ (exec (check_keepalive E) st) = false.
Proof.
  intros Hactive. unfold check_keepalive, ping_host, if_sender_send, sender_send_buffer.
  run_monad. rewrite Hactive.
  destruct (keepalive_is_alive_ st) eqn:Halive; cbn.
  - destruct (serialize_ok E _); cbn; [destruct (sender_ st); cbn|]; auto.
  - auto.
Qed.

(** X1.  Once the keepalive is running, a timer expiry that follows another
    one without a PONG in between sends no PING: it logs the missing
    confirmation and posts the client error for the routing host, and
    changes nothing else. *)
Theorem keepalive_second_expiry_without_pong_reports_host
    (st : routing_manager_client) :
  keepalive_active_ st = true ->
  exec (check_keepalive E) (exec (check_keepalive E) st)
  = set_trace
      (trace_ (exec (check_keepalive E) st)
       ++ [log warn_keepalive_no_confirmation_from_host;
           post_handle_client_error (VSOMEIP_ROUTING_CLIENT E)])
      (exec (check_keepalive E) st).
Proof.
  intros Hactive.
  destruct (check_keepalive_clears_alive st Hactive) as [Hactive' Halive'].
  now apply check_keepalive_unanswered.
Qed.

(** X2.  A PONG counts only when it comes from the routing host.  After a
    PONG from the routing client the next expiry of a running keepalive
    probes again: it hands one PING with the proxy's client id to the
    sender, clears the alive flag and re-arms the timer, and posts no
    client error.  A PONG from any other client leaves the object as it
    is. *)
Theorem pong_from_host_answers_probe (c : client_t) (st : routing_manager_client) :
  keepalive_active_ st = true ->
  sender_ st = true ->
  serialize_ok E (protocol.ping_command (client_ st)) = true ->
  (c = VSOMEIP_ROUTING_CLIENT E ->
     trace_ (exec (check_keepalive E) (exec (on_pong E c) st))
     = trace_ st
       ++ [sender_send (protocol.ping_command (client_ st))
             (send_result E (sends_ st) (protocol.ping_command (client_ st)))]
     /\ keepalive_is_alive_ (exec (check_keepalive E) (exec (on_pong E c) st)) = false
     /\ keepalive_timer_ (exec (check_keepalive E) (exec (on_pong E c) st))
        = Some (local_clients_keepalive_time E))
  /\ (c <> VSOMEIP_ROUTING_CLIENT E -> exec (on_pong E c) st = st).
Proof.
  intros Hactive Hsender Hser. split.
  - intros ->. unfold on_pong, check_keepalive, ping_host, if_sender_send,
      sender_send_buffer. run_monad.
    rewrite Z.eqb_refl. cbn. rewrite Hactive. cbn. rewrite Hser. cbn.
    rewrite Hsender. cbn. auto.
  - intros Hc. unfold on_pong. run_monad.
    destruct (Z.eqb_spec c (VSOMEIP_ROUTING_CLIENT E)); [contradiction|reflexivity].
Qed.

(** X3.  [start_keepalive] is idempotent.  Where the keepalive is enabled,
    [cancel_keepalive] after [start_keepalive] leaves it inactive with no
    wait pending on its timer; where it is disabled, neither function
    changes the object, so a keepalive that is not active never starts. *)
Theorem start_keepalive_idempotent_and_cancellable (st : routing_manager_client) :
  exec (start_keepalive E) (exec (start_keepalive E) st) = exec (start_keepalive E) st
  /\ (is_local_clients_keepalive_enabled E = true ->
        keepalive_active_ (exec (cancel_keepalive E) (exec (start_keepalive E) st)) = false
        /\ keepalive_timer_ (exec (cancel_keepalive E) (exec (start_keepalive E) st))
           = None)
  /\ (is_local_clients_keepalive_enabled E = false ->
        exec (start_keepalive E) st = st /\ exec (cancel_keepalive E) st = st).
Proof.
  unfold start_keepalive, cancel_keepalive. run_monad.
  destruct (keepalive_active_ st) eqn:Hactive;
    destruct (is_local_clients_keepalive_enabled E) eqn:Henabled; cbn;
    rewrite ?Hactive, ?Henabled; cbn; repeat split; try discriminate; reflexivity.
Qed.

End Keepalive.

(** ** The client-id handshake *)

(** Opens the object into its members. *)
Ltac open_object st := destruct st; cbn in *; subst.

(** Settles a test of the registration state between two known states. *)
Ltac settle_state :=
  match goal with
  | |- context [decide (?a = ?b)] =>
      destruct (decide (a = b)); [try congruence | try congruence]
  | |- context [decide (?a <> ?b)] =>
      let Hn := fresh "Hn" in
      destruct (decide (a <> b)) as [?|Hn];
      [try congruence | try (exfalso; apply Hn; congruence)]
  end; cbn.

Section Handshake.
Variable E : environment.

Lemma assign_client_run (st : routing_manager_client) :
  state_ st = ST_DEREGISTERED ->
  is_connected_ st = true ->
  sender_ st = true ->
  serialize_ok E (protocol.assign_client_command (client_ st) (host_name E)) = true ->
  exec (assign_client E) st
  = set_register_application_timer (Some assign_client_timeout_cbk_handler)
      (after_send E (protocol.assign_client_command (client_ st) (host_name E))
         (set_state ST_ASSIGNING st)).
Proof.
  intros Hstate Hconnected Hsender Hser. open_object st.
  unfold assign_client, sender_send_buffer, after_send. run_monad. cbn.
  settle_state. rewrite Hser. reflexivity.
Qed.

(** X4.  [assign_client] starts the handshake only from Deregistered, over
    an established connection with a sender and a command that serializes:
    then it moves to Assigning, hands one ASSIGN_CLIENT with the current
    client id and the application name to the sender (whose verdict it
    ignores) and binds the watchdog to [assign_client_timeout_cbk].  In
    every other case it writes one log line and changes nothing else: no
    frame leaves and the state stays. *)
Theorem assign_client_starts_handshake (st : routing_manager_client) :
  (state_ st = ST_DEREGISTERED ->
   is_connected_ st = true ->
   sender_ st = true ->
   serialize_ok E (protocol.assign_client_command (client_ st) (host_name E)) = true ->
   state_ (exec (assign_client E) st) = ST_ASSIGNING
   /\ trace_ (exec (assign_client E) st)
      = trace_ st
        ++ [sender_send (protocol.assign_client_command (client_ st) (host_name E))
              (send_result E (sends_ st)
                 (protocol.assign_client_command (client_ st) (host_name E)))]
   /\ register_application_timer_ (exec (assign_client E) st)
      = Some assign_client_timeout_cbk_handler)
  /\ (state_ st <> ST_DEREGISTERED
      \/ is_connected_ st = false
      \/ sender_ st = false
      \/ serialize_ok E (protocol.assign_client_command (client_ st) (host_name E))
         = false ->
      exists l, exec (assign_client E) st = set_trace (trace_ st ++ [log l]) st).
Proof.
  split.
  - intros Hstate Hconnected Hsender Hser.
    rewrite assign_client_run by assumption. unfold after_send. cbn. auto.
  - intros Hwhy. open_object st. unfold assign_client, sender_send_buffer.
    run_monad. cbn.
    destruct (decide (state_0 <> ST_DEREGISTERED)) as [Hne|Heq]; cbn;
      [eexists; reflexivity|].
    destruct (serialize_ok E _) eqn:Hser; cbn; [|eexists; reflexivity].
    destruct is_connected_0; cbn; [|eexists; reflexivity].
    destruct sender_0; cbn; [|eexists; reflexivity].
    destruct Hwhy as [H|[H|[H|H]]]; try discriminate. contradiction.
Qed.

(** X5.  An ASSIGN_CLIENT that is not answered: when the watchdog bound by
    [assign_client] expires, the proxy is back in Deregistered with no wait
    pending, and the sender is restarted; the trace holds the ASSIGN_CLIENT,
    the timeout warning and the restart, in this order. *)
Theorem unanswered_assign_client_restarts_sender (st : routing_manager_client) :
  state_ st = ST_DEREGISTERED ->
  is_connected_ st = true ->
  sender_ st = true ->
  serialize_ok E (protocol.assign_client_command (client_ st) (host_name E)) = true ->
  state_ (exec register_application_timer_expires (exec (assign_client E) st))
  = ST_DEREGISTERED
  /\ register_application_timer_
       (exec register_application_timer_expires (exec (assign_client E) st)) = None
  /\ trace_ (exec register_application_timer_expires (exec (assign_client E) st))
     = trace_ st
       ++ [sender_send (protocol.assign_client_command (client_ st) (host_name E))
             (send_result E (sends_ st)
                (protocol.assign_client_command (client_ st) (host_name E)));
           log warn_request_client_timeout_trying_again;
           sender_restart].
Proof.
  intros Hstate Hconnected Hsender Hser.
  rewrite assign_client_run by assumption. open_object st.
  unfold register_application_timer_expires, assign_client_timeout_cbk, after_send.
  run_monad. cbn. settle_state. rewrite <- ?app_assoc. cbn. auto.
Qed.

(** X6.  The assign watchdog leaves a Registered proxy alone, and a
    cancelled wait ([operation_aborted]) has no effect in any state: in both
    cases the state stays and the sender is not restarted; the only trace is
    the warning about an error code that is neither success nor
    cancellation. *)
Theorem assign_client_timeout_spares_registered (_error : error_code)
    (st : routing_manager_client) :
  state_ st = ST_REGISTERED \/ _error = operation_aborted ->
  exec (assign_client_timeout_cbk _error) st
  = match _error with
    | other_error _ => set_trace (trace_ st ++ [log warn_assign_timeout_error_code]) st
    | _ => st
    end.
Proof.
  intros Hwhy. unfold assign_client_timeout_cbk. run_monad.
  destruct _error; try reflexivity.
  destruct Hwhy as [Hstate|Habs]; [|discriminate].
  settle_state. reflexivity.
Qed.

(** X7.  A disconnect of the sender endpoint takes the proxy to Deregistered
    from any state, clears the connected flag, stops an enabled keepalive and
    tells the host; it sends nothing and keeps the client id and the whole
    intent (pending offers, requests, buffered requests, event
    registrations).  A disconnect of another endpoint changes nothing. *)
Theorem on_disconnect_resets_registration_keeps_intent (st : routing_manager_client) :
  state_ (exec (on_disconnect E true) st) = ST_DEREGISTERED
  /\ is_connected_ (exec (on_disconnect E true) st) = false
  /\ trace_ (exec (on_disconnect E true) st)
     = trace_ st ++ [log warn_on_disconnect_resetting_state; host_on_state ST_DEREGISTERED]
  /\ keepalive_active_ (exec (on_disconnect E true) st)
     = keepalive_active_ st && negb (is_local_clients_keepalive_enabled E)
  /\ sends_ (exec (on_disconnect E true) st) = sends_ st
  /\ client_ (exec (on_disconnect E true) st) = client_ st
  /\ pending_offers_ (exec (on_disconnect E true) st) = pending_offers_ st
  /\ requests_ (exec (on_disconnect E true) st) = requests_ st
  /\ requests_to_debounce_ (exec (on_disconnect E true) st) = requests_to_debounce_ st
  /\ pending_event_registrations_ (exec (on_disconnect E true) st)
     = pending_event_registrations_ st
  /\ exec (on_disconnect E false) st = st.
Proof.
  unfold on_disconnect, cancel_keepalive. run_monad.
  destruct (keepalive_active_ st) eqn:Hactive;
    destruct (is_local_clients_keepalive_enabled E) eqn:Henabled; cbn;
    rewrite <- ?app_assoc, ?Hactive; cbn; repeat split; reflexivity.
Qed.

Lemma register_application_run (st : routing_manager_client) :
  receiver_ st = true ->
  is_connected_ st = true ->
  sender_ st = true ->
  serialize_ok E (protocol.register_application_command (client_ st)
                    (receiver_local_port E)) = true ->
  serialize_ok E (protocol.config_command (client_ st) (client_host E)) = true ->
  exec (register_application E) st
  = after_send E (protocol.config_command (client_ st) (client_host E))
      (set_register_application_timer (Some register_application_timeout_cbk_handler)
         (after_send E
            (protocol.register_application_command (client_ st) (receiver_local_port E))
            (set_state ST_REGISTERING st))).
Proof.
  intros Hreceiver Hconnected Hsender Hser Hconfig. open_object st.
  unfold register_application, sender_send_buffer, after_send. run_monad. cbn.
  rewrite Hser. cbn. rewrite Hconfig. reflexivity.
Qed.

Lemma on_client_assign_ack_run (_client : client_t) (st : routing_manager_client) :
  state_ st = ST_ASSIGNING ->
  _client <> VSOMEIP_CLIENT_UNSET E ->
  is_started_ st = true ->
  has_policy_manager E = true ->
  receiver_ st = true \/ create_local_server_ok E = true ->
  is_connected_ st = true ->
  sender_ st = true ->
  serialize_ok E (protocol.register_application_command _client
                    (receiver_local_port E)) = true ->
  serialize_ok E (protocol.config_command _client (client_host E)) = true ->
  exec (on_client_assign_ack E _client) st
  = set_trace
      (trace_ st
       ++ [host_set_client _client;
           store_client_to_sec_client_mappings _client;
           receiver_start;
           sender_send
             (protocol.register_application_command _client (receiver_local_port E))
             (send_result E (sends_ st)
                (protocol.register_application_command _client (receiver_local_port E)));
           sender_send (protocol.config_command _client (client_host E))
             (send_result E (S (sends_ st))
                (protocol.config_command _client (client_host E)))])
      (set_sends (S (S (sends_ st)))
         (set_register_application_timer (Some register_application_timeout_cbk_handler)
            (set_receiver true
               (set_client _client (set_state ST_REGISTERING st))))).
Proof.
  intros Hstate Hclient Hstarted Hpolicy Hreceiver Hconnected Hsender Hser Hconfig.
  open_object st.
  unfold on_client_assign_ack, init_receiver, register_application, sender_send_buffer.
  run_monad. cbn. settle_state.
  destruct (Z.eqb_spec _client (VSOMEIP_CLIENT_UNSET E)) as [|_]; [contradiction|].
  cbn. rewrite Hpolicy. cbn.
  destruct receiver_0; cbn.
  - rewrite Hser. cbn. rewrite Hconfig. cbn. rewrite <- !app_assoc. reflexivity.
  - destruct Hreceiver as [?|Hcreate]; [discriminate|]. rewrite Hcreate. cbn.
    rewrite Hser. cbn. rewrite Hconfig. cbn. rewrite <- !app_assoc. reflexivity.
Qed.

(** X8.  ASSIGN_CLIENT_ACK with a valid client id, received in Assigning by
    a started proxy that is connected and has (or can create) its local
    server endpoint: the proxy adopts the id, tells the host, starts the
    receiver, and goes on to Registering by handing REGISTER_APPLICATION and
    then CONFIG, both with the new id, to the sender; the watchdog is
    re-bound to [register_application_timeout_cbk]. *)
Theorem on_client_assign_ack_registers_application (_client : client_t)
    (st : routing_manager_client) :
  state_ st = ST_ASSIGNING ->
  _client <> VSOMEIP_CLIENT_UNSET E ->
  is_started_ st = true ->
  has_policy_manager E = true ->
  receiver_ st = true \/ create_local_server_ok E = true ->
  is_connected_ st = true ->
  sender_ st = true ->
  serialize_ok E (protocol.register_application_command _client
                    (receiver_local_port E)) = true ->
  serialize_ok E (protocol.config_command _client (client_host E)) = true ->
  state_ (exec (on_client_assign_ack E _client) st) = ST_REGISTERING
  /\ client_ (exec (on_client_assign_ack E _client) st) = _client
  /\ receiver_ (exec (on_client_assign_ack E _client) st) = true
  /\ register_application_timer_ (exec (on_client_assign_ack E _client) st)
     = Some register_application_timeout_cbk_handler
  /\ trace_ (exec (on_client_assign_ack E _client) st)
     = trace_ st
       ++ [host_set_client _client;
           store_client_to_sec_client_mappings _client;
           receiver_start;
           sender_send
             (protocol.register_application_command _client (receiver_local_port E))
             (send_result E (sends_ st)
                (protocol.register_application_command _client (receiver_local_port E)));
           sender_send (protocol.config_command _client (client_host E))
             (send_result E (S (sends_ st))
                (protocol.config_command _client (client_host E)))].
Proof.
  intros. rewrite on_client_assign_ack_run by assumption. cbn. auto 10.
Qed.

(** X9.  ASSIGN_CLIENT_ACK with a valid client id when the local server
    endpoint is missing and cannot be created: the proxy gives the id back
    (the host is told the unset id again), returns to Deregistered, sends
    nothing and restarts the sender. *)
Theorem on_client_assign_ack_without_receiver_restarts (_client : client_t)
    (st : routing_manager_client) :
  state_ st = ST_ASSIGNING ->
  _client <> VSOMEIP_CLIENT_UNSET E ->
  is_started_ st = true ->
  receiver_ st = false ->
  has_policy_manager E = false \/ create_local_server_ok E = false ->
  state_ (exec (on_client_assign_ack E _client) st) = ST_DEREGISTERED
  /\ client_ (exec (on_client_assign_ack E _client) st) = VSOMEIP_CLIENT_UNSET E
  /\ sends_ (exec (on_client_assign_ack E _client) st) = sends_ st
  /\ register_application_timer_ (exec (on_client_assign_ack E _client) st) = None
  /\ trace_ (exec (on_client_assign_ack E _client) st)
     = trace_ st
       ++ [host_set_client _client]
       ++ (if has_policy_manager E then [store_client_to_sec_client_mappings _client]
           else [])
       ++ [log warn_receiver_not_started_restarting;
           host_set_client (VSOMEIP_CLIENT_UNSET E)]
       ++ (if sender_ st then [sender_restart] else []).
Proof.
  intros Hstate Hclient Hstarted Hreceiver Hwhy. open_object st.
  unfold on_client_assign_ack, init_receiver. run_monad. cbn.
  settle_state.
  destruct (Z.eqb_spec _client (VSOMEIP_CLIENT_UNSET E)) as [|_]; [contradiction|].
  cbn.
  destruct (has_policy_manager E) eqn:Hpolicy; cbn.
  - destruct Hwhy as [?| ->]; [discriminate|]. cbn.
    destruct sender_0; cbn; rewrite <- ?app_assoc; cbn; auto.
  - destruct sender_0; cbn; rewrite <- ?app_assoc; cbn; auto.
Qed.

End Handshake.

(** ** The whole handshake over a codec and a transport that do not fail *)

Section HandshakeOnReliableTransport.
Variable E : environment.
Hypothesis serializes : forall c, serialize_ok E c = true.
Hypothesis delivers : forall n c, send_result E n c = true.
Hypothesis fits : forall l r, add_registration_fits E l r = true.

(** X10.  Over a codec and a transport that do not fail, the three steps of
    the handshake take a started, connected proxy from Deregistered to
    Registered: [assign_client], then ASSIGN_CLIENT_ACK with a valid client
    id [c], then the ROUTING_INFO entry ADD_CLIENT for [c].  The sender is
    handed, in this order, ASSIGN_CLIENT (with the old id),
    REGISTER_APPLICATION, CONFIG, REGISTERED_ACK and the replay of the
    intent the proxy held before the handshake (all with the new id); the
    watchdog is not pending at the end. *)
Theorem handshake_reaches_registered (c : client_t) (fuel : nat)
    (e : protocol.routing_info_entry) (st : routing_manager_client) :
  has_policy_manager E = true ->
  check_credentials E c = true ->
  c <> VSOMEIP_CLIENT_UNSET E ->
  state_ st = ST_DEREGISTERED ->
  is_connected_ st = true ->
  is_started_ st = true ->
  sender_ st = true ->
  receiver_ st = true \/ create_local_server_ok E = true ->
  protocol.e_type e = protocol.RIE_ADD_CLIENT ->
  protocol.e_client e = c ->
  (0 < fuel)%nat ->
  exists st',
    on_routing_info_entry E fuel e
      (exec (on_client_assign_ack E c) (exec (assign_client E) st))
    = Some (false, st')
    /\ state_ (exec (assign_client E) st) = ST_ASSIGNING
    /\ state_ (exec (on_client_assign_ack E c) (exec (assign_client E) st))
       = ST_REGISTERING
    /\ state_ st' = ST_REGISTERED
    /\ client_ st' = c
    /\ register_application_timer_ st' = None
    /\ trace_ st' =
         trace_ st
         ++ [sender_send (protocol.assign_client_command (client_ st) (host_name E)) true;
             host_set_client c;
             store_client_to_sec_client_mappings c;
             receiver_start;
             sender_send (protocol.register_application_command c (receiver_local_port E))
               true;
             sender_send (protocol.config_command c (client_host E)) true]
         ++ guest_effects e
         ++ map (fun cmd => sender_send cmd true)
              (protocol.registered_ack_command c
               :: map (protocol.offer_service_command c) (pending_offers_ st)
               ++ register_events_commands c [] (pending_event_registrations_ st)
               ++ request_services_command c (requests_ st))
         ++ [state_condition_notify_one; host_on_state ST_REGISTERED].
Proof.
  intros Hpolicy Hcred Hc Hstate Hconn Hstarted Hsender Hreceiver Htype Heclient Hfuel.
  rewrite assign_client_run by auto.
  rewrite on_client_assign_ack_run by (unfold after_send; cbn; auto).
  rewrite on_routing_info_entry_registering by (cbn; auto).
  cbv zeta. rewrite add_guest_if_specified_run.
  rewrite (send_registered_ack_delivers E serializes delivers) by (cbn; auto).
  cbn [fst snd].
  rewrite (send_pending_commands_delivers E serializes delivers fits) by (cbn; auto).
  rewrite enter_registered_run.
  eexists. split; [reflexivity|].
  unfold sent_all, sent, pending_commands, after_send. cbn.
  rewrite !delivers.
  repeat split.
  rewrite !map_app, <- !app_assoc. cbn. reflexivity.
Qed.

End HandshakeOnReliableTransport.

(** ** ROUTING_INFO entries and the inbound dispatch *)

Section RoutingInfo.
Variable E : environment.

(** A loop whose body only appends effects appends those of every round. *)
Lemma for_each_emits {A} (f : A -> list effect) (body : A -> M unit) (xs : list A) :
  (forall x st, body x st = (tt, set_trace (trace_ st ++ f x) st)) ->
  forall st, for_each xs body st = (tt, set_trace (trace_ st ++ flat_map f xs) st).
Proof.
  intros Hbody. induction xs as [|x xs IH]; intros st.
  - destruct st. cbn. now rewrite app_nil_r.
  - rewrite for_each_cons, Hbody. cbn [snd]. rewrite IH.
    destruct st. cbn. now rewrite <- app_assoc.
Qed.

Lemma map_find_assign {V} (k : client_t) (v : V) (m : list (client_t * V)) :
  map_find k (map_assign k v m) = Some v.
Proof.
  unfold map_find, map_assign.
  induction m as [|[k' v'] m IH]; cbn.
  - now rewrite Z.eqb_refl.
  - destruct (k <? k') eqn:Hlt; cbn.
    + now rewrite Z.eqb_refl.
    + destruct (k =? k') eqn:Heq; cbn.
      * now rewrite Z.eqb_refl.
      * rewrite Heq. exact IH.
Qed.

(** X11.  The entry DELETE_CLIENT.  For the proxy's own client id it takes
    the proxy to Deregistered from any state: the security mapping is
    removed, the host is told, the waiting [stop()] is notified.  For
    another client it removes the local endpoint to that client, unless it
    is the routing client, and leaves the state.  In both cases nothing is
    sent, the loop of [on_routing_info] goes on, and the intent (offers,
    requests, event registrations) is kept. *)
Theorem delete_client_entry_deregisters_self (fuel : nat)
    (e : protocol.routing_info_entry) (st : routing_manager_client) :
  protocol.e_type e = protocol.RIE_DELETE_CLIENT ->
  exists st',
    on_routing_info_entry E fuel e st = Some (false, st')
    /\ sends_ st' = sends_ st
    /\ pending_offers_ st' = pending_offers_ st
    /\ requests_ st' = requests_ st
    /\ pending_event_registrations_ st' = pending_event_registrations_ st
    /\ (protocol.e_client e = client_ st ->
          state_ st' = ST_DEREGISTERED
          /\ trace_ st' =
               trace_ st
               ++ [remove_client_to_sec_client_mapping (client_ st);
                   host_on_state ST_DEREGISTERED;
                   state_condition_notify_one])
    /\ (protocol.e_client e <> client_ st ->
          state_ st' = state_ st
          /\ trace_ st' =
               trace_ st
               ++ (if protocol.e_client e =? VSOMEIP_ROUTING_CLIENT E then []
                   else [remove_local (protocol.e_client e)])).
Proof.
  intros Htype. unfold on_routing_info_entry. rewrite Htype.
  eexists. split; [reflexivity|].
  unfold remove_known_client. run_monad. cbn.
  destruct (Z.eqb_spec (protocol.e_client e) (client_ st)) as [Heq|Hne]; cbn.
  - repeat split; try reflexivity; try contradiction.
    rewrite <- Heq, <- !app_assoc. reflexivity.
  - repeat split; try reflexivity; try contradiction;
      destruct (protocol.e_client e =? VSOMEIP_ROUTING_CLIENT E); cbn;
      rewrite ?app_nil_r; reflexivity.
Qed.

(** X12.  The entry DELETE_SERVICE_INSTANCE.  For every service of the
    entry, in the order of the entry, the proxy forgets the offering client,
    calls [on_stop_offer_service] and reports the service unavailable to
    the host.  That is all: nothing is handed to the sender, the loop of
    [on_routing_info] goes on, and the registration state, the known
    clients and the intent are what they were. *)
Theorem delete_service_instance_entry_reports_unavailability (fuel : nat)
    (e : protocol.routing_info_entry) (st : routing_manager_client) :
  protocol.e_type e = protocol.RIE_DELETE_SERVICE_INSTANCE ->
  exists st',
    on_routing_info_entry E fuel e st = Some (false, st')
    /\ st' = set_trace
               (trace_ st
                ++ flat_map
                     (fun s =>
                        [local_services_erase s (protocol.e_client e);
                         on_stop_offer_service s;
                         host_on_availability s false])
                     (protocol.e_services e))
               st
    /\ length (trace_ st') = (length (trace_ st) + 3 * length (protocol.e_services e))%nat
    /\ sends_ st' = sends_ st
    /\ state_ st' = state_ st
    /\ (forall c, fst (is_client_known c st') = fst (is_client_known c st)).
Proof.
  intros Htype. unfold on_routing_info_entry. rewrite Htype.
  eexists. split; [reflexivity|]. unfold exec.
  rewrite (for_each_emits
             (fun s =>
                [local_services_erase s (protocol.e_client e);
                 on_stop_offer_service s;
                 host_on_availability s false]))
    by (intros x st0; run_monad; cbn; rewrite <- !app_assoc; reflexivity).
  cbn. repeat split.
  rewrite length_app. f_equal.
  induction (protocol.e_services e) as [|s services IH]; cbn; [reflexivity|].
  rewrite IH. lia.
Qed.

(** X13.  ROUTING_INFO is taken only from the routing host where security is
    enabled: a ROUTING_INFO frame that does not come from the routing host
    is dropped with one warning and changes nothing else (so no peer can
    register or deregister the proxy); which warning depends on whether the
    bound-client gate already stops the frame.  Where security is
    disabled, the frame goes to [on_routing_info] whoever sent it. *)
Theorem routing_info_only_from_routing_host (fuel : nat) (its_client : client_t)
    (entries : option (list protocol.routing_info_entry)) (_bound_client : client_t)
    (_remote_address _remote_port : Z) (st : routing_manager_client) :
  has_policy_manager E = true ->
  (is_security_enabled E = true ->
   is_from_routing E its_client _bound_client _remote_address _remote_port = false ->
   on_message E fuel (Some (its_client, in_routing_info entries)) _bound_client
     _remote_address _remote_port st
   = Some (set_trace
             (trace_ st
              ++ [log (if is_local_routing E && negb (_bound_client =? its_client)
                       then warn_bound_client_mismatch_skip_message
                       else warn_routing_info_not_from_routing_manager)])
             st))
  /\ (is_security_enabled E = false ->
      on_message E fuel (Some (its_client, in_routing_info entries)) _bound_client
        _remote_address _remote_port st
      = on_routing_info E fuel entries st).
Proof.
  intros Hpolicy. unfold on_message, on_message_dispatch. rewrite Hpolicy. cbn.
  split.
  - intros Hsec Hfrom. rewrite Hsec, Hfrom. cbn.
    destruct (is_local_routing E); cbn; [|reflexivity].
    destruct (_bound_client =? its_client); reflexivity.
  - intros Hsec. rewrite Hsec. reflexivity.
Qed.

(** X14.  A PING that passes the bound-client gate is answered with one
    PONG that carries the proxy's client id, provided the proxy is
    connected and has a sender; otherwise it is dropped without a trace.
    The registration state plays no part. *)
Theorem ping_is_answered_with_pong (fuel : nat) (its_client _bound_client : client_t)
    (_remote_address _remote_port : Z) (st : routing_manager_client) :
  has_policy_manager E = true ->
  is_security_enabled E && is_local_routing E
  && negb (is_from_routing E its_client _bound_client _remote_address _remote_port)
  && negb (_bound_client =? its_client) = false ->
  serialize_ok E (protocol.pong_command (client_ st)) = true ->
  on_message E fuel (Some (its_client, in_ping true)) _bound_client
    _remote_address _remote_port st
  = Some (if is_connected_ st && sender_ st
          then after_send E (protocol.pong_command (client_ st)) st
          else st).
Proof.
  intros Hpolicy Hgate Hser. unfold on_message, on_message_dispatch.
  rewrite Hpolicy. cbn. rewrite Hgate. open_object st.
  unfold send_pong, if_sender_send, sender_send_buffer, after_send. run_monad. cbn.
  rewrite Hser.
  destruct is_connected_0; cbn; [|reflexivity].
  destruct sender_0; reflexivity.
Qed.

End RoutingInfo.

(** ** Withdrawing offers and requests *)

Section Withdrawal.
Variable E : environment.

Lemma erase_first_of_inserted (lt : protocol.service -> protocol.service -> bool)
    (x : protocol.service) (s : list protocol.service) :
  (forall a b, equivalent lt a b -> same_service_instance a b) ->
  Forall (fun y =>
            matches_service_instance (protocol.service_ x) (protocol.instance_ x) y
            = false) s ->
  erase_first (matches_service_instance (protocol.service_ x) (protocol.instance_ x))
    (set_insert lt x s) = s.
Proof.
  intros Hkey. unfold erase_first, set_insert.
  induction s as [|y s IH]; intros Hnone; cbn.
  - now rewrite matches_own_service_instance.
  - inversion Hnone as [|? ? Hy Hs]; subst.
    destruct (lt x y) eqn:Hxy; cbn.
    + now rewrite matches_own_service_instance.
    + destruct (lt y x) eqn:Hyx; cbn.
      * rewrite Hy. f_equal. now apply IH.
      * exfalso. destruct (Hkey x y) as [H1 H2]; [now split|].
        unfold matches_service_instance in Hy.
        rewrite H1, H2, !Z.eqb_refl in Hy. discriminate.
Qed.

Lemma erase_first_without_match (p : protocol.service -> bool)
    (s : list protocol.service) :
  existsb p s = false -> erase_first p s = s.
Proof.
  unfold erase_first. induction s as [|y s IH]; cbn; [reflexivity|].
  intros [Hy Hs]%orb_false_iff. rewrite Hy. f_equal. now apply IH.
Qed.

Lemma clear_remote_subscriber_count_run (service : service_t) (instance : instance_t)
    (st : routing_manager_client) :
  exists m,
    clear_remote_subscriber_count service instance st
    = (tt, set_remote_subscriber_count m st).
Proof.
  unfold clear_remote_subscriber_count. run_monad.
  destruct (remote_subscriber_count_ st !! service) as [mi|] eqn:Hs;
    [destruct (mi !! instance) eqn:Hi; [destruct (decide _)|]|];
    try (eexists; reflexivity);
    exists (remote_subscriber_count_ st); destruct st; reflexivity.
Qed.

Lemma offer_service_pending_offers (_client : client_t) (s : protocol.service)
    (st : routing_manager_client) :
  pending_offers_ (exec (offer_service E _client s) st)
  = set_insert (service_lt E) s (pending_offers_ st).
Proof.
  unfold offer_service. run_monad.
  destruct (decide (_ = ST_REGISTERED)); cbn [fst snd]; [|destruct (negb _); reflexivity].
  match goal with |- context [send_offer_service E ?c ?s0 ?x] =>
    destruct (only_sent_send_offer_service E c s0 x) as (new & n & _ & Hsent) end.
  rewrite Hsent. destruct (negb _); reflexivity.
Qed.

Lemma stop_offer_service_pending_offers (_client : client_t) (s : protocol.service)
    (st : routing_manager_client) :
  pending_offers_ (exec (stop_offer_service E _client s) st)
  = erase_first
      (matches_service_instance (protocol.service_ s) (protocol.instance_ s))
      (pending_offers_ st).
Proof.
  unfold stop_offer_service, if_sender_send, sender_send_buffer. run_monad.
  match goal with |- context [clear_remote_subscriber_count ?a ?b ?x] =>
    destruct (clear_remote_subscriber_count_run a b x) as (m & Hm) end.
  rewrite Hm. cbn.
  destruct (decide (_ = ST_REGISTERED)); cbn; [|reflexivity].
  destruct (serialize_ok E _); cbn; [|reflexivity].
  destruct (sender_ st); reflexivity.
Qed.

(** X15.  [stop_offer_service] withdraws the offer from the intent and tells
    the routing host only when Registered.  In a set whose order identifies
    the versions of one service instance, no pending offer for the service
    instance is left, so a later replay does not offer it.  The state is
    not changed.  When Registered (with a sender and a command that
    serializes) one STOP_OFFER_SERVICE leaves after the base-class call
    and the clearing of the service info; in any other state nothing is
    sent. *)
Theorem stop_offer_service_forgets_offer (_client : client_t) (s : protocol.service)
    (st : routing_manager_client) :
  (forall a b, same_service_instance a b -> equivalent (service_lt E) a b) ->
  is_set (service_lt E) (pending_offers_ st) ->
  Forall (fun x =>
            matches_service_instance (protocol.service_ s) (protocol.instance_ s) x
            = false)
    (pending_offers_ (exec (stop_offer_service E _client s) st))
  /\ state_ (exec (stop_offer_service E _client s) st) = state_ st
  /\ (state_ st = ST_REGISTERED ->
      sender_ st = true ->
      serialize_ok E (protocol.stop_offer_service_command (client_ st) s) = true ->
      trace_ (exec (stop_offer_service E _client s) st)
      = trace_ st
        ++ [base_stop_offer_service _client s;
            clear_service_info (protocol.service_ s) (protocol.instance_ s);
            sender_send (protocol.stop_offer_service_command (client_ st) s)
              (send_result E (sends_ st)
                 (protocol.stop_offer_service_command (client_ st) s))])
  /\ (state_ st <> ST_REGISTERED ->
      sends_ (exec (stop_offer_service E _client s) st) = sends_ st
      /\ trace_ (exec (stop_offer_service E _client s) st)
         = trace_ st
           ++ [base_stop_offer_service _client s;
               clear_service_info (protocol.service_ s) (protocol.instance_ s)]).
Proof.
  intros Hkey Hset. split.
  { rewrite stop_offer_service_pending_offers.
    now apply (erase_first_leaves_none (service_lt E)). }
  unfold stop_offer_service, if_sender_send, sender_send_buffer. run_monad.
  match goal with |- context [clear_remote_subscriber_count ?a ?b ?x] =>
    destruct (clear_remote_subscriber_count_run a b x) as (m & Hm) end.
  rewrite Hm. cbn.
  destruct (decide (state_ st = ST_REGISTERED)) as [Hreg|Hreg]; cbn.
  - split; [|split; [|intros; contradiction]].
    + destruct (serialize_ok E _); cbn; [destruct (sender_ st)|]; reflexivity.
    + intros _ Hsender Hser. rewrite Hser. cbn. rewrite Hsender. cbn.
      now rewrite <- !app_assoc.
  - split; [reflexivity|]. split; [intros; contradiction|].
    intros _. now rewrite <- !app_assoc.
Qed.

(** X16.  Offering a service and then stopping the offer restores the
    pending offers: if no offer for the service instance was pending and
    the set's order tells service instances apart, [pending_offers_] after
    [offer_service] followed by [stop_offer_service] is what it was
    before. *)
Theorem offer_then_stop_restores_pending_offers (_client _client' : client_t)
    (s : protocol.service) (st : routing_manager_client) :
  (forall a b, equivalent (service_lt E) a b -> same_service_instance a b) ->
  Forall (fun x =>
            matches_service_instance (protocol.service_ s) (protocol.instance_ s) x
            = false)
    (pending_offers_ st) ->
  pending_offers_
    (exec (stop_offer_service E _client' s) (exec (offer_service E _client s) st))
  = pending_offers_ st.
Proof.
  intros Hkey Hnone.
  rewrite stop_offer_service_pending_offers, offer_service_pending_offers.
  now apply erase_first_of_inserted.
Qed.

(** X17.  [request_service] without a debounce window (debounce time 0)
    records the request in [requests_] and leaves the debounce buffer and
    its timer alone.  When Registered (with a sender and a command that
    serializes) it hands one REQUEST_SERVICE that holds exactly this
    request to the sender, and logs an error if the sender refuses it; in
    any other state it sends nothing, and the request waits for the
    replay. *)
Theorem request_service_without_debounce (_client : client_t)
    (request : protocol.service) (st : routing_manager_client) :
  request_debounce_time E = 0 ->
  requests_ (exec (request_service E _client request) st)
  = set_insert (service_lt E) request (requests_ st)
  /\ requests_to_debounce_ (exec (request_service E _client request) st)
     = requests_to_debounce_ st
  /\ request_debounce_timer_ (exec (request_service E _client request) st)
     = request_debounce_timer_ st
  /\ state_ (exec (request_service E _client request) st) = state_ st
  /\ (state_ st = ST_REGISTERED ->
      sender_ st = true ->
      serialize_ok E (protocol.request_service_command (client_ st) [request]) = true ->
      trace_ (exec (request_service E _client request) st)
      = trace_ st
        ++ [base_request_service _client request;
            sender_send (protocol.request_service_command (client_ st) [request])
              (send_result E (sends_ st)
                 (protocol.request_service_command (client_ st) [request]))]
        ++ (if send_result E (sends_ st)
                 (protocol.request_service_command (client_ st) [request])
            then [] else [log err_failed_to_send_requested_services]))
  /\ (state_ st <> ST_REGISTERED ->
      sends_ (exec (request_service E _client request) st) = sends_ st
      /\ trace_ (exec (request_service E _client request) st)
         = trace_ st ++ [base_request_service _client request]).
Proof.
  intros Hdebounce. unfold request_service. rewrite Hdebounce. cbn [Z.eqb].
  run_monad. cbn.
  destruct (decide (state_ st = ST_REGISTERED)) as [Hreg|Hreg]; cbn.
  - match goal with |- context [send_request_services E ?r ?x] =>
      pose proof (only_sent_send_request_services E r x) as Hsent end.
    destruct Hsent as (new & n & _ & Hsent).
    repeat split; try (rewrite Hsent; reflexivity); try (intros; contradiction).
    intros _ Hsender Hser.
    change (set_insert (service_lt E) request []) with [request].
    rewrite send_request_services_run by (cbn; assumption).
    unfold after_failure_log, after_send. cbn.
    destruct (send_result E (sends_ st) _); cbn; now rewrite <- !app_assoc.
  - repeat split; try reflexivity; intros; contradiction.
Qed.

(** X18.  [release_service] for a service instance that has no request
    waiting in the debounce buffer: the buffer is left as it is and the
    first request for the service instance is erased from [requests_].
    When Registered (with a sender and a command that serializes) one
    RELEASE_SERVICE leaves after the base-class call and the removal of the
    pending subscription; in any other state nothing is sent. *)
Theorem release_service_of_sent_request (_client : client_t) (service : service_t)
    (instance : instance_t) (st : routing_manager_client) :
  existsb (matches_service_instance service instance) (requests_to_debounce_ st)
  = false ->
  requests_to_debounce_ (exec (release_service E _client service instance) st)
  = requests_to_debounce_ st
  /\ requests_ (exec (release_service E _client service instance) st)
     = erase_first (matches_service_instance service instance) (requests_ st)
  /\ state_ (exec (release_service E _client service instance) st) = state_ st
  /\ (state_ st = ST_REGISTERED ->
      sender_ st = true ->
      serialize_ok E (protocol.release_service_command (client_ st) service instance)
      = true ->
      trace_ (exec (release_service E _client service instance) st)
      = trace_ st
        ++ [base_release_service _client service instance;
            remove_pending_subscription service instance 0xFFFF (ANY_EVENT E);
            sender_send (protocol.release_service_command (client_ st) service instance)
              (send_result E (sends_ st)
                 (protocol.release_service_command (client_ st) service instance))])
  /\ (state_ st <> ST_REGISTERED ->
      sends_ (exec (release_service E _client service instance) st) = sends_ st
      /\ trace_ (exec (release_service E _client service instance) st)
         = trace_ st
           ++ [base_release_service _client service instance;
               remove_pending_subscription service instance 0xFFFF (ANY_EVENT E)]).
Proof.
  intros Hnone.
  unfold release_service, send_release_service, if_sender_send, sender_send_buffer.
  run_monad. cbn. rewrite Hnone, (erase_first_without_match _ _ Hnone). cbn.
  destruct (decide (state_ st = ST_REGISTERED)) as [Hreg|Hreg].
  - rewrite bool_decide_eq_true_2 by assumption. cbn.
    split; [|split; [|split; [|split; [|intros; contradiction]]]].
    + destruct (serialize_ok E _); cbn; [destruct (sender_ st)|]; reflexivity.
    + destruct (serialize_ok E _); cbn; [destruct (sender_ st)|]; reflexivity.
    + destruct (serialize_ok E _); cbn; [destruct (sender_ st)|]; reflexivity.
    + intros _ Hsender Hser. rewrite Hser. cbn. rewrite Hsender. cbn.
      now rewrite <- !app_assoc.
  - rewrite bool_decide_eq_false_2 by assumption. cbn.
    repeat split; try reflexivity; try (intros; contradiction).
    now rewrite <- !app_assoc.
Qed.

End Withdrawal.

(** ** The remote-subscriber counter, continued *)

Section RemoteSubscriberCountMore.
Variable E : environment.

Lemma remote_subscriber_count_lookup_assign_ne (m : gmap Z (gmap Z (gmap Z Z)))
    (s i e v s' i' e' : Z) :
  (s', i', e') <> (s, i, e) ->
  remote_subscriber_count_lookup (remote_subscriber_count_assign m s i e v) s' i' e'
  = remote_subscriber_count_lookup m s' i' e'.
Proof.
  intros Hne. unfold remote_subscriber_count_lookup, remote_subscriber_count_assign.
  destruct (decide (s' = s)) as [->|Hs]; [|now rewrite lookup_insert_ne by congruence].
  rewrite lookup_insert_eq. cbn.
  destruct (decide (i' = i)) as [->|Hi].
  - rewrite lookup_insert_eq. cbn. rewrite lookup_insert_ne by congruence.
    destruct (m !! s) as [mi|]; cbn; [|apply lookup_empty].
    destruct (mi !! i) as [me|]; cbn; [reflexivity | apply lookup_empty].
  - rewrite lookup_insert_ne by congruence.
    destruct (m !! s) as [mi|]; cbn; [reflexivity | now rewrite lookup_empty].
Qed.

(** X19.  [clear_remote_subscriber_count] forgets every eventgroup of the
    service instance and nothing else: afterwards no eventgroup of the
    instance has an entry, the entries of every other service instance are
    what they were, and the rest of the object is unchanged. *)
Theorem clear_remote_subscriber_count_removes_instance (service : service_t)
    (instance : instance_t) (st : routing_manager_client) :
  (forall eventgroup,
     remote_subscriber_count_lookup
       (remote_subscriber_count_ (exec (clear_remote_subscriber_count service instance) st))
       service instance eventgroup = None)
  /\ (forall s i e,
        (s, i) <> (service, instance) ->
        remote_subscriber_count_lookup
          (remote_subscriber_count_
             (exec (clear_remote_subscriber_count service instance) st)) s i e
        = remote_subscriber_count_lookup (remote_subscriber_count_ st) s i e)
  /\ exec (clear_remote_subscriber_count service instance) st
     = set_remote_subscriber_count
         (remote_subscriber_count_
            (exec (clear_remote_subscriber_count service instance) st)) st.
Proof.
  unfold clear_remote_subscriber_count, remote_subscriber_count_lookup. run_monad.
  destruct (remote_subscriber_count_ st !! service) as [mi|] eqn:Hs.
  - destruct (mi !! instance) as [me|] eqn:Hi.
    + destruct (decide (size (delete instance mi) = 0%nat)) as [Hempty|Hempty]; cbn.
      * split; [|split; [|reflexivity]].
        -- intros eventgroup. now rewrite lookup_delete_eq.
        -- intros s i e Hne. destruct (decide (s = service)) as [->|Hne'].
           ++ rewrite lookup_delete_eq, Hs. cbn.
              apply map_size_empty_iff in Hempty.
              assert (Hi' : delete instance mi !! i = None)
                by (rewrite Hempty; apply lookup_empty).
              rewrite lookup_delete_ne in Hi' by congruence. now rewrite Hi'.
           ++ now rewrite lookup_delete_ne by congruence.
      * split; [|split; [|reflexivity]].
        -- intros eventgroup. rewrite lookup_insert_eq. cbn.
           now rewrite lookup_delete_eq.
        -- intros s i e Hne. destruct (decide (s = service)) as [->|Hne'].
           ++ rewrite lookup_insert_eq, Hs. cbn.
              now rewrite lookup_delete_ne by congruence.
           ++ now rewrite lookup_insert_ne by congruence.
    + split; [|split; [|destruct st; reflexivity]].
      * intros eventgroup. rewrite Hs. cbn. now rewrite Hi.
      * reflexivity.
  - split; [|split; [|destruct st; reflexivity]].
    + intros eventgroup. now rewrite Hs.
    + reflexivity.
Qed.

(** X20.  An increment followed by a decrement of the same counter.  With
    [c] the count before (0 for an absent entry, and at most 2^32 - 1): the
    increment returns [c + 1] modulo 2^32; below the top value the decrement
    returns [c] again and leaves an entry that holds [c] (so an absent entry
    has become an entry of 0); at the top value the increment wraps to 0 and
    the decrement leaves 0.  The counters of all other keys are what they
    were. *)
Theorem remote_subscriber_count_increment_then_decrement
    (service : service_t) (instance : instance_t) (eventgroup : eventgroup_t)
    (st : routing_manager_client) :
  let count_of st' :=
    remote_subscriber_count_lookup (remote_subscriber_count_ st')
      service instance eventgroup in
  let c := default 0 (count_of st) in
  let up := get_remote_subscriber_count service instance eventgroup true st in
  let down := get_remote_subscriber_count service instance eventgroup false (snd up) in
  0 <= c < 2 ^ 32 ->
  fst up = (c + 1) mod 2 ^ 32
  /\ (c < 2 ^ 32 - 1 -> fst down = c /\ count_of (snd down) = Some c)
  /\ (c = 2 ^ 32 - 1 ->
      fst up = 0 /\ fst down = 0 /\ count_of (snd down) = Some 0)
  /\ (forall s i e,
        (s, i, e) <> (service, instance, eventgroup) ->
        remote_subscriber_count_lookup (remote_subscriber_count_ (snd down)) s i e
        = remote_subscriber_count_lookup (remote_subscriber_count_ st) s i e).
Proof.
  cbv zeta. intros Hc.
  assert (Hup :
    get_remote_subscriber_count service instance eventgroup true st
    = ((default 0
          (remote_subscriber_count_lookup (remote_subscriber_count_ st)
             service instance eventgroup) + 1) mod 2 ^ 32,
       set_remote_subscriber_count
         (remote_subscriber_count_assign (remote_subscriber_count_ st)
            service instance eventgroup
            ((default 0
                (remote_subscriber_count_lookup (remote_subscriber_count_ st)
                   service instance eventgroup) + 1) mod 2 ^ 32)) st)).
  { unfold get_remote_subscriber_count. run_monad.
    destruct (remote_subscriber_count_lookup _ _ _ _) as [found|]; reflexivity. }
  rewrite Hup. cbn [fst snd].
  set (c := default 0 _) in *.
  set (m := remote_subscriber_count_ st) in *.
  unfold get_remote_subscriber_count. run_monad. cbn.
  rewrite remote_subscriber_count_lookup_assign.
  split; [reflexivity|].
  destruct (Z.ltb_spec 0 ((c + 1) mod 2 ^ 32)) as [Hpos|Hzero]; cbn.
  - split; [|split].
    + intros Hlt. rewrite Z.mod_small by lia.
      rewrite remote_subscriber_count_lookup_assign. split; [lia | f_equal; lia].
    + intros Htop. rewrite Htop in Hpos. vm_compute in Hpos. discriminate.
    + intros s i e Hne.
      now rewrite !remote_subscriber_count_lookup_assign_ne by assumption.
  - split; [|split].
    + intros Hlt. rewrite Z.mod_small in Hzero by lia. lia.
    + intros Htop. rewrite remote_subscriber_count_lookup_assign.
      rewrite Htop. vm_compute. auto.
    + intros s i e Hne.
      now rewrite remote_subscriber_count_lookup_assign_ne by assumption.
Qed.

End RemoteSubscriberCountMore.

(** ** Suspend *)

Section SuspendFacts.
Variable E : environment.

Lemma elem_of_in_key_order {V} (m : gmap Z V) (k : Z) (v : V) :
  (k, v) ∈ in_key_order m <-> m !! k = Some v.
Proof.
  unfold in_key_order. rewrite sorting.merge_sort_Permutation.
  apply elem_of_map_to_list.
Qed.

(** The iteration order is ascending in the key. *)
Lemma in_key_order_sorted {V} (m : gmap Z V) : Sorted key_le (in_key_order m).
Proof.
  unfold in_key_order. apply sorting.Sorted_merge_sort.
  intros a b. unfold key_le. lia.
Qed.

Lemma NoDup_in_key_order {V} (m : gmap Z V) : NoDup (map fst (in_key_order m)).
Proof.
  unfold in_key_order.
  rewrite (fmap_Permutation fst _ _ (sorting.merge_sort_Permutation _ _)).
  apply NoDup_fst_map_to_list.
Qed.

Lemma map_flat_map {A B C} (g : B -> C) (f : A -> list B) (l : list A) :
  map g (flat_map f l) = flat_map (fun x => map g (f x)) l.
Proof. induction l as [|x l IH]; cbn; [reflexivity|]. now rewrite map_app, IH. Qed.

Lemma flat_map_singleton {A B} (g : A -> B) (l : list A) :
  flat_map (fun x => [g x]) l = map g l.
Proof. induction l as [|x l IH]; cbn; [reflexivity|]. now rewrite IH. Qed.

Lemma elem_of_remote_subscriber_count_keys (m : gmap Z (gmap Z (gmap Z Z)))
    (s i e : Z) :
  (s, i, e) ∈ remote_subscriber_count_keys m
  <-> remote_subscriber_count_lookup m s i e <> None.
Proof.
  unfold remote_subscriber_count_keys, remote_subscriber_count_lookup.
  rewrite list_elem_of_In, in_flat_map. split.
  - intros ([s' mi] & Hs & Hin). apply in_flat_map in Hin as ([i' me] & Hi & Hin).
    apply in_map_iff in Hin as ([e' c] & Heq & He). cbn in *.
    injection Heq as -> -> ->.
    apply list_elem_of_In, elem_of_in_key_order in Hs, Hi, He.
    rewrite Hs. cbn. rewrite Hi. cbn. rewrite He. discriminate.
  - intros Hsome.
    destruct (m !! s) as [mi|] eqn:Hs; cbn in Hsome; [|contradiction].
    destruct (mi !! i) as [me|] eqn:Hi; cbn in Hsome; [|contradiction].
    destruct (me !! e) as [c|] eqn:He; [|contradiction].
    exists (s, mi). split; [now apply list_elem_of_In, elem_of_in_key_order|].
    apply in_flat_map. exists (i, me).
    split; [now apply list_elem_of_In, elem_of_in_key_order|].
    apply in_map_iff. exists (e, c).
    split; [reflexivity | now apply list_elem_of_In, elem_of_in_key_order].
Qed.

Lemma NoDup_flat_map_keys {A B C} (f : A * B -> list C) (key : C -> A)
    (l : list (A * B)) :
  NoDup (map fst l) ->
  (forall x y, y ∈ f x -> key y = fst x) ->
  (forall x, NoDup (f x)) ->
  NoDup (flat_map f l).
Proof.
  intros Hl Hkey Hf. induction l as [|x l IH]; cbn; [constructor|].
  cbn in Hl. apply NoDup_cons in Hl as [Hx Hl].
  apply NoDup_app. split; [apply Hf|]. split; [|now apply IH].
  intros y Hy Hy'. apply list_elem_of_In, in_flat_map in Hy' as (x' & Hx' & Hy').
  apply list_elem_of_In in Hx', Hy'.
  apply Hx. apply list_elem_of_fmap. exists x'. split; [|assumption].
  rewrite <- (Hkey x y Hy). now apply Hkey.
Qed.

Lemma NoDup_remote_subscriber_count_keys (m : gmap Z (gmap Z (gmap Z Z))) :
  NoDup (remote_subscriber_count_keys m).
Proof.
  unfold remote_subscriber_count_keys.
  apply (NoDup_flat_map_keys _ (fun k => fst (fst k))); [apply NoDup_in_key_order | |].
  - intros [s mi] k Hk. apply list_elem_of_In, in_flat_map in Hk as ([i me] & _ & Hk).
    apply in_map_iff in Hk as ([e c] & <- & _). reflexivity.
  - intros [s mi]. cbn.
    apply (NoDup_flat_map_keys _ (fun k => snd (fst k))); [apply NoDup_in_key_order | |].
    + intros [i me] k Hk. apply list_elem_of_In, in_map_iff in Hk as ([e c] & <- & _).
      reflexivity.
    + intros [i me]. cbn.
      apply (NoDup_fmap_1 snd). rewrite <- list_fmap_compose.
      apply NoDup_in_key_order.
Qed.

Lemma unsubscriptions_of_keys (m : gmap Z (gmap Z (gmap Z Z))) :
  flat_map
    (fun s : Z * gmap Z (gmap Z Z) =>
       flat_map (fun i : Z * gmap Z Z =>
         flat_map (fun e : Z * Z =>
           [base_unsubscribe (VSOMEIP_ROUTING_CLIENT E) (fst s) (fst i)
              (fst e) (ANY_EVENT E)])
           (in_key_order (snd i)))
         (in_key_order (snd s)))
    (in_key_order m)
  = map (fun k =>
           base_unsubscribe (VSOMEIP_ROUTING_CLIENT E) (fst (fst k))
             (snd (fst k)) (snd k) (ANY_EVENT E))
      (remote_subscriber_count_keys m).
Proof.
  unfold remote_subscriber_count_keys.
  rewrite map_flat_map. apply flat_map_ext. intros [s mi]. cbn.
  rewrite map_flat_map. apply flat_map_ext. intros [i me]. cbn.
  rewrite map_map. now rewrite flat_map_singleton.
Qed.

(** X21.  [on_suspend] withdraws every remote subscription the proxy counts:
    it calls the base-class [unsubscribe] for the routing client and
    ANY_EVENT once for each eventgroup that has an entry in
    [remote_subscriber_count_] (whatever the count, zero included), in the
    iteration order of the maps, and for nothing else; then the counter is
    empty, so that every later decrement returns 0.  It sends nothing and
    does not touch the registration state. *)
Theorem on_suspend_unsubscribes_everything (st : routing_manager_client) :
  exec (on_suspend E) st
  = set_remote_subscriber_count ∅
      (set_trace
         (trace_ st
          ++ map (fun k =>
                    base_unsubscribe (VSOMEIP_ROUTING_CLIENT E) (fst (fst k))
                      (snd (fst k)) (snd k) (ANY_EVENT E))
               (remote_subscriber_count_keys (remote_subscriber_count_ st)))
         st)
  /\ NoDup (remote_subscriber_count_keys (remote_subscriber_count_ st))
  /\ (forall s i e,
        (s, i, e) ∈ remote_subscriber_count_keys (remote_subscriber_count_ st)
        <-> remote_subscriber_count_lookup (remote_subscriber_count_ st) s i e <> None)
  /\ (forall s i e,
        get_remote_subscriber_count s i e false (exec (on_suspend E) st)
        = (0, exec (on_suspend E) st)).
Proof.
  assert (Hrun :
    exec (on_suspend E) st
    = set_remote_subscriber_count ∅
        (set_trace
           (trace_ st
            ++ map (fun k =>
                      base_unsubscribe (VSOMEIP_ROUTING_CLIENT E) (fst (fst k))
                        (snd (fst k)) (snd k) (ANY_EVENT E))
                 (remote_subscriber_count_keys (remote_subscriber_count_ st)))
           st)).
  { unfold on_suspend, exec. unfold bind at 1. unfold gets at 1. cbn [fst snd].
    unfold bind at 1.
    rewrite (for_each_emits
               (fun s : Z * gmap Z (gmap Z Z) =>
                  flat_map (fun i : Z * gmap Z Z =>
                    flat_map (fun e : Z * Z =>
                      [base_unsubscribe (VSOMEIP_ROUTING_CLIENT E) (fst s) (fst i)
                         (fst e) (ANY_EVENT E)])
                      (in_key_order (snd i)))
                    (in_key_order (snd s)))).
    - rewrite unsubscriptions_of_keys. reflexivity.
    - intros s st0.
      apply (for_each_emits
               (fun i : Z * gmap Z Z =>
                  flat_map (fun e : Z * Z =>
                    [base_unsubscribe (VSOMEIP_ROUTING_CLIENT E) (fst s) (fst i)
                       (fst e) (ANY_EVENT E)])
                    (in_key_order (snd i)))).
      intros i st1.
      apply (for_each_emits
               (fun e : Z * Z =>
                  [base_unsubscribe (VSOMEIP_ROUTING_CLIENT E) (fst s) (fst i)
                     (fst e) (ANY_EVENT E)])).
      intros e st2. reflexivity. }
  split; [exact Hrun|].
  split; [apply NoDup_remote_subscriber_count_keys|].
  split; [apply elem_of_remote_subscriber_count_keys|].
  intros s i e. rewrite Hrun. unfold get_remote_subscriber_count. run_monad. cbn.
  unfold remote_subscriber_count_lookup. now rewrite lookup_empty.
Qed.

End SuspendFacts.

(** ** A REGISTER_EVENT command that cannot hold every registration *)

Section RegistrationsOverflow.
Variable E : environment.

Lemma send_pending_event_registrations_loop_repeats (fuel : nat) (_client : client_t)
    (registrations : list protocol.register_event) (ed : event_data_t)
    (it : list event_data_t) (st : routing_manager_client) :
  add_registration_fits E registrations (to_register_event ed) = false ->
  serialize_ok E (protocol.register_events_command _client registrations) = true ->
  (forall n, send_result E n (protocol.register_events_command _client registrations)
             = true) ->
  sender_ st = true ->
  send_pending_event_registrations_loop E fuel _client registrations (ed :: it) st
  = None.
Proof.
  intros Hrefused Hser Hsend. revert st.
  induction fuel as [|fuel IH]; intros st Hsender; [reflexivity|].
  rewrite send_pending_event_registrations_loop_step. cbv zeta.
  cbn [add_registrations]. rewrite Hrefused. cbn [fst snd].
  unfold send_registrations_round. rewrite Hser.
  run_monad. rewrite sender_and_send_present by assumption. rewrite Hsend.
  cbn [fst snd]. apply IH. cbn. assumption.
Qed.

(** X22.  [send_pending_event_registrations] does not end when one
    REGISTER_EVENT command cannot hold every pending registration.  The
    command is not emptied between two rounds of the loop and the iterator
    stays on the refused registration, so the next round builds the same
    command: as long as the sender takes it, the loop hands it to the sender
    again and again, and no amount of fuel lets the function return. *)
Theorem send_pending_event_registrations_repeats_full_command (fuel : nat)
    (_client : client_t) (st : routing_manager_client) :
  snd (add_registrations E [] (pending_event_registrations_ st)) <> [] ->
  serialize_ok E
    (protocol.register_events_command _client
       (fst (add_registrations E [] (pending_event_registrations_ st)))) = true ->
  (forall n,
     send_result E n
       (protocol.register_events_command _client
          (fst (add_registrations E [] (pending_event_registrations_ st)))) = true) ->
  sender_ st = true ->
  send_pending_event_registrations E fuel _client st = None.
Proof.
  intros Hrest Hser Hsend Hsender. unfold send_pending_event_registrations.
  destruct (pending_event_registrations_ st) as [|ed0 it0] eqn:Hpending;
    [cbn in Hrest; contradiction|].
  destruct fuel as [|fuel]; [reflexivity|].
  rewrite send_pending_event_registrations_loop_step. cbv zeta.
  destruct (snd (add_registrations E [] (ed0 :: it0))) as [|ed rest] eqn:Hbuilt;
    [contradiction|].
  pose proof (add_registrations_refused E [] (ed0 :: it0) rest ed Hbuilt) as Hrefused.
  unfold send_registrations_round. rewrite Hser.
  run_monad. rewrite sender_and_send_present by assumption. rewrite Hsend.
  cbn [fst snd].
  apply send_pending_event_registrations_loop_repeats; cbn; assumption.
Qed.

End RegistrationsOverflow.

(** * Properties of the client endpoint *)

Section EndpointFacts.
Import client_endpoint.
Variable E : environment.

(** Unfolds the monad's plumbing. *)
Ltac run_endpoint :=
  cbv beta iota zeta delta [exec bind ret gets modify emit when];
  cbn [fst snd].

(** Opens the endpoint into its members. *)
Ltac open_endpoint ep := destruct ep; cbn in *; subst.

#[local] Arguments shutdown_and_close_socket : simpl never.

Lemma shutdown_and_close_socket_run (_recreate_socket : bool)
    (ep : client_endpoint_impl) :
  exec (shutdown_and_close_socket E _recreate_socket) ep
  = set_trace
      (trace_ ep
       ++ shutdown_and_close_effects E (socket_is_open_ ep) _recreate_socket)
      (set_socket_is_open false (set_state CLOSED ep)).
Proof.
  open_endpoint ep. unfold shutdown_and_close_socket, shutdown_and_close_effects.
  destruct socket_is_open_0, _recreate_socket, (socket_handle_is_valid E),
    (socket_shutdown_fails E), (socket_close_fails E);
    run_endpoint; cbn; rewrite <- ?app_assoc; cbn; rewrite ?app_nil_r; reflexivity.
Qed.

Lemma connect_cbk_failure_run (_error : error_code) (ep : client_endpoint_impl) :
  is_connect_failure _error = true ->
  sending_blocked_ ep = false ->
  endpoint_host_ ep = true ->
  exec (connect_cbk E _error) ep
  = let unlimited := max_allowed_reconnects E =? MAX_RECONNECTS_UNLIMITED E in
    let counter :=
      if unlimited then reconnect_counter_ ep
      else (reconnect_counter_ ep + 1) mod 2 ^ 32 in
    let again := unlimited || (counter <=? max_allowed_reconnects E) in
    set_connect_timeout
      (if (connect_timeout_ ep <? VSOMEIP_MAX_CONNECT_TIMEOUT E) && (30 <? counter)
       then Z.shiftl (connect_timeout_ ep) 1 mod 2 ^ 32
       else connect_timeout_ ep)
      (set_connect_timer
         (if again then Some (connect_timeout_ ep) else connect_timer_ ep)
         (set_reconnect_counter counter
            (set_trace
               (trace_ ep
                ++ [log warn_connect_cbk_restarting_socket]
                ++ shutdown_and_close_effects E (socket_is_open_ ep) true
                ++ [host_on_disconnect]
                ++ (if again then [] else [max_allowed_reconnects_reached]))
               (set_socket_is_open false (set_state CLOSED ep))))).
Proof.
  intros Hfailure Hblocked Hhost. cbv zeta.
  assert (Hrun :
    exec (connect_cbk E _error) ep
    = exec (bind (emit (log warn_connect_cbk_restarting_socket)) (fun _ =>
            bind (shutdown_and_close_socket E true) (fun _ =>
            bind (gets state_) (fun state =>
            bind (when (bool_decide (state <> ESTABLISHED))
                    (bind (modify (set_state CLOSED)) (fun _ => emit host_on_disconnect)))
              (fun _ =>
            bind (if max_allowed_reconnects E =? MAX_RECONNECTS_UNLIMITED E then
                    start_connect_timer
                  else
                    bind (modify (fun ep =>
                            set_reconnect_counter
                              ((reconnect_counter_ ep + 1) mod 2 ^ 32) ep)) (fun _ =>
                    bind (gets reconnect_counter_) (fun counter =>
                    if counter <=? max_allowed_reconnects E then start_connect_timer
                    else emit max_allowed_reconnects_reached))) (fun _ =>
            bind (gets connect_timeout_) (fun timeout =>
            bind (gets reconnect_counter_) (fun counter =>
            when ((timeout <? VSOMEIP_MAX_CONNECT_TIMEOUT E) && (30 <? counter))
              (modify (set_connect_timeout (Z.shiftl timeout 1 mod 2 ^ 32)))))))))))
        ep).
  { unfold connect_cbk, exec. unfold bind at 1. unfold gets. cbn [fst snd].
    rewrite Hblocked.
    destruct _error; try discriminate; cbv beta iota.
    all: unfold bind at 1; cbn [fst snd]; rewrite Hhost; reflexivity. }
  rewrite Hrun. clear Hrun.
  unfold exec. unfold bind at 1. unfold bind at 1.
  pose proof (shutdown_and_close_socket_run true (snd (emit (log warn_connect_cbk_restarting_socket) ep)))
    as Hclose.
  unfold exec in Hclose. rewrite Hclose. clear Hclose.
  open_endpoint ep. unfold start_connect_timer.
  destruct (max_allowed_reconnects E =? MAX_RECONNECTS_UNLIMITED E); cbn [orb].
  - run_endpoint. cbn. rewrite bool_decide_eq_true_2 by discriminate. cbn.
    destruct ((connect_timeout_0 <? _) && _); cbn;
      rewrite <- ?app_assoc; cbn; rewrite ?app_nil_r; reflexivity.
  - run_endpoint. cbn. rewrite !bool_decide_eq_true_2 by discriminate. cbn.
    destruct ((reconnect_counter_0 + 1) mod 2 ^ 32 <=? max_allowed_reconnects E); cbn;
      destruct ((connect_timeout_0 <? _) && _); cbn;
      rewrite <- ?app_assoc; cbn; rewrite ?app_nil_r; reflexivity.
Qed.

Lemma connect_cbk_failure_keeps_going (_error : error_code) (ep : client_endpoint_impl) :
  is_connect_failure _error = true ->
  sending_blocked_ ep = false ->
  endpoint_host_ ep = true ->
  sending_blocked_ (exec (connect_cbk E _error) ep) = false
  /\ endpoint_host_ (exec (connect_cbk E _error) ep) = true.
Proof.
  intros Hfailure Hblocked Hhost.
  rewrite connect_cbk_failure_run by assumption. cbn. auto.
Qed.

(** X23.  With an unlimited number of reconnects the back-off never
    engages.  [++reconnect_counter_] is the right operand of the [||] whose
    left operand is the test for "unlimited", so it is not evaluated: after
    any number of failed connect attempts the counter and, as long as the
    counter is not above 30 to begin with, the connect timeout are what
    they were, and the connect timer is armed with that timeout again. *)
Theorem unlimited_reconnects_never_back_off (n : nat) (_error : error_code)
    (ep : client_endpoint_impl) :
  max_allowed_reconnects E = MAX_RECONNECTS_UNLIMITED E ->
  is_connect_failure _error = true ->
  sending_blocked_ ep = false ->
  endpoint_host_ ep = true ->
  reconnect_counter_ ep <= 30 ->
  reconnect_counter_ (Nat.iter n (exec (connect_cbk E _error)) ep)
  = reconnect_counter_ ep
  /\ connect_timeout_ (Nat.iter n (exec (connect_cbk E _error)) ep)
     = connect_timeout_ ep
  /\ sending_blocked_ (Nat.iter n (exec (connect_cbk E _error)) ep) = false
  /\ endpoint_host_ (Nat.iter n (exec (connect_cbk E _error)) ep) = true
  /\ ((0 < n)%nat ->
      connect_timer_ (Nat.iter n (exec (connect_cbk E _error)) ep)
      = Some (connect_timeout_ ep)).
Proof.
  intros Hunlimited Hfailure Hblocked Hhost Hcounter.
  induction n as [|n (IHcounter & IHtimeout & IHblocked & IHhost & _)].
  - cbn. repeat split; try assumption. lia.
  - rewrite !Nat.iter_succ.
    set (ep' := Nat.iter n (exec (connect_cbk E _error)) ep) in *.
    rewrite connect_cbk_failure_run by assumption. cbv zeta.
    rewrite Hunlimited, Z.eqb_refl. cbn.
    rewrite IHcounter, IHtimeout.
    replace (30 <? reconnect_counter_ ep) with false by (symmetry; apply Z.ltb_ge; lia).
    rewrite andb_false_r. auto.
Qed.

(** X24.  With a limited number of reconnects every failed connect attempt
    counts.  The socket is closed and recreated, the state is Closed and the
    host is told of the disconnect, whatever the state was before.  The
    counter goes up by one (as a 32-bit value); while it does not exceed the
    allowed number the connect timer is armed with the current timeout,
    afterwards [max_allowed_reconnects_reached] is called instead.  Only
    then the timeout is doubled (as a 32-bit value), if the counter is
    above 30 and the timeout below its maximum; a timeout below 2^31 thus
    never exceeds the larger of its old value and twice the maximum minus
    2. *)
Theorem limited_reconnects_count_and_back_off (_error : error_code)
    (ep : client_endpoint_impl) :
  max_allowed_reconnects E <> MAX_RECONNECTS_UNLIMITED E ->
  is_connect_failure _error = true ->
  sending_blocked_ ep = false ->
  endpoint_host_ ep = true ->
  reconnect_counter_ (exec (connect_cbk E _error) ep)
  = (reconnect_counter_ ep + 1) mod 2 ^ 32
  /\ state_ (exec (connect_cbk E _error) ep) = CLOSED
  /\ socket_is_open_ (exec (connect_cbk E _error) ep) = false
  /\ connect_timer_ (exec (connect_cbk E _error) ep)
     = (if (reconnect_counter_ ep + 1) mod 2 ^ 32 <=? max_allowed_reconnects E
        then Some (connect_timeout_ ep) else connect_timer_ ep)
  /\ connect_timeout_ (exec (connect_cbk E _error) ep)
     = (if (connect_timeout_ ep <? VSOMEIP_MAX_CONNECT_TIMEOUT E)
           && (30 <? (reconnect_counter_ ep + 1) mod 2 ^ 32)
        then Z.shiftl (connect_timeout_ ep) 1 mod 2 ^ 32
        else connect_timeout_ ep)
  /\ trace_ (exec (connect_cbk E _error) ep)
     = trace_ ep
       ++ [log warn_connect_cbk_restarting_socket]
       ++ shutdown_and_close_effects E (socket_is_open_ ep) true
       ++ [host_on_disconnect]
       ++ (if (reconnect_counter_ ep + 1) mod 2 ^ 32 <=? max_allowed_reconnects E
           then [] else [max_allowed_reconnects_reached])
  /\ (0 <= connect_timeout_ ep < 2 ^ 31 ->
      connect_timeout_ (exec (connect_cbk E _error) ep)
      <= Z.max (connect_timeout_ ep) (2 * VSOMEIP_MAX_CONNECT_TIMEOUT E - 2)).
Proof.
  intros Hlimited Hfailure Hblocked Hhost.
  rewrite connect_cbk_failure_run by assumption. cbv zeta.
  apply Z.eqb_neq in Hlimited. rewrite Hlimited. cbn.
  repeat split.
  intros Hrange.
  destruct (Z.ltb_spec (connect_timeout_ ep) (VSOMEIP_MAX_CONNECT_TIMEOUT E)); cbn; [|lia].
  destruct (30 <? _); [|lia].
  rewrite Z.shiftl_mul_pow2 by lia. rewrite Z.mod_small by lia. lia.
Qed.

(** X25.  A connect attempt that succeeded (or found the socket connected
    already) resets the back-off: the connect timer is cancelled, the
    timeout is the default again and the counter is 0.  If sends had failed
    for want of a connection, the flag is cleared and the front of the
    queue, if there is one, is handed to [send_queued] again.  Unless the
    endpoint is Established already, the host is told of the connect, and
    its two calls back into the endpoint leave the endpoint Established if
    the socket is open and Closed if it is not; an Established endpoint
    stays Established, and its queue is not touched.  [receive] is called
    last. *)
Theorem connect_cbk_success_resets_back_off (_error : error_code)
    (ep : client_endpoint_impl) :
  _error = success \/ _error = already_connected ->
  sending_blocked_ ep = false ->
  endpoint_host_ ep = true ->
  connect_timeout_ (exec (connect_cbk E _error) ep) = VSOMEIP_DEFAULT_CONNECT_TIMEOUT E
  /\ reconnect_counter_ (exec (connect_cbk E _error) ep) = 0
  /\ connect_timer_ (exec (connect_cbk E _error) ep) = None
  /\ was_not_connected_ (exec (connect_cbk E _error) ep) = false
  /\ state_ (exec (connect_cbk E _error) ep)
     = (if bool_decide (state_ ep = ESTABLISHED) || socket_is_open_ ep
        then ESTABLISHED else CLOSED)
  /\ socket_is_open_ (exec (connect_cbk E _error) ep) = socket_is_open_ ep
  /\ (state_ ep = ESTABLISHED ->
      queue_ (exec (connect_cbk E _error) ep) = queue_ ep
      /\ queue_size_ (exec (connect_cbk E _error) ep) = queue_size_ ep)
  /\ trace_ (exec (connect_cbk E _error) ep)
     = trace_ ep
       ++ (match _error with success => [] | _ => [log warn_connect_cbk_attempt] end)
       ++ (match was_not_connected_ ep, queue_ ep with
           | true, entry :: _ =>
               [dispatch_send_queued entry; log warn_connect_cbk_resume_sending]
           | _, _ => []
           end)
       ++ (if bool_decide (state_ ep <> ESTABLISHED) then [host_on_connect] else [])
       ++ [receive].
Proof.
  intros Hsuccess Hblocked Hhost. open_endpoint ep.
  unfold connect_cbk, get_front, on_connect, set_connected, set_established.
  destruct Hsuccess as [-> | ->]; destruct was_not_connected_0;
    destruct queue_0 as [|entry queue]; destruct state_0; destruct socket_is_open_0;
    cbv -[app]; rewrite <- ?app_assoc;
    repeat split; try reflexivity; discriminate.
Qed.

(** X26.  A stopped endpoint stays silent.  [stop] blocks sending, empties
    the queue, cancels the connect timer and resets the timeout.  While
    sending is blocked, none of the connect handlers ([connect_cbk],
    [wait_connect_cbk], [wait_connecting_cbk], with any error code) calls
    the endpoint host, dispatches a connect or arms the connect timer, and
    sending stays blocked. *)
Theorem stopped_endpoint_stays_silent (_error : error_code)
    (ep : client_endpoint_impl) :
  (sending_blocked_ (exec (stop E) ep) = true
   /\ queue_ (exec (stop E) ep) = []
   /\ queue_size_ (exec (stop E) ep) = 0
   /\ connect_timer_ (exec (stop E) ep) = None
   /\ connect_timeout_ (exec (stop E) ep) = VSOMEIP_DEFAULT_CONNECT_TIMEOUT E
   /\ trace_ (exec (stop E) ep)
      = trace_ ep ++ [dispatch_shutdown_and_close_socket false])
  /\ (sending_blocked_ ep = true ->
      forall handler,
        handler = connect_cbk E _error
        \/ handler = wait_connect_cbk _error
        \/ handler = wait_connecting_cbk E _error ->
        sending_blocked_ (exec handler ep) = true
        /\ connect_timer_ (exec handler ep) = connect_timer_ ep
        /\ exists new,
             trace_ (exec handler ep) = trace_ ep ++ new
             /\ forallb (fun ev => negb (is_host_call_or_reconnect ev)) new = true).
Proof.
  split.
  - unfold stop. run_endpoint. cbn. rewrite <- ?app_assoc. auto 10.
  - intros Hblocked handler Hhandler.
    assert (Hconnect : forall e,
      exec (connect_cbk E e) ep
      = set_trace
          (trace_ ep ++ log warn_connect_cbk_endpoint_stopped
                        :: shutdown_and_close_effects E (socket_is_open_ ep) false)
          (set_socket_is_open false (set_state CLOSED ep))).
    { intros e. unfold connect_cbk, exec. unfold bind at 1. unfold gets.
      cbn [fst snd]. rewrite Hblocked.
      replace (match e with operation_aborted => true | _ => true end) with true
        by (destruct e; reflexivity).
      unfold bind at 1.
      pose proof (shutdown_and_close_socket_run false
                    (snd (emit (log warn_connect_cbk_endpoint_stopped) ep))) as Hclose.
      unfold exec in Hclose. rewrite Hclose. cbn. now rewrite <- app_assoc. }
    assert (Hsilent : forall open,
      forallb (fun ev => negb (is_host_call_or_reconnect ev))
        (log warn_connect_cbk_endpoint_stopped
         :: shutdown_and_close_effects E open false) = true).
    { intros open. unfold shutdown_and_close_effects.
      destruct open, (socket_handle_is_valid E), (socket_shutdown_fails E),
        (socket_close_fails E); reflexivity. }
    destruct Hhandler as [-> | [-> | ->]].
    + rewrite Hconnect. cbn. repeat split; [assumption|].
      eexists. split; [reflexivity | apply Hsilent].
    + clear Hconnect Hsilent. open_endpoint ep. unfold wait_connect_cbk.
      destruct _error; run_endpoint; cbn; (repeat split; try reflexivity);
        exists []; now rewrite app_nil_r.
    + clear Hconnect Hsilent. open_endpoint ep. unfold wait_connecting_cbk.
      destruct _error; run_endpoint; cbn; (repeat split; try reflexivity);
        first [exists []; now rewrite app_nil_r | eexists; split; reflexivity].
Qed.

(** X27.  [check_queue_limit] is exact despite the wrap-around of
    [size_t].  For a queue limit and a message size of 32 bits and a
    [size_t] of at least 32 bits, a message is accepted exactly when the
    queue is unlimited or the bytes queued so far plus the message, summed
    without wrap-around, do not exceed the limit.  A refusal writes one
    error line and changes nothing else; an acceptance changes nothing. *)
Theorem check_queue_limit_is_exact (_size : Z) (ep : client_endpoint_impl) :
  32 <= size_bits E ->
  0 <= queue_size_ ep < 2 ^ size_bits E ->
  0 <= _size < 2 ^ 32 ->
  0 <= queue_limit_ E < 2 ^ 32 ->
  (fst (check_queue_limit E _size ep) = true
   <-> queue_limit_ E = QUEUE_SIZE_UNLIMITED E
       \/ queue_size_ ep + _size <= queue_limit_ E)
  /\ snd (check_queue_limit E _size ep)
     = (if fst (check_queue_limit E _size ep) then ep
        else set_trace (trace_ ep ++ [log err_queue_size_limit_reached]) ep).
Proof.
  intros Hbits Hqueue Hsize Hlimit.
  assert (Hpow : 2 ^ 32 <= 2 ^ size_bits E) by (apply Z.pow_le_mono_r; lia).
  unfold check_queue_limit. run_endpoint.
  set (M := 2 ^ size_bits E) in *.
  assert (Hsum :
    (queue_limit_ E <? (queue_size_ ep + _size) mod M)
    || ((queue_size_ ep + _size) mod M <? _size) = true
    <-> queue_limit_ E < queue_size_ ep + _size).
  { rewrite orb_true_iff, !Z.ltb_lt.
    destruct (Z_lt_ge_dec (queue_size_ ep + _size) M) as [Hsmall|Hwrap].
    - rewrite Z.mod_small by lia. lia.
    - replace (queue_size_ ep + _size) with (queue_size_ ep + _size - M + 1 * M) at 1 2
        by ring.
      rewrite Z_mod_plus_full, Z.mod_small by lia. lia. }
  destruct (Z.eqb_spec (queue_limit_ E) (QUEUE_SIZE_UNLIMITED E)) as [Heq|Hne]; cbn.
  - split; [|reflexivity]. split; auto.
  - destruct (Z_lt_ge_dec (queue_limit_ E) (queue_size_ ep + _size)) as [Hover|Hfits].
    + assert (Htrue : (queue_limit_ E <? (queue_size_ ep + _size) mod M)
                      || ((queue_size_ ep + _size) mod M <? _size) = true)
        by (apply Hsum; assumption).
      rewrite Htrue. cbn. split; [|reflexivity]. split; [discriminate|].
      intros [?|?]; [contradiction | lia].
    + assert (Hfalse : (queue_limit_ E <? (queue_size_ ep + _size) mod M)
                       || ((queue_size_ ep + _size) mod M <? _size) = false)
        by (apply not_true_is_false; intros Htrue%Hsum; lia).
      rewrite Hfalse. cbn. split; [|reflexivity]. split; [|reflexivity].
      intros _. right. lia.
Qed.

(** X28.  After the two calls that the proxy's [on_connect] makes on the
    endpoint, [set_connected(true)] and then [set_established(true)], the
    endpoint is Established if its socket is open and Closed otherwise,
    whatever its state was.  [set_established(true)] alone does not take an
    endpoint out of Connecting. *)
Theorem set_connected_then_established (ep : client_endpoint_impl) :
  state_ (exec (set_established true) (exec (set_connected true) ep))
  = (if socket_is_open_ ep then ESTABLISHED else CLOSED)
  /\ (state_ ep = CONNECTING -> exec (set_established true) ep = ep).
Proof.
  split.
  - open_endpoint ep. unfold set_established, set_connected. run_endpoint. cbn.
    destruct socket_is_open_0; cbn; reflexivity.
  - intros Hstate. open_endpoint ep. unfold set_established. run_endpoint. cbn.
    reflexivity.
Qed.


Lemma queue_bytes_app (q1 q2 : list (list Z * Z)) :
  queue_bytes (q1 ++ q2) = queue_bytes q1 + queue_bytes q2.
Proof.
  unfold queue_bytes. induction q1 as [|entry q1 IH]; cbn [app fold_right]; [lia|].
  rewrite IH. lia.
Qed.

Lemma shutdown_and_close_socket_snd (_recreate_socket : bool)
    (ep : client_endpoint_impl) :
  snd (shutdown_and_close_socket E _recreate_socket ep)
  = set_trace
      (trace_ ep
       ++ shutdown_and_close_effects E (socket_is_open_ ep) _recreate_socket)
      (set_socket_is_open false (set_state CLOSED ep)).
Proof. exact (shutdown_and_close_socket_run _recreate_socket ep). Qed.

Lemma connect_cbk_blocked_run (_error : error_code) (ep : client_endpoint_impl) :
  sending_blocked_ ep = true ->
  exec (connect_cbk E _error) ep
  = set_trace
      (trace_ ep ++ log warn_connect_cbk_endpoint_stopped
                    :: shutdown_and_close_effects E (socket_is_open_ ep) false)
      (set_socket_is_open false (set_state CLOSED ep)).
Proof.
  intros Hblocked. unfold connect_cbk, exec. unfold bind at 1. unfold gets.
  cbn [fst snd]. rewrite Hblocked.
  replace (match _error with operation_aborted => true | _ => true end) with true
    by (destruct _error; reflexivity).
  unfold bind at 1. rewrite shutdown_and_close_socket_snd. cbn.
  now rewrite <- app_assoc.
Qed.

Lemma connect_cbk_keeps_queue (_error : error_code) (ep : client_endpoint_impl) :
  queue_ (exec (connect_cbk E _error) ep) = queue_ ep
  /\ queue_size_ (exec (connect_cbk E _error) ep) = queue_size_ ep.
Proof.
  destruct (sending_blocked_ ep) eqn:Hblocked.
  - rewrite connect_cbk_blocked_run by assumption. cbn. auto.
  - destruct (endpoint_host_ ep) eqn:Hhost.
    + destruct (is_connect_failure _error) eqn:Hfailure.
      * rewrite connect_cbk_failure_run by assumption. cbn. auto.
      * open_endpoint ep.
        unfold connect_cbk, get_front, on_connect, set_connected, set_established.
        destruct _error; try discriminate.
        2: { run_endpoint. rewrite ?shutdown_and_close_socket_snd. cbn. auto. }
        all: destruct was_not_connected_0; destruct queue_0 as [|entry queue];
          destruct state_0; destruct socket_is_open_0; cbv -[app]; auto.
    + open_endpoint ep. unfold connect_cbk.
      destruct _error; run_endpoint; rewrite ?shutdown_and_close_socket_snd; cbn; auto.
Qed.

Lemma keeps_ret {A} (a : A) : keeps_queue_size_accurate E (ret a).
Proof. intros ep H. exact H. Qed.

Lemma keeps_gets {A} (f : client_endpoint_impl -> A) :
  keeps_queue_size_accurate E (gets f).
Proof. intros ep H. exact H. Qed.

Lemma keeps_bind {A B} (m : C A) (k : A -> C B) :
  keeps_queue_size_accurate E m ->
  (forall a, keeps_queue_size_accurate E (k a)) ->
  keeps_queue_size_accurate E (bind m k).
Proof. intros Hm Hk ep H. unfold bind. apply Hk, Hm, H. Qed.

Lemma keeps_modify (f : client_endpoint_impl -> client_endpoint_impl) :
  (forall ep, queue_ (f ep) = queue_ ep /\ queue_size_ (f ep) = queue_size_ ep) ->
  keeps_queue_size_accurate E (modify f).
Proof.
  intros Hf ep H. unfold queue_size_is_accurate, modify in *. cbn [snd].
  destruct (Hf ep) as [-> ->]. exact H.
Qed.

Lemma keeps_emit (ev : effect) : keeps_queue_size_accurate E (emit ev).
Proof. apply keeps_modify. intros ep. split; reflexivity. Qed.

Lemma keeps_when (b : bool) (m : C unit) :
  keeps_queue_size_accurate E m -> keeps_queue_size_accurate E (when b m).
Proof. intros Hm. destruct b; [exact Hm | apply keeps_ret]. Qed.

Lemma keeps_clear :
  keeps_queue_size_accurate E
    (bind (modify (set_queue [])) (fun _ => modify (set_queue_size 0))).
Proof.
  intros ep _. unfold queue_size_is_accurate. cbn. symmetry. apply Zmod_0_l.
Qed.

Lemma keeps_shutdown_and_close_socket (_recreate_socket : bool) :
  keeps_queue_size_accurate E (shutdown_and_close_socket E _recreate_socket).
Proof.
  intros ep H. rewrite shutdown_and_close_socket_snd.
  unfold queue_size_is_accurate in *. exact H.
Qed.

(** Walks through a computation that is built from steps that keep
    [queue_size_] accurate. *)
Ltac keeps_accurate :=
  repeat first
    [ apply keeps_clear
    | apply keeps_shutdown_and_close_socket
    | apply keeps_emit
    | apply keeps_gets
    | apply keeps_ret
    | apply keeps_when
    | apply keeps_modify; intros ?; split; reflexivity
    | apply keeps_bind; [|intros ?]
    | match goal with
      | |- keeps_queue_size_accurate _ (if ?b then _ else _) => destruct b
      end ].

(** X29.  [queue_size_] stays the number of bytes in [queue_] (as a
    [size_t]).  If it is before, it is after [queue_train] (which appends
    the train's buffer and adds its size), after [send_cbk] with any error
    code (on success it removes the front and subtracts its size, on an
    error it leaves the queue or empties it and zeroes the size), after
    [connect_cbk] and after [stop]. *)
Theorem queue_size_stays_accurate (ep : client_endpoint_impl) :
  queue_size_is_accurate E ep ->
  (forall buffer, queue_size_is_accurate E (exec (queue_train E buffer) ep))
  /\ (forall _error now, queue_size_is_accurate E (exec (send_cbk E _error now) ep))
  /\ (forall _error, queue_size_is_accurate E (exec (connect_cbk E _error) ep))
  /\ queue_size_is_accurate E (exec (stop E) ep).
Proof.
  intros Haccurate. split; [|split; [|split]].
  - intros buffer. unfold queue_size_is_accurate in *. open_endpoint ep.
    unfold queue_train, get_front.
    destruct is_sending_0; destruct queue_0 as [|entry queue];
      run_endpoint; cbn;
      rewrite ?bool_decide_eq_false_2 by (destruct queue; discriminate); cbn;
      rewrite ?queue_bytes_app, Zplus_mod_idemp_l; unfold queue_bytes; cbn;
      f_equal; lia.
  - intros _error now. destruct _error.
    1: { unfold queue_size_is_accurate in *. open_endpoint ep.
         unfold send_cbk, update_last_departure, get_front.
         destruct queue_0 as [|front [|next rest]]; run_endpoint; cbn;
           try reflexivity;
           rewrite Zminus_mod_idemp_l; unfold queue_bytes; cbn;
           first [f_equal; lia
                 |match goal with
                  | |- ?a mod _ = _ => replace a with 0 by lia; reflexivity
                  end]. }
    all: match goal with
         | |- queue_size_is_accurate _ (exec ?m _) =>
             cut (keeps_queue_size_accurate E m);
             [intros Hkeeps; apply Hkeeps; assumption|]
         end.
    all: cbv beta iota delta [send_cbk send_cbk_epilogue send_cbk_not_yet_connected
                              is_established_or_connected];
      keeps_accurate.
  - intros _error. unfold queue_size_is_accurate in *.
    destruct (connect_cbk_keeps_queue _error ep) as [-> ->]. exact Haccurate.
  - unfold queue_size_is_accurate, stop. run_endpoint. cbn. symmetry. apply Zmod_0_l.
Qed.

End EndpointFacts.

(** ** The further properties at concrete inputs *)

Lemma keepalive_second_expiry_without_pong_reports_host_witness :
  keepalive_active_ (proxy_with_keepalive true) = true
  /\ trace_ (exec (check_keepalive reference_environment)
               (exec (check_keepalive reference_environment)
                  (proxy_with_keepalive true)))
     = [sender_send (protocol.ping_command 0x1234) true;
        log warn_keepalive_no_confirmation_from_host;
        post_handle_client_error 0].
Proof.
  split; [reflexivity|].
  rewrite (keepalive_second_expiry_without_pong_reports_host reference_environment
             (proxy_with_keepalive true) eq_refl).
  reflexivity.
Defined.

Lemma pong_from_host_answers_probe_witness :
  keepalive_active_ (proxy_with_keepalive false) = true
  /\ trace_ (exec (check_keepalive reference_environment)
               (exec (on_pong reference_environment 0) (proxy_with_keepalive false)))
     = [sender_send (protocol.ping_command 0x1234) true]
  /\ exec (on_pong reference_environment 0x4321) (proxy_with_keepalive false)
     = proxy_with_keepalive false.
Proof.
  split; [reflexivity|].
  split.
  - destruct (pong_from_host_answers_probe reference_environment 0
                (proxy_with_keepalive false) eq_refl eq_refl eq_refl) as [Hhost _].
    exact (proj1 (Hhost eq_refl)).
  - destruct (pong_from_host_answers_probe reference_environment 0x4321
                (proxy_with_keepalive false) eq_refl eq_refl eq_refl) as [_ Hother].
    apply Hother. discriminate.
Defined.

Lemma start_keepalive_idempotent_and_cancellable_witness :
  is_local_clients_keepalive_enabled reference_environment = true
  /\ keepalive_active_
       (exec (start_keepalive reference_environment)
          (connected_proxy ST_REGISTERED [] [] [])) = true
  /\ keepalive_active_
       (exec (cancel_keepalive reference_environment)
          (exec (start_keepalive reference_environment)
             (connected_proxy ST_REGISTERED [] [] []))) = false.
Proof.
  split; [reflexivity|]. split; [reflexivity|].
  destruct (start_keepalive_idempotent_and_cancellable reference_environment
              (connected_proxy ST_REGISTERED [] [] [])) as (_ & Hcancel & _).
  exact (proj1 (Hcancel eq_refl)).
Defined.

Lemma assign_client_starts_handshake_witness :
  state_ (connected_proxy ST_DEREGISTERED [] [] []) = ST_DEREGISTERED
  /\ state_ (exec (assign_client reference_environment)
               (connected_proxy ST_DEREGISTERED [] [] [])) = ST_ASSIGNING
  /\ exists l,
       exec (assign_client reference_environment)
         (connected_proxy ST_REGISTERED [] [] [])
       = set_trace [log l] (connected_proxy ST_REGISTERED [] [] []).
Proof.
  split; [reflexivity|]. split.
  - destruct (assign_client_starts_handshake reference_environment
                (connected_proxy ST_DEREGISTERED [] [] [])) as [Hstart _].
    exact (proj1 (Hstart eq_refl eq_refl eq_refl eq_refl)).
  - destruct (assign_client_starts_handshake reference_environment
                (connected_proxy ST_REGISTERED [] [] [])) as [_ Hrefuse].
    apply Hrefuse. left. discriminate.
Defined.

Lemma unanswered_assign_client_restarts_sender_witness :
  state_ (connected_proxy ST_DEREGISTERED [] [] []) = ST_DEREGISTERED
  /\ trace_ (exec register_application_timer_expires
               (exec (assign_client reference_environment)
                  (connected_proxy ST_DEREGISTERED [] [] [])))
     = [sender_send (protocol.assign_client_command 0x1234 "app") true;
        log warn_request_client_timeout_trying_again;
        sender_restart].
Proof.
  split; [reflexivity|].
  destruct (unanswered_assign_client_restarts_sender reference_environment
              (connected_proxy ST_DEREGISTERED [] [] [])
              eq_refl eq_refl eq_refl eq_refl) as (_ & _ & Htrace).
  exact Htrace.
Defined.

Lemma assign_client_timeout_spares_registered_witness :
  state_ (connected_proxy ST_REGISTERED [] [] []) = ST_REGISTERED
  /\ exec (assign_client_timeout_cbk success) (connected_proxy ST_REGISTERED [] [] [])
     = connected_proxy ST_REGISTERED [] [] []
  /\ exec (assign_client_timeout_cbk operation_aborted)
       (connected_proxy ST_ASSIGNING [] [] [])
     = connected_proxy ST_ASSIGNING [] [] [].
Proof.
  split; [reflexivity|]. split.
  - apply (assign_client_timeout_spares_registered success
             (connected_proxy ST_REGISTERED [] [] [])).
    left. reflexivity.
  - apply (assign_client_timeout_spares_registered operation_aborted
             (connected_proxy ST_ASSIGNING [] [] [])).
    right. reflexivity.
Defined.

Lemma on_client_assign_ack_registers_application_witness :
  state_ (connected_proxy ST_ASSIGNING [] [] []) = ST_ASSIGNING
  /\ state_ (exec (on_client_assign_ack reference_environment 0x4321)
               (connected_proxy ST_ASSIGNING [] [] [])) = ST_REGISTERING
  /\ client_ (exec (on_client_assign_ack reference_environment 0x4321)
                (connected_proxy ST_ASSIGNING [] [] [])) = 0x4321.
Proof.
  split; [reflexivity|].
  destruct (on_client_assign_ack_registers_application reference_environment 0x4321
              (connected_proxy ST_ASSIGNING [] [] []))
    as (Hstate & Hclient & _);
    [reflexivity | discriminate | reflexivity | reflexivity | left; reflexivity
    | reflexivity | reflexivity | reflexivity | reflexivity |].
  split; [exact Hstate | exact Hclient].
Defined.

Lemma on_client_assign_ack_without_receiver_restarts_witness :
  create_local_server_ok without_local_server = false
  /\ state_ (exec (on_client_assign_ack without_local_server 0x4321)
               (set_receiver false (connected_proxy ST_ASSIGNING [] [] [])))
     = ST_DEREGISTERED
  /\ client_ (exec (on_client_assign_ack without_local_server 0x4321)
                (set_receiver false (connected_proxy ST_ASSIGNING [] [] [])))
     = 0xFFFF.
Proof.
  split; [reflexivity|].
  destruct (on_client_assign_ack_without_receiver_restarts without_local_server 0x4321
              (set_receiver false (connected_proxy ST_ASSIGNING [] [] [])))
    as (Hstate & Hclient & _);
    [reflexivity | discriminate | reflexivity | reflexivity | right; reflexivity |].
  split; [exact Hstate | exact Hclient].
Defined.

Lemma handshake_reaches_registered_witness :
  state_ unassigned_proxy = ST_DEREGISTERED
  /\ client_ unassigned_proxy = 0xFFFF
  /\ exists st',
       on_routing_info_entry reference_environment 1 add_client_1234
         (exec (on_client_assign_ack reference_environment 0x1234)
            (exec (assign_client reference_environment) unassigned_proxy))
       = Some (false, st')
       /\ state_ st' = ST_REGISTERED
       /\ client_ st' = 0x1234.
Proof.
  split; [reflexivity|]. split; [reflexivity|].
  destruct (handshake_reaches_registered reference_environment
              (fun _ => eq_refl) (fun _ _ => eq_refl) (fun _ _ => eq_refl)
              0x1234 1 add_client_1234 unassigned_proxy)
    as (st' & Hrun & _ & _ & Hstate & Hclient & _);
    [reflexivity | reflexivity | discriminate | reflexivity | reflexivity
    | reflexivity | reflexivity | right; reflexivity | reflexivity | reflexivity
    | lia |].
  exists st'. split; [exact Hrun|]. split; [exact Hstate | exact Hclient].
Defined.

Lemma delete_client_entry_deregisters_self_witness :
  protocol.e_type delete_client_1234 = protocol.RIE_DELETE_CLIENT
  /\ exists st',
       on_routing_info_entry reference_environment 1 delete_client_1234
         (connected_proxy ST_REGISTERED [service_1111_2222] [] []) = Some (false, st')
       /\ state_ st' = ST_DEREGISTERED
       /\ pending_offers_ st' = [service_1111_2222].
Proof.
  split; [reflexivity|].
  destruct (delete_client_entry_deregisters_self reference_environment 1
              delete_client_1234
              (connected_proxy ST_REGISTERED [service_1111_2222] [] []) eq_refl)
    as (st' & Hrun & _ & Hoffers & _ & _ & Hself & _).
  exists st'. split; [exact Hrun|].
  split; [exact (proj1 (Hself eq_refl)) | exact Hoffers].
Defined.

Lemma delete_service_instance_entry_reports_unavailability_witness :
  protocol.e_type delete_services_of_4321 = protocol.RIE_DELETE_SERVICE_INSTANCE
  /\ exists st',
       on_routing_info_entry reference_environment 1 delete_services_of_4321
         (connected_proxy ST_REGISTERED [] [] []) = Some (false, st')
       /\ trace_ st'
          = [local_services_erase service_1111_2222 0x4321;
             on_stop_offer_service service_1111_2222;
             host_on_availability service_1111_2222 false;
             local_services_erase service_3333_4444 0x4321;
             on_stop_offer_service service_3333_4444;
             host_on_availability service_3333_4444 false]
       /\ state_ st' = ST_REGISTERED.
Proof.
  split; [reflexivity|].
  destruct (delete_service_instance_entry_reports_unavailability reference_environment
              1 delete_services_of_4321 (connected_proxy ST_REGISTERED [] [] [])
              eq_refl)
    as (st' & Hrun & Hst' & _ & _ & Hstate & _).
  exists st'. split; [exact Hrun|]. split; [|exact Hstate].
  rewrite Hst'. reflexivity.
Defined.

Lemma routing_info_only_from_routing_host_witness :
  is_from_routing reference_environment 0x2222 0x2222 0 0 = false
  /\ on_message reference_environment 1
       (Some (0x2222, in_routing_info (Some [delete_client_1234]))) 0x2222 0 0
       (connected_proxy ST_REGISTERED [] [] [])
     = Some (set_trace [log warn_routing_info_not_from_routing_manager]
               (connected_proxy ST_REGISTERED [] [] [])).
Proof.
  split; [reflexivity|].
  destruct (routing_info_only_from_routing_host reference_environment 1 0x2222
              (Some [delete_client_1234]) 0x2222 0 0
              (connected_proxy ST_REGISTERED [] [] []) eq_refl) as [Hdrop _].
  exact (Hdrop eq_refl eq_refl).
Defined.

Lemma ping_is_answered_with_pong_witness :
  has_policy_manager reference_environment = true
  /\ on_message reference_environment 1 (Some (0, in_ping true)) 0 0 0
       (connected_proxy ST_DEREGISTERED [] [] [])
     = Some (after_send reference_environment (protocol.pong_command 0x1234)
               (connected_proxy ST_DEREGISTERED [] [] [])).
Proof.
  split; [reflexivity|].
  apply (ping_is_answered_with_pong reference_environment 1 0 0 0 0
           (connected_proxy ST_DEREGISTERED [] [] []));
    reflexivity.
Defined.

Lemma stop_offer_service_forgets_offer_witness :
  is_set (service_lt reference_environment)
    (pending_offers_ (connected_proxy ST_REGISTERED [service_1111_2222] [] []))
  /\ Forall (fun x => matches_service_instance 0x1111 0x2222 x = false)
       (pending_offers_
          (exec (stop_offer_service reference_environment 0x1234 service_1111_2222)
             (connected_proxy ST_REGISTERED [service_1111_2222] [] []))).
Proof.
  assert (Hset : is_set (service_lt reference_environment)
                   (pending_offers_
                      (connected_proxy ST_REGISTERED [service_1111_2222] [] [])))
    by (repeat constructor).
  split; [exact Hset|].
  destruct (stop_offer_service_forgets_offer reference_environment 0x1234
              service_1111_2222
              (connected_proxy ST_REGISTERED [service_1111_2222] [] []))
    as (Hforgotten & _).
  - intros a b Hsame. now apply (proj2 service_instance_lt_orders).
  - exact Hset.
  - exact Hforgotten.
Defined.

Lemma offer_then_stop_restores_pending_offers_witness :
  Forall (fun x => matches_service_instance 0x1111 0x2222 x = false)
    (pending_offers_ (connected_proxy ST_DEREGISTERED [service_3333_4444] [] []))
  /\ pending_offers_
       (exec (stop_offer_service reference_environment 0x1234 service_1111_2222)
          (exec (offer_service reference_environment 0x1234 service_1111_2222)
             (connected_proxy ST_DEREGISTERED [service_3333_4444] [] [])))
     = [service_3333_4444].
Proof.
  assert (Habsent :
    Forall (fun x => matches_service_instance 0x1111 0x2222 x = false)
      (pending_offers_ (connected_proxy ST_DEREGISTERED [service_3333_4444] [] [])))
    by (repeat constructor).
  split; [exact Habsent|].
  apply (offer_then_stop_restores_pending_offers reference_environment 0x1234 0x1234
           service_1111_2222
           (connected_proxy ST_DEREGISTERED [service_3333_4444] [] [])).
  - intros a b Hequivalent. now apply (proj2 service_instance_lt_orders).
  - exact Habsent.
Defined.

Lemma request_service_without_debounce_witness :
  request_debounce_time undebounced_environment = 0
  /\ requests_ (exec (request_service undebounced_environment 0x1234 service_1111_2222)
                  (connected_proxy ST_REGISTERED [] [] []))
     = [service_1111_2222]
  /\ trace_ (exec (request_service undebounced_environment 0x1234 service_1111_2222)
               (connected_proxy ST_REGISTERED [] [] []))
     = [base_request_service 0x1234 service_1111_2222;
        sender_send (protocol.request_service_command 0x1234 [service_1111_2222]) true].
Proof.
  split; [reflexivity|].
  destruct (request_service_without_debounce undebounced_environment 0x1234
              service_1111_2222 (connected_proxy ST_REGISTERED [] [] []) eq_refl)
    as (Hrequests & _ & _ & _ & Hregistered & _).
  split; [exact Hrequests | exact (Hregistered eq_refl eq_refl eq_refl)].
Defined.

Lemma release_service_of_sent_request_witness :
  existsb (matches_service_instance 0x1111 0x2222)
    (requests_to_debounce_ (connected_proxy ST_REGISTERED [] [service_1111_2222] []))
  = false
  /\ requests_ (exec (release_service reference_environment 0x1234 0x1111 0x2222)
                  (connected_proxy ST_REGISTERED [] [service_1111_2222] []))
     = []
  /\ trace_ (exec (release_service reference_environment 0x1234 0x1111 0x2222)
               (connected_proxy ST_REGISTERED [] [service_1111_2222] []))
     = [base_release_service 0x1234 0x1111 0x2222;
        remove_pending_subscription 0x1111 0x2222 0xFFFF 0xFFFF;
        sender_send (protocol.release_service_command 0x1234 0x1111 0x2222) true].
Proof.
  split; [reflexivity|].
  destruct (release_service_of_sent_request reference_environment 0x1234 0x1111 0x2222
              (connected_proxy ST_REGISTERED [] [service_1111_2222] []) eq_refl)
    as (_ & Hrequests & _ & Hregistered & _).
  split; [exact Hrequests | exact (Hregistered eq_refl eq_refl eq_refl)].
Defined.

Lemma clear_remote_subscriber_count_removes_instance_witness :
  remote_subscriber_count_lookup
    (remote_subscriber_count_ proxy_with_two_remote_subscribers) 0x1111 0x2222 0x10
  = Some 2
  /\ remote_subscriber_count_lookup
       (remote_subscriber_count_
          (exec (clear_remote_subscriber_count 0x1111 0x2222)
             proxy_with_two_remote_subscribers)) 0x1111 0x2222 0x10
     = None
  /\ remote_subscriber_count_lookup
       (remote_subscriber_count_
          (exec (clear_remote_subscriber_count 0x3333 0x4444)
             proxy_with_two_remote_subscribers)) 0x1111 0x2222 0x10
     = Some 2.
Proof.
  split; [vm_compute; reflexivity|]. split.
  - destruct (clear_remote_subscriber_count_removes_instance 0x1111 0x2222
                proxy_with_two_remote_subscribers) as (Hgone & _).
    exact (Hgone 0x10).
  - destruct (clear_remote_subscriber_count_removes_instance 0x3333 0x4444
                proxy_with_two_remote_subscribers) as (_ & Hkept & _).
    rewrite (Hkept 0x1111 0x2222 0x10) by discriminate.
    vm_compute. reflexivity.
Defined.

Lemma remote_subscriber_count_increment_then_decrement_witness :
  remote_subscriber_count_lookup
    (remote_subscriber_count_ proxy_with_two_remote_subscribers) 0x1111 0x2222 0x10
  = Some 2
  /\ fst (get_remote_subscriber_count 0x1111 0x2222 0x10 false
            (snd (get_remote_subscriber_count 0x1111 0x2222 0x10 true
                    proxy_with_two_remote_subscribers)))
     = 2.
Proof.
  assert (Hcount :
    remote_subscriber_count_lookup
      (remote_subscriber_count_ proxy_with_two_remote_subscribers) 0x1111 0x2222 0x10
    = Some 2) by (vm_compute; reflexivity).
  split; [exact Hcount|].
  pose proof (remote_subscriber_count_increment_then_decrement 0x1111 0x2222 0x10
                proxy_with_two_remote_subscribers) as H.
  cbv zeta in H.
  destruct H as (_ & Hbelow & _).
  - vm_compute. split; [discriminate | reflexivity].
  - refine (proj1 (Hbelow _)). vm_compute. reflexivity.
Defined.

Lemma send_pending_event_registrations_repeats_full_command_witness :
  snd (add_registrations one_registration_per_command []
         [provided_event_8001; consumed_event_8002]) <> []
  /\ send_pending_event_registrations one_registration_per_command 1000 0x1234
       (connected_proxy ST_REGISTERED [] [] [provided_event_8001; consumed_event_8002])
     = None.
Proof.
  assert (Hleft :
    snd (add_registrations one_registration_per_command []
           [provided_event_8001; consumed_event_8002]) <> [])
    by (vm_compute; discriminate).
  split; [exact Hleft|].
  apply (send_pending_event_registrations_repeats_full_command
           one_registration_per_command 1000 0x1234
           (connected_proxy ST_REGISTERED [] []
              [provided_event_8001; consumed_event_8002]));
    [exact Hleft | reflexivity | intros n; reflexivity | reflexivity].
Defined.

Section EndpointWitnesses.
Import client_endpoint.

Lemma unlimited_reconnects_never_back_off_witness :
  max_allowed_reconnects reference_environment
  = MAX_RECONNECTS_UNLIMITED reference_environment
  /\ reconnect_counter_
       (Nat.iter 40 (exec (connect_cbk reference_environment timed_out))
          (constructed reference_environment 0)) = 0
  /\ connect_timeout_
       (Nat.iter 40 (exec (connect_cbk reference_environment timed_out))
          (constructed reference_environment 0)) = 100.
Proof.
  split; [reflexivity|].
  destruct (unlimited_reconnects_never_back_off reference_environment 40 timed_out
              (constructed reference_environment 0))
    as (Hcounter & Htimeout & _);
    [reflexivity | reflexivity | reflexivity | reflexivity | cbn; lia |].
  split; [exact Hcounter | exact Htimeout].
Defined.

Lemma limited_reconnects_count_and_back_off_witness :
  max_allowed_reconnects (with_max_allowed_reconnects 2 reference_environment)
  <> MAX_RECONNECTS_UNLIMITED (with_max_allowed_reconnects 2 reference_environment)
  /\ reconnect_counter_
       (exec (connect_cbk (with_max_allowed_reconnects 2 reference_environment)
                timed_out)
          (set_reconnect_counter 31
             (established (with_max_allowed_reconnects 2 reference_environment) [])))
     = 32
  /\ connect_timeout_
       (exec (connect_cbk (with_max_allowed_reconnects 2 reference_environment)
                timed_out)
          (set_reconnect_counter 31
             (established (with_max_allowed_reconnects 2 reference_environment) [])))
     = 200.
Proof.
  split; [discriminate|].
  destruct (limited_reconnects_count_and_back_off
              (with_max_allowed_reconnects 2 reference_environment) timed_out
              (set_reconnect_counter 31
                 (established (with_max_allowed_reconnects 2 reference_environment) [])))
    as (Hcounter & _ & _ & _ & Htimeout & _);
    [discriminate | reflexivity | reflexivity | reflexivity |].
  split; [exact Hcounter | exact Htimeout].
Defined.

Lemma connect_cbk_success_resets_back_off_witness :
  state_
    (set_state CONNECTING
       (set_connect_timeout 800
          (set_reconnect_counter 34 (established reference_environment []))))
  = CONNECTING
  /\ connect_timeout_
       (exec (connect_cbk reference_environment success)
          (set_state CONNECTING
             (set_connect_timeout 800
                (set_reconnect_counter 34 (established reference_environment [])))))
     = 100
  /\ reconnect_counter_
       (exec (connect_cbk reference_environment success)
          (set_state CONNECTING
             (set_connect_timeout 800
                (set_reconnect_counter 34 (established reference_environment [])))))
     = 0
  /\ state_
       (exec (connect_cbk reference_environment success)
          (set_state CONNECTING
             (set_connect_timeout 800
                (set_reconnect_counter 34 (established reference_environment [])))))
     = ESTABLISHED
  /\ state_
       (exec (connect_cbk reference_environment already_connected)
          (constructed reference_environment 0))
     = CLOSED.
Proof.
  split; [reflexivity|].
  destruct (connect_cbk_success_resets_back_off reference_environment success
              (set_state CONNECTING
                 (set_connect_timeout 800
                    (set_reconnect_counter 34 (established reference_environment [])))))
    as (Htimeout & Hcounter & _ & _ & Hstate & _);
    [left; reflexivity | reflexivity | reflexivity |].
  destruct (connect_cbk_success_resets_back_off reference_environment already_connected
              (constructed reference_environment 0))
    as (_ & _ & _ & _ & Hclosed & _);
    [right; reflexivity | reflexivity | reflexivity |].
  split; [exact Htimeout|]. split; [exact Hcounter|].
  split; [exact Hstate | exact Hclosed].
Defined.

Lemma stopped_endpoint_stays_silent_witness :
  sending_blocked_
    (exec (stop reference_environment) (established reference_environment [])) = true
  /\ connect_timer_
       (exec (connect_cbk reference_environment timed_out)
          (exec (stop reference_environment) (established reference_environment [])))
     = None.
Proof.
  split; [reflexivity|].
  destruct (stopped_endpoint_stays_silent reference_environment timed_out
              (exec (stop reference_environment) (established reference_environment [])))
    as [_ Hsilent].
  destruct (Hsilent eq_refl (connect_cbk reference_environment timed_out)
              (or_introl eq_refl)) as (_ & Htimer & _).
  exact Htimer.
Defined.

Lemma check_queue_limit_is_exact_witness :
  queue_size_ (established reference_environment [([1; 2; 3], 0)]) = 3
  /\ fst (check_queue_limit reference_environment 65533
            (established reference_environment [([1; 2; 3], 0)])) = true
  /\ fst (check_queue_limit reference_environment 65534
            (established reference_environment [([1; 2; 3], 0)])) <> true.
Proof.
  split; [reflexivity|].
  split.
  - destruct (check_queue_limit_is_exact reference_environment 65533
                (established reference_environment [([1; 2; 3], 0)]))
      as [Hexact _];
      [vm_compute; discriminate | vm_compute; split; [discriminate | reflexivity] | lia
      | vm_compute; split; [discriminate | reflexivity] |].
    apply Hexact. right. vm_compute. discriminate.
  - destruct (check_queue_limit_is_exact reference_environment 65534
                (established reference_environment [([1; 2; 3], 0)]))
      as [Hexact _];
      [vm_compute; discriminate | vm_compute; split; [discriminate | reflexivity] | lia
      | vm_compute; split; [discriminate | reflexivity] |].
    intros Haccepted. apply Hexact in Haccepted.
    destruct Haccepted as [Hunlimited | Hfits];
      [discriminate | vm_compute in Hfits; apply Hfits; reflexivity].
Defined.

Lemma set_connected_then_established_witness :
  state_ (set_state CONNECTING (established reference_environment [])) = CONNECTING
  /\ exec (set_established true)
       (set_state CONNECTING (established reference_environment []))
     = set_state CONNECTING (established reference_environment [])
  /\ state_ (exec (set_established true)
               (exec (set_connected true)
                  (set_state CONNECTING (established reference_environment []))))
     = ESTABLISHED.
Proof.
  split; [reflexivity|].
  destruct (set_connected_then_established
              (set_state CONNECTING (established reference_environment [])))
    as [Hboth Halone].
  split; [exact (Halone eq_refl) | exact Hboth].
Defined.

Lemma queue_size_stays_accurate_witness :
  queue_size_is_accurate reference_environment
    (established reference_environment [([1; 2; 3], 0)])
  /\ queue_size_is_accurate reference_environment
       (exec (send_cbk reference_environment success 0)
          (exec (queue_train reference_environment [4; 5])
             (established reference_environment [([1; 2; 3], 0)]))).
Proof.
  assert (Haccurate :
    queue_size_is_accurate reference_environment
      (established reference_environment [([1; 2; 3], 0)])) by reflexivity.
  split; [exact Haccurate|].
  destruct (queue_size_stays_accurate reference_environment
              (established reference_environment [([1; 2; 3], 0)]) Haccurate)
    as (Htrain & _).
  destruct (queue_size_stays_accurate reference_environment
              (exec (queue_train reference_environment [4; 5])
                 (established reference_environment [([1; 2; 3], 0)]))
              (Htrain [4; 5]))
    as (_ & Hsent & _).
  exact (Hsent success 0).
Defined.

End EndpointWitnesses.
